(** * Instagram Followers Analyzer: the parsing and set-analysis core

    A shallow embedding of [app.py]: the [InstagramUser] entity, the four
    export parsers and [analyze], with the properties the specification
    states about them.

    Python values are modelled as follows.
    - [str] is [string]; one [ascii] stands for one code point below 256,
      and [lower], [strip] are Python's [str.lower] and [str.strip] on
      that range.
    - [bytes] is [list byte]; the decoder [json.loads(content.decode('utf-8'))]
      is library code and is a parameter [loads] of the parsers.
    - a decoded JSON document is a [json] tree; a [dict] is an association
      list in insertion order, read by its first binding of a key.
    - a [set] of [InstagramUser] is a finite map from the key the class
      hashes and compares on, [username.lower()], to the stored object;
      [timestamps] is a finite map from [str] to the stored JSON value.
    - exceptions are values of [exn]; a statement block is a computation in
      a state-and-exception monad whose state survives a raise, so that
      [try]/[except] resumes from the state reached so far. *)

From Stdlib Require Import ZArith Ascii String List Init.Byte.
From stdpp Require Import base option list strings gmap fin_maps sorting.

Set Warnings "-clear-no-such-hyp".

Open Scope string_scope.
Open Scope Z_scope.

(** ** Python values *)

(** A Python [float]: only its class matters to the parsers (truth value). *)
Inductive pyfloat : Type :=
| FZero (neg : bool)
| FFinite (neg : bool) (m : positive) (e : Z)
| FInf (neg : bool)
| FNaN.

(** What [json.loads] returns. *)
#[warnings="-register-all"]
Inductive json : Type :=
| JNull
| JBool (b : bool)
| JInt (n : Z)
| JFloat (f : pyfloat)
| JStr (s : string)
| JArr (l : list json)
| JObj (d : list (string * json)).

Abbreviation bytes := (list byte).

Inductive exn : Type :=
| JSONDecodeError
| UnicodeDecodeError
| AttributeError
| TypeError
| KeyError
| IndexError
| RecursionError
| ValueError.

Inductive result (A : Type) : Type :=
| Ok (a : A)
| Raise (e : exn).
Arguments Ok {A} a.
Arguments Raise {A} e.

Definition result_map {A B} (f : A → B) (r : result A) : result B :=
  match r with
  | Ok a => Ok (f a)
  | Raise e => Raise e
  end.

(** *** [str] methods *)

(** [str.isspace] on one character. *)
Definition isspace (c : ascii) : bool :=
  let n := N_of_ascii c in
  (((9 <=? n) && (n <=? 13)) || ((28 <=? n) && (n <=? 32))
   || (n =? 133) || (n =? 160))%N.

(** [str.lower] on one character: A-Z and the Latin-1 capitals. *)
Definition lower_char (c : ascii) : ascii :=
  let n := N_of_ascii c in
  if (((65 <=? n) && (n <=? 90))
      || ((192 <=? n) && (n <=? 222) && negb (n =? 215)))%N
  then ascii_of_N (n + 32)
  else c.

Fixpoint lower (s : string) : string :=
  match s with
  | EmptyString => EmptyString
  | String c s' => String (lower_char c) (lower s')
  end.

Fixpoint lstrip (s : string) : string :=
  match s with
  | EmptyString => EmptyString
  | String c s' => if isspace c then lstrip s' else s
  end.

Fixpoint rstrip (s : string) : string :=
  match s with
  | EmptyString => EmptyString
  | String c s' =>
      match rstrip s' with
      | EmptyString => if isspace c then EmptyString else String c EmptyString
      | r => String c r
      end
  end.

Definition strip (s : string) : string := rstrip (lstrip s).

(** The characters of a [str], as iteration yields them. *)
Fixpoint chars (s : string) : list json :=
  match s with
  | EmptyString => []
  | String c s' => JStr (String c EmptyString) :: chars s'
  end.

(** *** Operations on arbitrary values *)

(** [bool(v)]. *)
Definition truthy (v : json) : bool :=
  match v with
  | JNull => false
  | JBool b => b
  | JInt n => negb (n =? 0)
  | JFloat (FZero _) => false
  | JFloat _ => true
  | JStr s => negb (String.eqb s "")
  | JArr l => match l with [] => false | _ => true end
  | JObj d => match d with [] => false | _ => true end
  end.

Fixpoint dict_get (k : string) (d : list (string * json)) : option json :=
  match d with
  | [] => None
  | (k', v) :: d' => if String.eqb k k' then Some v else dict_get k d'
  end.

(** [v.get(k, dflt)]: only a [dict] has the method. *)
Definition py_get (v : json) (k : string) (dflt : json) : result json :=
  match v with
  | JObj d => Ok (default dflt (dict_get k d))
  | _ => Raise AttributeError
  end.

(** [v.strip()]: only a [str] has the method. *)
Definition py_strip (v : json) : result string :=
  match v with
  | JStr s => Ok (strip s)
  | _ => Raise AttributeError
  end.

(** [iter(v)], as a [for] loop calls it: the elements of a list, the
    characters of a [str], the keys of a [dict]; nothing else is iterable. *)
Definition py_iter (v : json) : result (list json) :=
  match v with
  | JArr l => Ok l
  | JStr s => Ok (chars s)
  | JObj d => Ok (map (λ kv, JStr kv.1) d)
  | _ => Raise TypeError
  end.

(** [v[0]]. The keys of a decoded object are strings, so [0] is never one. *)
Definition py_index0 (v : json) : result json :=
  match v with
  | JArr (x :: _) => Ok x
  | JArr [] => Raise IndexError
  | JStr (String c _) => Ok (JStr (String c EmptyString))
  | JStr EmptyString => Raise IndexError
  | JObj _ => Raise KeyError
  | _ => Raise TypeError
  end.

(** [isinstance(v, list)]. *)
Definition isinstance_list (v : json) : bool :=
  match v with
  | JArr _ => true
  | _ => false
  end.

(** ** Statements: state and exceptions *)

Definition M (St A : Type) : Type := St → result A * St.

Definition ret {St A} (a : A) : M St A := λ s, (Ok a, s).

Definition bind {St A B} (m : M St A) (k : A → M St B) : M St B :=
  λ s, match m s with
       | (Ok a, s') => k a s'
       | (Raise e, s') => (Raise e, s')
       end.

Notation "'let!' x ':=' m 'in' k" := (bind m (λ x, k))
  (at level 10, x name, m at level 100, k at level 200,
   format "'[v' 'let!'  x  ':='  m  'in' '/' k ']'").

(** An expression that may raise and reads no variable. *)
Definition lift {St A} (r : result A) : M St A := λ s, (r, s).

(** An in-place update of the local variables. *)
Definition modify {St} (f : St → St) : M St unit := λ s, (Ok tt, f s).

(** [for x in l: body]. *)
Fixpoint for_each {St A} (l : list A) (body : A → M St unit) : M St unit :=
  match l with
  | [] => ret tt
  | x :: l' => let! _ := body x in for_each l' body
  end.

(** [try: body except caught: handler]. *)
Definition try_except {St} (body : M St unit) (caught : exn → bool)
    (handler : M St unit) : M St unit :=
  λ s, match body s with
       | (Raise e, s') => if caught e then handler s' else (Raise e, s')
       | r => r
       end.

(** The function body [m] run on fresh locals [s0]; [return] reads [out]. *)
Definition run {St A} (m : M St unit) (s0 : St) (out : St → A) : result A :=
  match m s0 with
  | (Ok _, s) => Ok (out s)
  | (Raise e, _) => Raise e
  end.

(** ** The domain entity *)

Record InstagramUser : Type := User { username : string }.

Definition profile_url (u : InstagramUser) : string :=
  "https://www.instagram.com/" ++ username u.

Definition avatar_url (u : InstagramUser) : string :=
  "https://api.dicebear.com/7.x/avataaars/svg?seed=" ++ username u
  ++ "&backgroundColor=b6e3f4,c0aede,d1d4f9,ffd5dc,ffdfbf".

(** What [__hash__] and [__eq__] look at. *)
Definition key (u : InstagramUser) : string := lower (username u).

(** [InstagramUser.__eq__] between two users. *)
Definition user_eqb (u v : InstagramUser) : bool :=
  String.eqb (lower (username u)) (lower (username v)).

Section Hash.
(** [hash] on [str]: fixed within one run of the interpreter. *)
Variable hash : string → Z.

(** [InstagramUser.__hash__]. *)
Definition user_hash (u : InstagramUser) : Z := hash (lower (username u)).
End Hash.

(** ** Sets of users *)

(** A [set] of users holds at most one object per [key]. *)
Abbreviation users := (gmap string InstagramUser).
Abbreviation timestamps := (gmap string json).

(** [s.add(u)]: an equal member already there is kept. *)
Definition set_add (u : InstagramUser) (s : users) : users :=
  match s !! key u with
  | Some _ => s
  | None => <[key u := u]> s
  end.

(** [u in s]. *)
Definition set_in (u : InstagramUser) (s : users) : bool :=
  bool_decide (is_Some (s !! key u)).

(** [len(s)]. *)
Definition set_len (s : users) : Z := Z.of_nat (size s).

(** [a - b]: the members of [a] with no equal in [b]. *)
Definition set_sub (a b : users) : users := a ∖ b.

(** [a & b]: CPython walks the smaller operand ([b] on a tie) and keeps
    its members that have an equal in the other. *)
Definition set_and (a b : users) : users :=
  if bool_decide (size a < size b)%nat then a ∩ b else b ∩ a.

(** [a | b]: [a], then the members of [b] with no equal in [a]. *)
Definition set_or (a b : users) : users := a ∪ b.

(** [a == b] on sets: the same members up to [__eq__]. *)
Definition set_equal (a b : users) : Prop := dom a = dom b.

(** [a.isdisjoint(b)]. *)
Definition set_isdisjoint (a b : users) : Prop := dom a ## dom b.

(** ** The parsers *)

(** The exceptions the parsers catch:
    [except (json.JSONDecodeError, UnicodeDecodeError)]. *)
Definition decode_error (e : exn) : bool :=
  match e with
  | JSONDecodeError | UnicodeDecodeError => true
  | _ => false
  end.

Section Parsers.
(** [json.loads(content.decode('utf-8'))]. *)
Variable loads : bytes → result json.

(** *** [parse_followers] *)

(** One turn of [for item in string_list]. *)
Definition followers_item (item : json) : M users unit :=
  let! value := lift (py_get item "value" JNull) in
  if truthy value then
    let! stripped := lift (py_strip value) in
    modify (set_add (User stripped))
  else ret tt.

(** One turn of [for entry in data]. *)
Definition followers_entry (entry : json) : M users unit :=
  let! string_list := lift (py_get entry "string_list_data" (JArr [])) in
  let! items := lift (py_iter string_list) in
  for_each items followers_item.

(** One turn of [for content in files]; [continue] ends the turn. *)
Definition followers_file (content : bytes) : M users unit :=
  try_except
    (let! data := lift (loads content) in
     if negb (isinstance_list data) then ret tt
     else
       let! entries := lift (py_iter data) in
       for_each entries followers_entry)
    decode_error
    (ret tt).

Definition parse_followers (files : list bytes) : result users :=
  run (for_each files followers_file) ∅ id.

(** *** [parse_followers_with_timestamps] *)

Definition followers_ts_item (item : json) : M (users * timestamps) unit :=
  let! value := lift (py_get item "value" JNull) in
  if truthy value then
    let! username := lift (py_strip value) in
    let! _ := modify (prod_map (set_add (User username)) id) in
    let! ts := lift (py_get item "timestamp" JNull) in
    if truthy ts then modify (prod_map id <[lower username := ts]>)
    else ret tt
  else ret tt.

Definition followers_ts_entry (entry : json) : M (users * timestamps) unit :=
  let! string_list := lift (py_get entry "string_list_data" (JArr [])) in
  let! items := lift (py_iter string_list) in
  for_each items followers_ts_item.

Definition followers_ts_file (content : bytes) : M (users * timestamps) unit :=
  try_except
    (let! data := lift (loads content) in
     if negb (isinstance_list data) then ret tt
     else
       let! entries := lift (py_iter data) in
       for_each entries followers_ts_entry)
    decode_error
    (ret tt).

Definition parse_followers_with_timestamps (files : list bytes)
    : result (users * timestamps) :=
  run (for_each files followers_ts_file) (∅, ∅) id.

(** *** [parse_following] *)

(** One turn of [for entry in relationships]. *)
Definition following_entry (entry : json) : M users unit :=
  let! title := lift (py_get entry "title" JNull) in
  if truthy title then
    let! stripped := lift (py_strip title) in
    modify (set_add (User stripped))
  else ret tt.

(** The early [return users] leaves the [try] with the set as it is, as
    falling out of it does. *)
Definition parse_following (content : bytes) : result users :=
  run
    (try_except
       (let! data := lift (loads content) in
        let! relationships :=
          lift (py_get data "relationships_following" (JArr [])) in
        if negb (isinstance_list relationships) then ret tt
        else
          let! entries := lift (py_iter relationships) in
          for_each entries following_entry)
       decode_error
       (ret tt))
    ∅ id.

(** *** [parse_following_with_timestamps] *)

Definition following_ts_entry (entry : json) : M (users * timestamps) unit :=
  let! title := lift (py_get entry "title" JNull) in
  if truthy title then
    let! username := lift (py_strip title) in
    let! _ := modify (prod_map (set_add (User username)) id) in
    let! string_list := lift (py_get entry "string_list_data" (JArr [])) in
    if truthy string_list then
      let! first := lift (py_index0 string_list) in
      let! ts := lift (py_get first "timestamp" JNull) in
      if truthy ts then modify (prod_map id <[lower username := ts]>)
      else ret tt
    else ret tt
  else ret tt.

Definition parse_following_with_timestamps (content : bytes)
    : result (users * timestamps) :=
  run
    (try_except
       (let! data := lift (loads content) in
        let! relationships :=
          lift (py_get data "relationships_following" (JArr [])) in
        if negb (isinstance_list relationships) then ret tt
        else
          let! entries := lift (py_iter relationships) in
          for_each entries following_ts_entry)
       decode_error
       (ret tt))
    (∅, ∅) id.
End Parsers.

(** ** The analysis *)

Record AnalysisResult : Type := {
  not_following_back : users;
  not_followed_by_me : users;
  mutual : users;
  total_followers : Z;
  total_following : Z
}.

Definition analyze (followers following : users) : AnalysisResult :=
  {| not_following_back := set_sub following followers;
     not_followed_by_me := set_sub followers following;
     mutual := set_and followers following;
     total_followers := set_len followers;
     total_following := set_len following |}.

(** * The export, the pages and the session

    The rest of [app.py], as far as it computes: the frames
    [generate_excel] builds for the spreadsheet writer, the steps of
    [render_stepper], the users [render_user_cards] shows and what
    [init_state] and [main] do to [st.session_state]. Widgets are
    inputs; what is drawn is not modelled. The timestamps are the values
    the parsers stored, whatever the source annotates ([Dict[str, int]]). *)

(** ** Built-ins *)

(** [iter(s)] on a set: every member once, in an order the language
    leaves to the interpreter; here the order of the map. *)
Definition set_iter (s : users) : list InstagramUser := (map_to_list s).*2.

(** [bool(s)] on a set. *)
Definition set_bool (s : users) : bool := negb (size s =? 0)%nat.

(** One step of a stable insertion: [x] goes behind the members that come
    strictly before it. *)
Fixpoint insert_sorted {A} (before : A → A → bool) (x : A) (l : list A)
    : list A :=
  match l with
  | [] => [x]
  | y :: l' =>
      if before y x then y :: insert_sorted before x l' else x :: y :: l'
  end.

(** [sorted(l, key=key, reverse=reverse)] and [l.sort(key=key,
    reverse=reverse)]: keys are compared with [<], members of equal keys
    keep their order, also when reversed. *)
Definition py_sorted {A K} (lt : K → K → bool) (key : A → K) (reverse : bool)
    (l : list A) : list A :=
  foldr
    (insert_sorted
       (λ y x, if reverse then lt (key x) (key y) else lt (key y) (key x)))
    [] l.

(** [l[:n]]. *)
Definition py_prefix {A} (n : Z) (l : list A) : list A :=
  if 0 <=? n then take (Z.to_nat n) l
  else take (Z.to_nat (Z.of_nat (length l) + n)) l.


(** ** Frames *)

(** A [pandas.DataFrame]: its columns in order, each with its cells. *)
Abbreviation DataFrame := (list (string * list json)).

(** The keys of [record] that [seen] lacks, after [seen]. *)
Definition add_keys (seen : list string) (record : list (string * json))
    : list string :=
  foldl (λ acc kv, if bool_decide (kv.1 ∈ acc) then acc else (acc ++ [kv.1])%list)
    seen record.

(** [pd.DataFrame(data)] on a list of records: a column per key, in the
    order the keys first appear; no column at all for an empty list. *)
Definition frame_of_records (data : list (list (string * json))) : DataFrame :=
  map (λ k, (k, map (λ r, default (JFloat FNaN) (dict_get k r)) data))
    (foldl add_keys [] data).

(** ** [generate_excel]: the frames it builds, before the writer has them *)

(** ["Métrica"]. *)
Definition Metrica : string := String "M" (String "233" "trica").

(** [pd.DataFrame(summary_data)]. *)
Definition summary_data (results : AnalysisResult) : DataFrame :=
  [(Metrica,
    [JStr "Total Seguidores"; JStr "Total Seguidos";
     JStr "No te siguen de vuelta"; JStr "No sigues de vuelta";
     JStr "Seguidores mutuos"]);
   ("Valor",
    [JInt (total_followers results); JInt (total_following results);
     JInt (set_len (not_following_back results));
     JInt (set_len (not_followed_by_me results));
     JInt (set_len (mutual results))])].

(** The frame [df] of one sheet of users. *)
Definition users_frame (users : users) : DataFrame :=
  if set_bool users then
    frame_of_records
      (map (λ u, [("Usuario", JStr (username u));
                  ("Perfil", JStr (profile_url u))])
         (py_sorted String.ltb (λ x, lower (username x)) false
            (set_iter users)))
  else [("Usuario", []); ("Perfil", [])].

(** ** [render_stepper] *)

(** The icon of a completed step, U+2713, in its UTF-8 form. *)
Definition check_mark : string := "✓".

Definition steps : list (string * string) :=
  [("1", "Seguidores"); ("2", "Seguidos"); ("3", "Analizar");
   ("4", "Resultados")].

(** The status, icon and label of the step at index [i]: what its [div]
    is built from. *)
Definition stepper_part (current_step : Z) (i : nat) (step : string * string)
    : string * string * string :=
  let step_num := Z.of_nat i + 1 in
  if step_num <? current_step then ("completed", check_mark, step.2)
  else if step_num =? current_step then ("active", step.1, step.2)
  else ("pending", step.1, step.2).

(** [steps_html_parts], before the parts are joined. *)
Definition steps_html_parts (current_step : Z)
    : list (string * string * string) :=
  imap (stepper_part current_step) steps.

(** ** The session *)

(** What the code keeps in [st.session_state]. *)
Inductive session_value : Type :=
| SNone
| SUsers (s : users)
| STimestamps (ts : timestamps)
| SResults (r : AnalysisResult)
| SOther (v : json).

Abbreviation session := (gmap string session_value).

(** [defaults], in the order of its items. *)
Definition defaults : list (string * session_value) :=
  [("followers", SNone); ("following", SNone); ("results", SNone);
   ("followers_timestamps", STimestamps ∅);
   ("following_timestamps", STimestamps ∅)].

Definition init_state (ss : session) : session :=
  foldl
    (λ acc kv,
       match acc !! kv.1 with
       | Some _ => acc
       | None => <[kv.1 := kv.2]> acc
       end)
    ss defaults.

(** [v is not None] and [bool(v)]. *)
Definition is_not_none (v : session_value) : bool :=
  match v with
  | SNone => false
  | _ => true
  end.

Definition value_bool (v : session_value) : bool :=
  match v with
  | SNone => false
  | SUsers s => set_bool s
  | STimestamps ts => negb (size ts =? 0)%nat
  | SResults _ => true
  | SOther v => truthy v
  end.

(** A value used as a set of users by [analyze]. *)
Definition as_users (v : session_value) : result users :=
  match v with
  | SUsers s => Ok s
  | _ => Raise TypeError
  end.

(** ** [main], as far as it reads and writes the keys of [defaults]

    The keys of the widgets are left out. The results page,
    [render_results], is a parameter of [main]. *)

(** What a run shows of its progress: the step handed to
    [render_stepper], and [st.success], [st.warning], [st.error]. *)
Inductive notice : Type :=
| Stepper (step : Z)
| Success (count : Z)
| Warning
| Error.

(** The session and what has been shown so far in the run. *)
Record page : Type := { session_state : session; notices : list notice }.

(** The widgets of one run: the uploaded contents, and whether the run
    was started by a click on "Analizar". *)
Record widgets : Type := {
  followers_files : list bytes;
  following_file : option bytes;
  analizar : bool
}.

(** [st.session_state.k]. *)
Definition session_read (k : string) : M page session_value :=
  λ p, (match session_state p !! k with
        | Some v => Ok v
        | None => Raise AttributeError
        end, p).

(** [st.session_state.k = v]. *)
Definition session_write (k : string) (v : session_value) : M page unit :=
  modify (λ p, {| session_state := <[k := v]> (session_state p);
                  notices := notices p |}).

Definition show (n : notice) : M page unit :=
  modify (λ p, {| session_state := session_state p;
                  notices := notices p ++ [n] |}).

(** [except Exception]. *)
Definition any_exception (e : exn) : bool := true.

(** The step [main] computes. *)
Definition main_step : M page Z :=
  let! followers := session_read "followers" in
  let! following := session_read "following" in
  let! results := session_read "results" in
  ret (if is_not_none results then 4
       else if is_not_none following then 3
       else if is_not_none followers then 2
       else 1).

Section Main.
Variable loads : bytes → result json.

(** [if followers_files: ...] *)
Definition upload_followers (contents : list bytes) : M page unit :=
  match contents with
  | [] => ret tt
  | _ =>
      try_except
        (let! parsed := lift (parse_followers_with_timestamps loads contents) in
         if set_bool parsed.1 then
           let! _ := session_write "followers" (SUsers parsed.1) in
           let! _ := session_write "followers_timestamps"
                       (STimestamps parsed.2) in
           show (Success (set_len parsed.1))
         else show Warning)
        any_exception
        (show Error)
  end.

(** [if following_file: ...] *)
Definition upload_following (file : option bytes) : M page unit :=
  match file with
  | None => ret tt
  | Some content =>
      try_except
        (let! parsed :=
           lift (parse_following_with_timestamps loads content) in
         if set_bool parsed.1 then
           let! _ := session_write "following" (SUsers parsed.1) in
           let! _ := session_write "following_timestamps"
                       (STimestamps parsed.2) in
           show (Success (set_len parsed.1))
         else show Warning)
        any_exception
        (show Error)
  end.

(** The button "Analizar"; the result tells whether [st.rerun()] ended
    the run. *)
Definition analizar_section (clicked : bool) : M page bool :=
  let! followers := session_read "followers" in
  let! both :=
    if value_bool followers then
      let! following := session_read "following" in
      ret (value_bool following)
    else ret false in
  if both && clicked then
    let! followers := session_read "followers" in
    let! following := session_read "following" in
    let! F := lift (as_users followers) in
    let! G := lift (as_users following) in
    let! _ := session_write "results" (SResults (analyze F G)) in
    ret true
  else ret false.

(** [render_results(st.session_state.results)]: the charts, the export,
    the cards or the table and the button "Nuevo análisis". It draws with
    the libraries, compares the timestamps the session holds and may
    delete the keys of the session: it may raise and may leave any
    session. *)
Variable render_results : session_value → M page unit.

Definition main (w : widgets) : M page unit :=
  let! _ := modify (λ p, {| session_state := init_state (session_state p);
                            notices := notices p |}) in
  let! step := main_step in
  let! _ := show (Stepper step) in
  let! results := session_read "results" in
  let! rerun :=
    if is_not_none results then ret false
    else
      let! _ := upload_followers (followers_files w) in
      let! _ := upload_following (following_file w) in
      analizar_section (analizar w) in
  if rerun then ret tt
  else
    let! results := session_read "results" in
    if value_bool results then render_results results
    else ret tt.
End Main.

(** ** Comparing decoded values

    [max] and [>] on what [json.loads] returns. *)

(** A number as Python compares it: [z * 2 ^ e], an infinity or NaN.
    [FFinite neg m e] is read as [m * 2 ^ e], negated when [neg]. *)
Inductive number : Type :=
| Finite (z e : Z)
| Infinite (neg : bool)
| NaN.

Definition float_number (f : pyfloat) : number :=
  match f with
  | FZero _ => Finite 0 0
  | FFinite neg m e => Finite (if neg then Z.neg m else Z.pos m) e
  | FInf neg => Infinite neg
  | FNaN => NaN
  end.

(** [bool] is a subclass of [int]: [True] is 1 and [False] is 0. *)
Definition as_number (v : json) : option number :=
  match v with
  | JBool b => Some (Finite (if b then 1 else 0) 0)
  | JInt n => Some (Finite n 0)
  | JFloat f => Some (float_number f)
  | _ => None
  end.

(** [a > b] on numbers, exact also between [int] and [float]; false as
    soon as one of them is NaN. *)
Definition number_gt (a b : number) : bool :=
  match a, b with
  | NaN, _ | _, NaN => false
  | Infinite na, Infinite nb => negb na && nb
  | Infinite na, Finite _ _ => negb na
  | Finite _ _, Infinite nb => nb
  | Finite z e, Finite z' e' =>
      Z.shiftl z' (e' - Z.min e e') <? Z.shiftl z (e - Z.min e e')
  end.

(** [a is b or a == b] on numbers: every NaN [json.loads] returns is the
    one object [json.decoder.NaN]. *)
Definition number_same (a b : number) : bool :=
  match a, b with
  | NaN, NaN => true
  | Infinite na, Infinite nb => Bool.eqb na nb
  | Finite z e, Finite z' e' =>
      Z.shiftl z (e - Z.min e e') =? Z.shiftl z' (e' - Z.min e e')
  | _, _ => false
  end.

(** The keys of a [dict], each once. *)
Definition dict_keys (d : list (string * json)) : list string :=
  remove_dups d.*1.

(** [a is b or a == b], as the comparison of two lists asks of their
    members. *)
Fixpoint py_same (a b : json) {struct a} : bool :=
  match a with
  | JNull => match b with JNull => true | _ => false end
  | JStr s => match b with JStr t => String.eqb s t | _ => false end
  | JArr l =>
      match b with
      | JArr l' =>
          (fix same_all (l l' : list json) {struct l} : bool :=
             match l, l' with
             | [], [] => true
             | x :: l, y :: l' => py_same x y && same_all l l'
             | _, _ => false
             end) l l'
      | _ => false
      end
  | JObj d =>
      match b with
      | JObj d' =>
          (length (dict_keys d) =? length (dict_keys d'))%nat
          && (fix same_values (seen : list string) (d0 : list (string * json))
                  {struct d0} : bool :=
                match d0 with
                | [] => true
                | kv :: d1 =>
                    (if bool_decide (kv.1 ∈ seen) then true
                     else match dict_get kv.1 d' with
                          | Some v' => py_same kv.2 v'
                          | None => false
                          end)
                    && same_values (kv.1 :: seen) d1
                end) [] d
      | _ => false
      end
  | JBool _ | JInt _ | JFloat _ =>
      match as_number a, as_number b with
      | Some x, Some y => number_same x y
      | _, _ => false
      end
  end.

(** [a > b]: between numbers, between strings and between lists; a list
    is compared by its first member that is not the same as the other's,
    or by its length. Anything else is a [TypeError]. *)
Fixpoint py_gt (a b : json) {struct a} : result bool :=
  match a with
  | JStr s =>
      match b with
      | JStr t => Ok (String.ltb t s)
      | _ => Raise TypeError
      end
  | JArr l =>
      match b with
      | JArr l' =>
          (fix gt_list (l l' : list json) {struct l} : result bool :=
             match l, l' with
             | [], _ => Ok false
             | _ :: _, [] => Ok true
             | x :: l, y :: l' =>
                 if py_same x y then gt_list l l' else py_gt x y
             end) l l'
      | _ => Raise TypeError
      end
  | JBool _ | JInt _ | JFloat _ =>
      match as_number a, as_number b with
      | Some x, Some y => Ok (number_gt x y)
      | _, _ => Raise TypeError
      end
  | JNull | JObj _ => Raise TypeError
  end.

(** [max(a, b)]: [b] when [b > a], else [a]. *)
Definition py_max (a b : json) : result json :=
  match py_gt b a with
  | Ok true => Ok b
  | Ok false => Ok a
  | Raise e => Raise e
  end.

(** ** [render_user_cards] *)

(** [d.get(k, 0)] on a map of timestamps. *)
Definition ts_get (d : timestamps) (k : string) : json :=
  default (JInt 0) (d !! k).

(** One turn of [for u in users]; no turn is run after one that raised. *)
Definition display_ts_turn (followers_ts following_ts : timestamps)
    (acc : result timestamps) (u : InstagramUser) : result timestamps :=
  match acc with
  | Raise e => Raise e
  | Ok display_ts =>
      let key := lower (username u) in
      match py_max (ts_get followers_ts key) (ts_get following_ts key) with
      | Ok ts => Ok (<[key := ts]> display_ts)
      | Raise e => Raise e
      end
  end.

(** [display_ts]: the timestamps the cards of a category show. *)
Definition display_ts (category : string) (users : users)
    (followers_ts following_ts : timestamps) : result timestamps :=
  if String.eqb category "ghosts" then Ok following_ts
  else if String.eqb category "fans" then Ok followers_ts
  else
    foldl (display_ts_turn followers_ts following_ts) (Ok ∅)
      (set_iter users).


Section Cards.
(** [user_list.sort(key=lambda u: display_ts.get(u.username.lower(), 0),
    reverse=True)] on [list(users)]: how the interpreter orders keys it
    cannot compare consistently, and when it raises on them, is its own. *)
Variable sort_recent :
  timestamps → list InstagramUser → result (list InstagramUser).

End Cards.

(** [total_users], [visible_users] and the users the button "Ver más"
    counts as [remaining]. *)
Definition total_users (user_list : list InstagramUser) : Z :=
  Z.of_nat (length user_list).

Definition visible_users (items_to_show : Z) (user_list : list InstagramUser)
    : list InstagramUser :=
  py_prefix items_to_show user_list.

Definition ver_mas (items_to_show : Z) (user_list : list InstagramUser)
    : option Z :=
  if items_to_show <? total_users user_list
  then Some (total_users user_list - items_to_show)
  else None.

(** * Vocabulary of the properties *)

(** ** Statements *)

(** [I] is an invariant of the local variables across [m], also when [m]
    raises. *)
Definition preserves {St A} (I : St → Prop) (m : M St A) : Prop :=
  ∀ s, I s → I (m s).2.

(** The timestamp variant [m2] steps as the simple one [m1] does on
    [users], whatever [timestamps] holds. *)
Definition sim {A} (m1 : M users A) (m2 : M (users * timestamps) A) : Prop :=
  ∀ s t, (m1 s).1 = (m2 (s, t)).1 ∧ (m1 s).2 = (m2 (s, t)).2.1.

(** [m] raises no exception that the parsers catch. *)
Definition uncaught {St A} (m : M St A) : Prop :=
  ∀ s e, (m s).1 = Raise e → decode_error e = false.

(** [s.add] for each of [us] in turn. *)
Definition add_all (us : list InstagramUser) (s : users) : users :=
  foldl (λ acc u, set_add u acc) s us.

(** All [m] does to its set is to add the same users, whatever the set
    holds, with the same outcome. *)
Definition adds {A} (m : M users A) : Prop :=
  ∃ o us, ∀ s, m s = (o, add_all us s).

(** ** Results *)

(** [s.isspace()] for a non-empty [s]; true of the empty string. *)
Fixpoint all_space (s : string) : bool :=
  match s with
  | EmptyString => true
  | String c s' => isspace c && all_space s'
  end.

(** The handle of [u] is the trimmed form of a non-empty string, hence
    empty exactly when that string is all whitespace. *)
Definition trimmed_handle (u : InstagramUser) : Prop :=
  ∃ raw, raw ≠ "" ∧ username u = strip raw
         ∧ (username u = "" ↔ all_space raw = true).

(** Every member is stored under its key and has such a handle. *)
Definition handles_inv (s : users) : Prop :=
  ∀ k u, s !! k = Some u → k = key u ∧ trimmed_handle u.

(** Every recorded timestamp is a true value, under the key of a member. *)
Definition timestamps_inv (st : users * timestamps) : Prop :=
  ∀ k v, st.2 !! k = Some v → truthy v = true ∧ k ∈ dom st.1.

(** What one item or entry does to a set: nothing, or it adds the trimmed
    form of a non-empty string. *)
Definition add_shape (s s' : users) : Prop :=
  s' = s ∨ ∃ v, v ≠ "" ∧ s' = set_add (User (strip v)) s.

(** What one item or entry does to a set and its timestamps: nothing, or
    it adds the trimmed form of a non-empty string and at most records a
    true value under its key. *)
Definition step_shape (st st' : users * timestamps) : Prop :=
  st' = st
  ∨ ∃ v, v ≠ ""
         ∧ st'.1 = set_add (User (strip v)) st.1
         ∧ (st'.2 = st.2
            ∨ ∃ t, truthy t = true ∧ st'.2 = <[lower (strip v) := t]> st.2).

(** ** Buffers *)

(** A decoder under which every buffer holds the document [doc]. *)
Definition holding (doc : json) : bytes → result json := λ _, Ok doc.

(** A decoder under which the empty buffer holds [doc] and every other
    buffer holds [doc']. *)
Definition holding_two (doc doc' : json) : bytes → result json :=
  λ content,
    match content with
    | [] => Ok doc
    | _ => Ok doc'
    end.

(** *** The expected shapes (section 6 of the specification) *)

Definition is_str (v : json) : bool :=
  match v with JStr _ => true | _ => false end.

Definition is_int (v : json) : bool :=
  match v with JInt _ => true | _ => false end.

(** A field that is optional and, when present, satisfies [p]. *)
Definition optional (p : json → bool) (o : option json) : bool :=
  match o with
  | None => true
  | Some v => p v
  end.

(** [{ "value": "<handle>", "timestamp": <int> }] *)
Definition wf_follower_item (item : json) : bool :=
  match item with
  | JObj d =>
      optional is_str (dict_get "value" d)
      && optional is_int (dict_get "timestamp" d)
  | _ => false
  end.

Definition is_list_of (p : json → bool) (v : json) : bool :=
  match v with
  | JArr l => forallb p l
  | _ => false
  end.

(** [{ "string_list_data": [ item, ... ] }] *)
Definition wf_follower_entry (entry : json) : bool :=
  match entry with
  | JObj d =>
      optional (is_list_of wf_follower_item) (dict_get "string_list_data" d)
  | _ => false
  end.

(** [[ entry, ... ]] *)
Definition wf_followers (data : json) : bool :=
  is_list_of wf_follower_entry data.

(** [{ "timestamp": <int> }] *)
Definition wf_sub_entry (sub : json) : bool :=
  match sub with
  | JObj d => optional is_int (dict_get "timestamp" d)
  | _ => false
  end.

(** [{ "title": "<handle>", "string_list_data": [ sub, ... ] }] *)
Definition wf_following_entry (entry : json) : bool :=
  match entry with
  | JObj d =>
      optional is_str (dict_get "title" d)
      && optional (is_list_of wf_sub_entry) (dict_get "string_list_data" d)
  | _ => false
  end.

(** [{ "relationships_following": [ entry, ... ] }] *)
Definition wf_following (data : json) : bool :=
  match data with
  | JObj d =>
      optional (is_list_of wf_following_entry)
        (dict_get "relationships_following" d)
  | _ => false
  end.

(** *** What an export of the expected shape contributes

    These follow the words of sections 4.2 and 4.3 of the specification,
    not the code: they are what the parsers are compared with. *)

(** The items of a followers entry, and of a followers document, in the
    order of the export. *)
Definition entry_items (entry : json) : list json :=
  match entry with
  | JObj d =>
      match dict_get "string_list_data" d with
      | Some (JArr items) => items
      | _ => []
      end
  | _ => []
  end.

Definition document_items (data : json) : list json :=
  match data with
  | JArr entries => concat (map entry_items entries)
  | _ => []
  end.

(** The entries of a following document. *)
Definition document_entries (data : json) : list json :=
  match data with
  | JObj d =>
      match dict_get "relationships_following" d with
      | Some (JArr entries) => entries
      | _ => []
      end
  | _ => []
  end.

(** A timestamp field recorded under [k]: an integer other than zero. *)
Definition record_timestamp (k : string) (field : option json)
    (ts : timestamps) : timestamps :=
  match field with
  | Some (JInt t) => if t =? 0 then ts else <[k := JInt t]> ts
  | _ => ts
  end.

(** A handle field recorded with its timestamp field: a non-empty string,
    trimmed. *)
Definition record_handle (handle : option json) (field : option json)
    (st : users * timestamps) : users * timestamps :=
  match handle with
  | Some (JStr v) =>
      if String.eqb v "" then st
      else (set_add (User (strip v)) st.1,
            record_timestamp (lower (strip v)) field st.2)
  | _ => st
  end.

(** What an item of a followers export contributes: the identity of its
    ["value"] with its own ["timestamp"]. *)
Definition record_item (st : users * timestamps) (item : json)
    : users * timestamps :=
  match item with
  | JObj d => record_handle (dict_get "value" d) (dict_get "timestamp" d) st
  | _ => st
  end.

(** What an entry of a following export contributes: the identity of its
    ["title"] with the ["timestamp"] of its first sub-entry. *)
Definition record_entry (st : users * timestamps) (entry : json)
    : users * timestamps :=
  match entry with
  | JObj d =>
      record_handle (dict_get "title" d)
        match dict_get "string_list_data" d with
        | Some (JArr (JObj f :: _)) => dict_get "timestamp" f
        | _ => None
        end
        st
  | _ => st
  end.

(** *** What the parsers tolerate *)





(** *** A zero timestamp against none *)

(** The record [d'] is [d] without its ["timestamp": 0]. *)
Definition zero_timestamp_dropped (d d' : list (string * json)) : Prop :=
  dict_get "timestamp" d = Some (JInt 0)
  ∧ dict_get "timestamp" d' = None
  ∧ ∀ k, k ≠ "timestamp" → dict_get k d' = dict_get k d.

(** The same item, or the item without its zero timestamp. *)
Definition item_zero_dropped (item item' : json) : Prop :=
  item' = item
  ∨ ∃ d d', item = JObj d ∧ item' = JObj d' ∧ zero_timestamp_dropped d d'.

(** The same followers entry, up to zero timestamps dropped from items. *)
Definition follower_entry_zero_dropped (entry entry' : json) : Prop :=
  entry' = entry
  ∨ ∃ d d' items items',
      entry = JObj d ∧ entry' = JObj d'
      ∧ dict_get "string_list_data" d = Some (JArr items)
      ∧ dict_get "string_list_data" d' = Some (JArr items')
      ∧ Forall2 item_zero_dropped items items'.

(** The same followers buffer, up to zero timestamps dropped. *)
Definition followers_zero_dropped (r r' : result json) : Prop :=
  r' = r
  ∨ ∃ entries entries',
      r = Ok (JArr entries) ∧ r' = Ok (JArr entries')
      ∧ Forall2 follower_entry_zero_dropped entries entries'.

(** The same following entry, up to a zero timestamp dropped from its
    first sub-entry. *)
Definition following_entry_zero_dropped (entry entry' : json) : Prop :=
  entry' = entry
  ∨ ∃ d d' f f' rest,
      entry = JObj d ∧ entry' = JObj d'
      ∧ dict_get "title" d' = dict_get "title" d
      ∧ dict_get "string_list_data" d = Some (JArr (JObj f :: rest))
      ∧ dict_get "string_list_data" d' = Some (JArr (JObj f' :: rest))
      ∧ zero_timestamp_dropped f f'.

(** The same following buffer, up to zero timestamps dropped. *)
Definition following_zero_dropped (r r' : result json) : Prop :=
  r' = r
  ∨ ∃ top top' entries entries',
      r = Ok (JObj top) ∧ r' = Ok (JObj top')
      ∧ dict_get "relationships_following" top = Some (JArr entries)
      ∧ dict_get "relationships_following" top' = Some (JArr entries')
      ∧ Forall2 following_entry_zero_dropped entries entries'.

(** *** Documents *)

(** The [valid_followers_json] fixture of the tests. *)
Definition valid_followers_json : json :=
  JArr [
    JObj [("title", JStr ""); ("media_list_data", JArr []);
          ("string_list_data",
           JArr [JObj [("href", JStr "https://www.instagram.com/user1");
                       ("value", JStr "user1"); ("timestamp", JInt 123)]])];
    JObj [("title", JStr ""); ("media_list_data", JArr []);
          ("string_list_data",
           JArr [JObj [("href", JStr "https://www.instagram.com/user2");
                       ("value", JStr "user2"); ("timestamp", JInt 124)]])];
    JObj [("title", JStr ""); ("media_list_data", JArr []);
          ("string_list_data",
           JArr [JObj [("href", JStr "https://www.instagram.com/user3");
                       ("value", JStr "user3"); ("timestamp", JInt 125)]])]
  ].

(** The [valid_following_json] fixture of the tests. *)
Definition valid_following_json : json :=
  JObj [("relationships_following",
         JArr [
           JObj [("title", JStr "user2");
                 ("string_list_data",
                  JArr [JObj [("href", JStr "https://www.instagram.com/_u/user2");
                              ("timestamp", JInt 123)]])];
           JObj [("title", JStr "user4");
                 ("string_list_data",
                  JArr [JObj [("href", JStr "https://www.instagram.com/_u/user4");
                              ("timestamp", JInt 124)]])]
         ])].

(** [[{"string_list_data": [{"value": "user1", "timestamp": 0}]}]] *)
Definition zero_followers : json :=
  JArr [JObj [("string_list_data",
               JArr [JObj [("value", JStr "user1");
                           ("timestamp", JInt 0)]])]].

(** [[{"string_list_data": [{"value": "user1"}]}]] *)
Definition untimed_followers : json :=
  JArr [JObj [("string_list_data", JArr [JObj [("value", JStr "user1")]])]].

(** [[{"string_list_data": [{"value": " USER1 ", "timestamp": 7}]}]] *)
Definition shouted_followers : json :=
  JArr [JObj [("string_list_data",
               JArr [JObj [("value", JStr " USER1 ");
                           ("timestamp", JInt 7)]])]].

(** [{"relationships_following":
      [{"title": "user2", "string_list_data": [{"timestamp": 0}]}]}] *)
Definition zero_following : json :=
  JObj [("relationships_following",
         JArr [JObj [("title", JStr "user2");
                     ("string_list_data",
                      JArr [JObj [("timestamp", JInt 0)]])]])].

(** [{"relationships_following":
      [{"title": "user2", "string_list_data": [{}]}]}] *)
Definition untimed_following : json :=
  JObj [("relationships_following",
         JArr [JObj [("title", JStr "user2");
                     ("string_list_data", JArr [JObj []])]])].

(** [[{"string_list_data": [{"value": " "}]}]] *)
Definition blank_followers : json :=
  JArr [JObj [("string_list_data", JArr [JObj [("value", JStr " ")]])]].

(** [{"relationships_following": [{"title": " "}]}] *)
Definition blank_following : json :=
  JObj [("relationships_following", JArr [JObj [("title", JStr " ")]])].

(** An entry with exactly one item, of the given value and timestamp. *)
Definition single_item_entry (entry : json) (v : string) (t : Z) : Prop :=
  ∃ e i, entry = JObj e
         ∧ dict_get "string_list_data" e = Some (JArr [JObj i])
         ∧ dict_get "value" i = Some (JStr v)
         ∧ dict_get "timestamp" i = Some (JInt t).

(** A following entry of the given title whose first sub-entry has the
    given timestamp. *)
Definition titled_entry (entry : json) (title : string) (t : Z) : Prop :=
  ∃ e f rest, entry = JObj e
              ∧ dict_get "title" e = Some (JStr title)
              ∧ dict_get "string_list_data" e = Some (JArr (JObj f :: rest))
              ∧ dict_get "timestamp" f = Some (JInt t).


(** ** Where the handles come from *)

(** [raw] is the ["value"] of an item of the ["string_list_data"] of an
    entry of the followers document [data]. *)
Definition followers_value (data : json) (raw : string) : Prop :=
  ∃ entries e items i,
    data = JArr entries ∧ JObj e ∈ entries
    ∧ dict_get "string_list_data" e = Some (JArr items) ∧ JObj i ∈ items
    ∧ dict_get "value" i = Some (JStr raw).

(** [raw] is the ["title"] of an entry of the ["relationships_following"]
    of the following document [data]. *)
Definition following_title (data : json) (raw : string) : Prop :=
  ∃ top entries e,
    data = JObj top
    ∧ dict_get "relationships_following" top = Some (JArr entries)
    ∧ JObj e ∈ entries ∧ dict_get "title" e = Some (JStr raw).

(** [raw] is a non-empty value of one of the buffers [files], as
    decoded. *)
Definition followers_fields (loads : bytes → result json)
    (files : list bytes) (raw : string) : Prop :=
  raw ≠ ""
  ∧ ∃ content data,
      content ∈ files ∧ loads content = Ok data ∧ followers_value data raw.

(** [raw] is a non-empty title of the buffer [content], as decoded. *)
Definition following_fields (loads : bytes → result json)
    (content : bytes) (raw : string) : Prop :=
  raw ≠ "" ∧ ∃ data, loads content = Ok data ∧ following_title data raw.

(** The members of [s] come from the fields [fields], and every field
    has its member: each member is stored under its key and its handle
    is a field, trimmed; each field, trimmed and lower-cased, is the key
    of a member; so that [s] has a member with the empty handle exactly
    when a field holds nothing but whitespace. *)
Definition handles_from (fields : string → Prop) (s : users) : Prop :=
  (∀ k u, s !! k = Some u →
     ∃ raw, fields raw ∧ username u = strip raw ∧ k = lower (strip raw))
  ∧ (∀ raw, fields raw → is_Some (s !! lower (strip raw)))
  ∧ ((∃ k u, s !! k = Some u ∧ username u = "")
     ↔ ∃ raw, fields raw ∧ all_space raw = true).

(** The field under [k] that an item or entry [v] is added from, when it
    has one: a non-empty string. *)
Definition handle_field (k : string) (v : json) : list string :=
  match v with
  | JObj d =>
      match dict_get k d with
      | Some (JStr raw) => if String.eqb raw "" then [] else [raw]
      | _ => []
      end
  | _ => []
  end.

(** The fields a followers entry, a followers document and a following
    document are added from, in the order of the loops. *)
Definition entry_fields (entry : json) : list string :=
  match entry with
  | JObj e =>
      match dict_get "string_list_data" e with
      | Some (JArr items) => concat (handle_field "value" <$> items)
      | _ => []
      end
  | _ => []
  end.

Definition followers_document_fields (data : json) : list string :=
  match data with
  | JArr entries => concat (entry_fields <$> entries)
  | _ => []
  end.

Definition following_document_fields (data : json) : list string :=
  match data with
  | JObj top =>
      match dict_get "relationships_following" top with
      | Some (JArr entries) => concat (handle_field "title" <$> entries)
      | _ => []
      end
  | _ => []
  end.

Definition decoded_fields (fields : json → list string) (r : result json)
    : list string :=
  match r with
  | Ok data => fields data
  | Raise _ => []
  end.

(** ** What the parsers do not tolerate *)

Definition is_obj (v : json) : bool :=
  match v with JObj _ => true | _ => false end.





(** ** The export and the pages *)

(** The number of rows of a frame, and the cells of its column [k], when
    there is one. *)
Definition frame_len (df : DataFrame) : Z :=
  match df with
  | [] => 0
  | column :: _ => Z.of_nat (length column.2)
  end.

Definition frame_column (k : string) (df : DataFrame) : option (list json) :=
  (list_to_map df : gmap string (list json)) !! k.

(** Every member is stored under its own key, as in every set the parsers
    and [analyze] make. *)
Definition keyed (s : users) : Prop := ∀ k u, s !! k = Some u → k = key u.

(** [a] comes strictly before [b] by lower-cased handle. *)
Definition name_before (a b : InstagramUser) : Prop :=
  String.ltb (lower (username a)) (lower (username b)) = true.

(** The followers, or the following, as the session keeps them with their
    timestamps: nothing yet, or a set that is not empty, of users of
    trimmed handles, with timestamps for some of them. *)
Definition stored (ss : session) (k kts : string) : Prop :=
  (ss !! k = Some SNone ∧ ss !! kts = Some (STimestamps ∅))
  ∨ ∃ s ts, ss !! k = Some (SUsers s) ∧ ss !! kts = Some (STimestamps ts)
            ∧ set_bool s = true ∧ handles_inv s ∧ timestamps_inv (s, ts).

(** The results, as the session keeps them: nothing yet, or the analysis
    of the followers and following it holds. *)
Definition results_stored (ss : session) : Prop :=
  ss !! "results" = Some SNone
  ∨ ∃ F G, ss !! "followers" = Some (SUsers F)
           ∧ ss !! "following" = Some (SUsers G)
           ∧ ss !! "results" = Some (SResults (analyze F G)).

Definition session_ok (ss : session) : Prop :=
  stored ss "followers" "followers_timestamps"
  ∧ stored ss "following" "following_timestamps"
  ∧ results_stored ss.

(** What holds of the session between two runs of [main]. *)
Definition session_inv (ss : session) : Prop := session_ok (init_state ss).

(** * Properties *)

(** ** Reasoning about statements *)

Section Statements.
Context {St : Type}.

Lemma for_each_app {A} (l1 l2 : list A) (body : A → M St unit) (s : St) :
  for_each (l1 ++ l2) body s
  = (let! _ := for_each l1 body in for_each l2 body) s.
Proof.
  revert s. induction l1 as [|x l1 IH]; intros s; cbn.
  - reflexivity.
  - unfold bind. destruct (body x s) as [[[]|e] s']; [|done].
    rewrite IH. reflexivity.
Qed.

(** Two loops whose elements are pairwise indistinguishable to the body. *)
Lemma for_each_ext {A} (R : A → A → Prop) (l l' : list A)
    (body : A → M St unit) (s : St) :
  Forall2 R l l' →
  (∀ x y t, R x y → body x t = body y t) →
  for_each l body s = for_each l' body s.
Proof.
  intros HF HR. revert s.
  induction HF as [|x y l l' Hxy _ IH]; intros s; cbn; [done|].
  unfold bind. rewrite (HR x y s Hxy).
  destruct (body y s) as [[[]|e] s']; [apply IH | done].
Qed.


(** *** Invariants of the local variables *)

Lemma preserves_ret {A} (I : St → Prop) (a : A) : preserves I (ret a).
Proof. intros s H. exact H. Qed.

Lemma preserves_lift {A} (I : St → Prop) (r : result A) : preserves I (lift r).
Proof. intros s H. exact H. Qed.

Lemma preserves_modify (I : St → Prop) (f : St → St) :
  (∀ s, I s → I (f s)) → preserves I (modify f).
Proof. intros Hf s H. by apply Hf. Qed.

Lemma preserves_bind {A B} (I : St → Prop) (m : M St A) (k : A → M St B) :
  preserves I m → (∀ a, preserves I (k a)) → preserves I (bind m k).
Proof.
  intros Hm Hk s H. unfold bind. specialize (Hm s H).
  destruct (m s) as [[a|e] s']; cbn in *; [by apply Hk | done].
Qed.

Lemma preserves_for_each {A} (I : St → Prop) (l : list A) (body : A → M St unit) :
  (∀ x, preserves I (body x)) → preserves I (for_each l body).
Proof.
  intros Hb. induction l as [|x l IH]; cbn.
  - apply preserves_ret.
  - apply preserves_bind; auto.
Qed.

Lemma preserves_try_except (I : St → Prop) (body handler : M St unit) caught :
  preserves I body → preserves I handler →
  preserves I (try_except body caught handler).
Proof.
  intros Hb Hh s H. unfold try_except. specialize (Hb s H).
  destruct (body s) as [[a|e] s']; cbn in *; [done|].
  destruct (caught e); cbn; [by apply Hh | done].
Qed.

Lemma preserves_run {A} (I : St → Prop) (m : M St unit) (s0 : St) (out : St → A) (r : A) :
  preserves I m → I s0 → run m s0 out = Ok r → ∃ s, r = out s ∧ I s.
Proof.
  intros Hm H0. unfold run. specialize (Hm s0 H0).
  destruct (m s0) as [[a|e] s]; cbn in *; [|done].
  intros [= <-]. eauto.
Qed.

(** *** What a block can raise *)

Lemma uncaught_ret {A} (a : A) : uncaught (ret a : M St A).
Proof. by intros s e. Qed.

Lemma uncaught_modify (f : St → St) : uncaught (modify f).
Proof. by intros s e. Qed.

Lemma uncaught_lift {A} (r : result A) :
  (∀ e, r = Raise e → decode_error e = false) → uncaught (lift r : M St A).
Proof. intros H s e. apply H. Qed.

Lemma uncaught_bind {A B} (m : M St A) (k : A → M St B) :
  uncaught m → (∀ a, uncaught (k a)) → uncaught (bind m k).
Proof.
  intros Hm Hk s e. unfold bind. specialize (Hm s).
  destruct (m s) as [[a|e'] s']; cbn in *; [apply Hk|].
  intros [= <-]. by apply Hm.
Qed.

Lemma uncaught_for_each {A} (l : list A) (body : A → M St unit) :
  (∀ x, uncaught (body x)) → uncaught (for_each l body).
Proof.
  intros Hb. induction l as [|x l IH]; cbn.
  - apply uncaught_ret.
  - apply uncaught_bind; auto.
Qed.

(** A [try] around a block that raises nothing the handler catches. *)
Lemma try_except_uncaught (body handler : M St unit) (s : St) :
  uncaught body → try_except body decode_error handler s = body s.
Proof.
  intros H. unfold try_except. specialize (H s).
  destruct (body s) as [[a|e] s']; cbn in *; [done|].
  by rewrite (H e eq_refl).
Qed.
End Statements.

(** The methods of the values raise [AttributeError], [TypeError],
    [KeyError] or [IndexError]. *)
Lemma py_get_uncaught {St} (v : json) (k : string) (dflt : json) :
  uncaught (lift (py_get v k dflt) : M St json).
Proof. apply uncaught_lift. intros e. by destruct v; intros [= <-]. Qed.

Lemma py_strip_uncaught {St} (v : json) :
  uncaught (lift (py_strip v) : M St string).
Proof. apply uncaught_lift. intros e. by destruct v; intros [= <-]. Qed.

Lemma py_iter_uncaught {St} (v : json) :
  uncaught (lift (py_iter v) : M St (list json)).
Proof. apply uncaught_lift. intros e. by destruct v; intros [= <-]. Qed.

Lemma py_index0_uncaught {St} (v : json) :
  uncaught (lift (py_index0 v) : M St json).
Proof.
  apply uncaught_lift. intros e.
  by destruct v as [| | | |[|c s]|[|x l]|]; intros [= <-].
Qed.

Ltac uncaught_tac :=
  repeat first
    [ apply uncaught_ret | apply uncaught_modify
    | apply py_get_uncaught | apply py_strip_uncaught
    | apply py_iter_uncaught | apply py_index0_uncaught
    | apply uncaught_for_each; intros ?
    | apply uncaught_bind; [|intros ?]
    | match goal with
      | |- uncaught (if ?b then _ else _) => destruct b
      end ].

Lemma followers_item_uncaught (item : json) : uncaught (followers_item item).
Proof. unfold followers_item. uncaught_tac. Qed.

Lemma followers_entry_uncaught (entry : json) :
  uncaught (followers_entry entry).
Proof. unfold followers_entry, followers_item. uncaught_tac. Qed.

Lemma followers_ts_item_uncaught (item : json) :
  uncaught (followers_ts_item item).
Proof. unfold followers_ts_item. uncaught_tac. Qed.

Lemma followers_ts_entry_uncaught (entry : json) :
  uncaught (followers_ts_entry entry).
Proof. unfold followers_ts_entry, followers_ts_item. uncaught_tac. Qed.

Lemma following_entry_uncaught (entry : json) :
  uncaught (following_entry entry).
Proof. unfold following_entry. uncaught_tac. Qed.

Lemma following_ts_entry_uncaught (entry : json) :
  uncaught (following_ts_entry entry).
Proof. unfold following_ts_entry. uncaught_tac. Qed.

(** ** The entity *)

Lemma user_eqb_key (u v : InstagramUser) :
  user_eqb u v = true ↔ key u = key v.
Proof. unfold user_eqb, key. apply String.eqb_eq. Qed.

Lemma set_add_lookup (u : InstagramUser) (s : users) :
  is_Some (set_add u s !! key u).
Proof.
  unfold set_add. destruct (s !! key u) eqn:E.
  - rewrite E. eauto.
  - rewrite lookup_insert_eq. eauto.
Qed.

Lemma set_add_present (u : InstagramUser) (s : users) :
  is_Some (s !! key u) → set_add u s = s.
Proof. intros [v Hv]. unfold set_add. by rewrite Hv. Qed.

Lemma set_add_same_key (u v : InstagramUser) (s : users) :
  key u = key v → set_add v (set_add u s) = set_add u s.
Proof.
  intros E. apply set_add_present. rewrite <- E. apply set_add_lookup.
Qed.

Lemma dom_set_add (u : InstagramUser) (s : users) :
  dom (set_add u s) = {[key u]} ∪ dom s.
Proof.
  unfold set_add. destruct (s !! key u) eqn:E.
  - assert (key u ∈ dom s) by (apply elem_of_dom; eauto). set_solver.
  - apply dom_insert_L.
Qed.

(** ** The analysis *)

Lemma dom_set_and (a b : users) : dom (set_and a b) = dom a ∩ dom b.
Proof.
  unfold set_and.
  destruct (bool_decide _); rewrite dom_intersection_L; set_solver.
Qed.

Lemma set_and_lookup (a b : users) (k : string) (u : InstagramUser) :
  set_and a b !! k = Some u → a !! k = Some u ∨ b !! k = Some u.
Proof.
  unfold set_and. destruct (bool_decide _); intros Hk;
    apply lookup_intersection_Some in Hk as [Hk _]; auto.
Qed.

(** C1. [analyze(F, G)]: up to the equality of the class, [mutual] is
    [F ∩ G], [not_following_back] is [G − F] and [not_followed_by_me] is
    [F − G]; the members of each result are objects stored in the inputs;
    the totals are the numbers of members of [F] and of [G]. *)
Theorem analyze_fields (F G : users) :
  dom (mutual (analyze F G)) = dom F ∩ dom G
  ∧ dom (not_following_back (analyze F G)) = dom G ∖ dom F
  ∧ dom (not_followed_by_me (analyze F G)) = dom F ∖ dom G
  ∧ (∀ u, set_in u (mutual (analyze F G)) = set_in u F && set_in u G)
  ∧ (∀ u, set_in u (not_following_back (analyze F G))
          = set_in u G && negb (set_in u F))
  ∧ (∀ u, set_in u (not_followed_by_me (analyze F G))
          = set_in u F && negb (set_in u G))
  ∧ (∀ k u, mutual (analyze F G) !! k = Some u →
            F !! k = Some u ∨ G !! k = Some u)
  ∧ not_following_back (analyze F G) ⊆ G
  ∧ not_followed_by_me (analyze F G) ⊆ F
  ∧ total_followers (analyze F G) = Z.of_nat (size (dom F))
  ∧ total_following (analyze F G) = Z.of_nat (size (dom G)).
Proof.
  assert (Hin : ∀ u (s : users), set_in u s = bool_decide (key u ∈ dom s)).
  { intros u s. unfold set_in. apply bool_decide_ext. by rewrite elem_of_dom. }
  cbn [analyze mutual not_following_back not_followed_by_me
       total_followers total_following].
  unfold set_sub, set_len.
  repeat split.
  - apply dom_set_and.
  - apply dom_difference_L.
  - apply dom_difference_L.
  - intros u. rewrite !Hin, dom_set_and.
    repeat case_bool_decide; set_solver.
  - intros u. rewrite !Hin, dom_difference_L.
    repeat case_bool_decide; set_solver.
  - intros u. rewrite !Hin, dom_difference_L.
    repeat case_bool_decide; set_solver.
  - apply set_and_lookup.
  - apply map_subseteq_difference_l. done.
  - apply map_subseteq_difference_l. done.
  - by rewrite size_dom.
  - by rewrite size_dom.
Qed.

(** C4. The three result sets of [analyze(F, G)] are pairwise disjoint;
    [mutual | not_following_back == G] and
    [mutual | not_followed_by_me == F]. *)
Theorem analyze_partition (F G : users) :
  set_isdisjoint (mutual (analyze F G)) (not_following_back (analyze F G))
  ∧ set_isdisjoint (mutual (analyze F G)) (not_followed_by_me (analyze F G))
  ∧ set_isdisjoint (not_following_back (analyze F G))
                 (not_followed_by_me (analyze F G))
  ∧ set_equal (set_or (mutual (analyze F G)) (not_following_back (analyze F G))) G
  ∧ set_equal (set_or (mutual (analyze F G)) (not_followed_by_me (analyze F G))) F.
Proof.
  cbn [analyze mutual not_following_back not_followed_by_me].
  unfold set_isdisjoint, set_equal, set_or, set_sub.
  rewrite !dom_union_L, !dom_difference_L, !dom_set_and.
  repeat split; try set_solver.
  - apply set_eq. intros k. destruct (decide (k ∈ dom F)); set_solver.
  - apply set_eq. intros k. destruct (decide (k ∈ dom G)); set_solver.
Qed.

(** C3, as the code has it. The class compares and hashes on
    [username.lower()] alone; the parsers trim before they construct. So
    for [a], [b] equal after trimming and lower-casing, [InstagramUser(a.strip())]
    and [InstagramUser(b.strip())] are equal, hash identically and are one
    member of a set; and for [a], [b] equal after lower-casing,
    [InstagramUser(a)] and [InstagramUser(b)] are. *)
Theorem identity_collapse (hash : string → Z) (a b : string) :
  (lower (strip a) = lower (strip b) →
     user_eqb (User (strip a)) (User (strip b)) = true
     ∧ user_hash hash (User (strip a)) = user_hash hash (User (strip b))
     ∧ set_len (set_add (User (strip b)) (set_add (User (strip a)) ∅)) = 1
     ∧ ∀ s, set_add (User (strip b)) (set_add (User (strip a)) s)
            = set_add (User (strip a)) s)
  ∧ (lower a = lower b →
     user_eqb (User a) (User b) = true
     ∧ user_hash hash (User a) = user_hash hash (User b)
     ∧ set_len (set_add (User b) (set_add (User a) ∅)) = 1
     ∧ ∀ s, set_add (User b) (set_add (User a) s) = set_add (User a) s).
Proof.
  assert (G : ∀ x y, lower x = lower y →
     user_eqb (User x) (User y) = true
     ∧ user_hash hash (User x) = user_hash hash (User y)
     ∧ set_len (set_add (User y) (set_add (User x) ∅)) = 1
     ∧ ∀ s, set_add (User y) (set_add (User x) s) = set_add (User x) s).
  { intros x y E. repeat split.
    - by apply user_eqb_key.
    - unfold user_hash. cbn. by rewrite E.
    - rewrite set_add_same_key by done.
      unfold set_len, set_add. rewrite lookup_empty, insert_empty.
      by rewrite map_size_singleton.
    - intros s. by apply set_add_same_key. }
  split; apply G.
Qed.

Lemma identity_collapse_witness :
  user_eqb (User (strip " MaxiLang")) (User (strip "maxilang ")) = true
  ∧ user_eqb (User "MaxiLang") (User "MAXILANG") = true.
Proof.
  destruct (identity_collapse (λ _, 0) " MaxiLang" "maxilang ") as [H _].
  destruct (identity_collapse (λ _, 0) "MaxiLang" "MAXILANG") as [_ H'].
  split; [apply H | apply H']; reflexivity.
Defined.

(** C3, as stated, fails on the constructor: [" user1"] and ["user1"] are
    equal after trimming and lower-casing, but [InstagramUser(" user1")]
    and [InstagramUser("user1")] are not equal, and a set holds both. *)
Lemma identity_constructor_keeps_whitespace :
  lower (strip " user1") = lower (strip "user1")
  ∧ user_eqb (User " user1") (User "user1") = false
  ∧ set_len (set_add (User "user1") (set_add (User " user1") ∅)) = 2.
Proof. repeat split; vm_compute; reflexivity. Qed.

(** ** The two followers parsers agree *)

Lemma sim_ret {A} (a : A) : sim (ret a) (ret a).
Proof. by intros s t. Qed.

Lemma sim_lift {A} (r : result A) : sim (lift r) (lift r).
Proof. by intros s t. Qed.

Lemma sim_bind {A B} (m1 : M users A) m2 (k1 : A → M users B) k2 :
  sim m1 m2 → (∀ a, sim (k1 a) (k2 a)) → sim (bind m1 k1) (bind m2 k2).
Proof.
  intros Hm Hk s t. unfold bind. destruct (Hm s t) as [Ho Hs].
  destruct (m1 s) as [o1 s1], (m2 (s, t)) as [o2 [s2 t2]]; cbn in *; subst.
  destruct o2 as [a|e]; [apply Hk | done].
Qed.

Lemma sim_for_each {A} (l : list A) (b1 : A → M users unit) b2 :
  (∀ x, sim (b1 x) (b2 x)) → sim (for_each l b1) (for_each l b2).
Proof.
  intros Hb. induction l as [|x l IH]; cbn.
  - apply sim_ret.
  - apply sim_bind; auto.
Qed.

Lemma sim_try_except (b1 h1 : M users unit) b2 h2 caught :
  sim b1 b2 → sim h1 h2 →
  sim (try_except b1 caught h1) (try_except b2 caught h2).
Proof.
  intros Hb Hh s t. unfold try_except. destruct (Hb s t) as [Ho Hs].
  destruct (b1 s) as [o1 s1], (b2 (s, t)) as [o2 [s2 t2]]; cbn in *; subst.
  destruct o2 as [a|e]; [done|]. destruct (caught e); [apply Hh | done].
Qed.

Lemma sim_run (m1 : M users unit) m2 :
  sim m1 m2 → run m1 ∅ id = result_map fst (run m2 (∅, ∅) id).
Proof.
  intros H. unfold run. destruct (H ∅ ∅) as [Ho Hs].
  destruct (m1 ∅) as [o1 s1], (m2 (∅, ∅)) as [o2 [s2 t2]]; cbn in *; subst.
  by destruct o2.
Qed.

Lemma followers_item_sim (item : json) :
  sim (followers_item item) (followers_ts_item item).
Proof.
  intros s t. destruct item as [| | | | |l|d]; try done.
  unfold followers_item, followers_ts_item, bind, lift, py_get.
  destruct (truthy (default JNull (dict_get "value" d))); [|done].
  destruct (default JNull (dict_get "value" d)) as [| | | |v| |]; try done.
  cbn. by destruct (truthy (default JNull (dict_get "timestamp" d))).
Qed.

Lemma followers_entry_sim (entry : json) :
  sim (followers_entry entry) (followers_ts_entry entry).
Proof.
  unfold followers_entry, followers_ts_entry.
  apply sim_bind; [apply sim_lift|]. intros string_list.
  apply sim_bind; [apply sim_lift|]. intros items.
  apply sim_for_each, followers_item_sim.
Qed.

Lemma followers_file_sim loads (content : bytes) :
  sim (followers_file loads content) (followers_ts_file loads content).
Proof.
  unfold followers_file, followers_ts_file.
  apply sim_try_except; [|apply sim_ret].
  apply sim_bind; [apply sim_lift|]. intros data.
  destruct (negb (isinstance_list data)); [apply sim_ret|].
  apply sim_bind; [apply sim_lift|]. intros entries.
  apply sim_for_each, followers_entry_sim.
Qed.

Lemma parse_followers_sim loads (files : list bytes) :
  parse_followers loads files
  = result_map fst (parse_followers_with_timestamps loads files).
Proof.
  unfold parse_followers, parse_followers_with_timestamps.
  apply sim_run, sim_for_each. intros content. apply followers_file_sim.
Qed.

(** C8. On every list of buffers [parse_followers] returns the first
    component of what [parse_followers_with_timestamps] returns, and
    raises what it raises. *)
Theorem parse_followers_is_fst loads (files : list bytes) :
  parse_followers loads files
  = result_map fst (parse_followers_with_timestamps loads files).
Proof. apply parse_followers_sim. Qed.

(** ** Deduplication across buffers *)

Lemma add_all_app (us vs : list InstagramUser) (s : users) :
  add_all (us ++ vs) s = add_all vs (add_all us s).
Proof. apply foldl_app. Qed.

Lemma dom_add_all (us : list InstagramUser) (s : users) :
  dom (add_all us s) = list_to_set (key <$> us) ∪ dom s.
Proof.
  revert s. induction us as [|u us IH]; intros s; cbn.
  - set_solver.
  - unfold add_all in IH. rewrite IH, dom_set_add. set_solver.
Qed.

Lemma add_all_absorb (us : list InstagramUser) (s : users) :
  (∀ u, u ∈ us → key u ∈ dom s) → add_all us s = s.
Proof.
  induction us as [|u us IH]; intros H; cbn; [done|].
  rewrite set_add_present.
  - apply IH. intros v Hv. apply H. by right.
  - apply elem_of_dom, H. by left.
Qed.

Lemma add_all_twice (us : list InstagramUser) (s : users) :
  add_all us (add_all us s) = add_all us s.
Proof.
  apply add_all_absorb. intros u Hu. rewrite dom_add_all.
  apply elem_of_union_l, elem_of_list_to_set, list_elem_of_fmap. eauto.
Qed.

Lemma adds_ret {A} (a : A) : adds (ret a).
Proof. by exists (Ok a), []. Qed.

Lemma adds_lift {A} (r : result A) : adds (lift r).
Proof. by exists r, []. Qed.

Lemma adds_set_add (u : InstagramUser) : adds (modify (set_add u)).
Proof. by exists (Ok tt), [u]. Qed.

Lemma adds_bind {A B} (m : M users A) (k : A → M users B) :
  adds m → (∀ a, adds (k a)) → adds (bind m k).
Proof.
  intros (o & us & Hm) Hk. destruct o as [a|e].
  - destruct (Hk a) as (o' & vs & Hka). exists o', (us ++ vs)%list. intros s.
    unfold bind. by rewrite Hm, Hka, add_all_app.
  - exists (Raise e), us. intros s. unfold bind. by rewrite Hm.
Qed.

Lemma adds_for_each {A} (l : list A) (body : A → M users unit) :
  (∀ x, adds (body x)) → adds (for_each l body).
Proof.
  intros Hb. induction l as [|x l IH]; cbn.
  - apply adds_ret.
  - apply adds_bind; auto.
Qed.

Lemma adds_try_except (body handler : M users unit) caught :
  adds body → adds handler → adds (try_except body caught handler).
Proof.
  intros (o & us & Hb) (o' & vs & Hh). destruct o as [a|e].
  - exists (Ok a), us. intros s. unfold try_except. by rewrite Hb.
  - destruct (caught e) eqn:E.
    + exists o', (us ++ vs)%list. intros s. unfold try_except.
      by rewrite Hb, E, Hh, add_all_app.
    + exists (Raise e), us. intros s. unfold try_except. by rewrite Hb, E.
Qed.

Lemma adds_followers_file loads (content : bytes) :
  adds (followers_file loads content).
Proof.
  unfold followers_file.
  apply adds_try_except; [|apply adds_ret].
  apply adds_bind; [apply adds_lift|]. intros data.
  destruct (negb (isinstance_list data)); [apply adds_ret|].
  apply adds_bind; [apply adds_lift|]. intros entries.
  apply adds_for_each. intros entry. unfold followers_entry.
  apply adds_bind; [apply adds_lift|]. intros string_list.
  apply adds_bind; [apply adds_lift|]. intros items.
  apply adds_for_each. intros item. unfold followers_item.
  apply adds_bind; [apply adds_lift|]. intros value.
  destruct (truthy value); [|apply adds_ret].
  apply adds_bind; [apply adds_lift|]. intros stripped.
  apply adds_set_add.
Qed.

Lemma parse_followers_twice loads (files : list bytes) :
  parse_followers loads (files ++ files) = parse_followers loads files.
Proof.
  unfold parse_followers, run. rewrite for_each_app. unfold bind.
  destruct (adds_for_each files (followers_file loads)
              (adds_followers_file loads)) as (o & us & H).
  rewrite (H ∅). destruct o as [[]|e]; [|done].
  by rewrite H, add_all_twice.
Qed.

(** ** What one iteration does *)

Lemma truthy_str (v : string) : truthy (JStr v) = true ↔ v ≠ "".
Proof.
  cbn. rewrite negb_true_iff. split.
  - intros H ->. by rewrite String.eqb_refl in H.
  - intros H. by apply String.eqb_neq.
Qed.

Lemma truthy_int (n : Z) : truthy (JInt n) = true ↔ n ≠ 0.
Proof. cbn. rewrite negb_true_iff. apply Z.eqb_neq. Qed.

(** An item with a non-empty ["value"] adds its user and records its
    ["timestamp"] when that is there and true. *)
Lemma followers_ts_item_value (d : list (string * json)) (v : string)
    (st : users * timestamps) :
  dict_get "value" d = Some (JStr v) → v ≠ "" →
  followers_ts_item (JObj d) st
  = (Ok tt,
     (set_add (User (strip v)) st.1,
      if truthy (default JNull (dict_get "timestamp" d))
      then <[lower (strip v) := default JNull (dict_get "timestamp" d)]> st.2
      else st.2)).
Proof.
  intros Hv Hne. apply truthy_str in Hne. destruct st as [us ts].
  unfold followers_ts_item, bind, lift, py_get. rewrite Hv. cbn [from_option id].
  rewrite Hne. cbn.
  by destruct (truthy (default JNull (dict_get "timestamp" d))).
Qed.

Lemma followers_ts_item_no_value (d : list (string * json))
    (st : users * timestamps) :
  dict_get "value" d = None → followers_ts_item (JObj d) st = (Ok tt, st).
Proof.
  intros Hv. unfold followers_ts_item, bind, lift, py_get. by rewrite Hv.
Qed.

Lemma followers_ts_entry_items (d : list (string * json)) (items : list json)
    (st : users * timestamps) :
  dict_get "string_list_data" d = Some (JArr items) →
  followers_ts_entry (JObj d) st = for_each items followers_ts_item st.
Proof.
  intros Hd. unfold followers_ts_entry, bind, lift, py_get. by rewrite Hd.
Qed.

Lemma followers_ts_entry_single (entry : json) (v : string) (t : Z)
    (st : users * timestamps) :
  single_item_entry entry v t → v ≠ "" → t ≠ 0 →
  followers_ts_entry entry st
  = (Ok tt, (set_add (User (strip v)) st.1,
             <[lower (strip v) := JInt t]> st.2)).
Proof.
  intros (e & i & -> & He & Hv & Ht) Hne Hnz.
  rewrite (followers_ts_entry_items _ _ _ He). cbn. unfold bind.
  rewrite (followers_ts_item_value _ _ _ Hv Hne), Ht. cbn [from_option id].
  apply truthy_int in Hnz. by rewrite Hnz.
Qed.

Lemma followers_ts_file_entries loads (content : bytes) (entries : list json)
    (st : users * timestamps) :
  loads content = Ok (JArr entries) →
  followers_ts_file loads content st
  = for_each entries followers_ts_entry st.
Proof.
  intros Hl. unfold followers_ts_file. rewrite try_except_uncaught.
  - unfold bind, lift. by rewrite Hl.
  - unfold followers_ts_entry, followers_ts_item. rewrite Hl.
    apply uncaught_bind; [by apply uncaught_lift|]. intros data.
    uncaught_tac.
Qed.

(** The three-user export of the specification, and the set and map the
    parser returns on it. *)
Lemma three_followers loads (b : bytes) (e1 e2 e3 : json) :
  loads b = Ok (JArr [e1; e2; e3]) →
  single_item_entry e1 "user1" 123 →
  single_item_entry e2 "user2" 124 →
  single_item_entry e3 "user3" 125 →
  parse_followers_with_timestamps loads [b]
  = Ok (list_to_map [("user1", User "user1"); ("user2", User "user2");
                     ("user3", User "user3")],
        list_to_map [("user1", JInt 123); ("user2", JInt 124);
                     ("user3", JInt 125)]).
Proof.
  intros Hl H1 H2 H3.
  unfold parse_followers_with_timestamps, run. cbn [for_each]. unfold bind at 1.
  rewrite (followers_ts_file_entries _ _ _ _ Hl). cbn [for_each]. unfold bind.
  rewrite (followers_ts_entry_single _ _ _ _ H1) by done.
  rewrite (followers_ts_entry_single _ _ _ _ H2) by done.
  rewrite (followers_ts_entry_single _ _ _ _ H3) by done.
  vm_compute. reflexivity.
Qed.

(** ** Handles and timestamps of the results *)

Lemma lstrip_head (s : string) :
  lstrip s = "" ∨ ∃ c r, lstrip s = String c r ∧ isspace c = false.
Proof.
  induction s as [|c s IH]; cbn; [by left|].
  destruct (isspace c) eqn:E; [done|]. right. eauto.
Qed.

Lemma lstrip_empty (s : string) : lstrip s = "" ↔ all_space s = true.
Proof.
  induction s as [|c s IH]; cbn; [done|].
  destruct (isspace c); cbn; [done|]. split; discriminate.
Qed.

Lemma rstrip_empty (s : string) : rstrip s = "" ↔ all_space s = true.
Proof.
  induction s as [|c s IH]; cbn; [done|].
  destruct (rstrip s) as [|c' r].
  - assert (all_space s = true) as -> by by apply IH.
    rewrite andb_true_r. destruct (isspace c); split; done.
  - assert (all_space s = false) as ->.
    { destruct (all_space s); [|done]. by destruct IH as [_ IH']; discriminate IH'. }
    rewrite andb_false_r. split; discriminate.
Qed.

Lemma strip_empty (s : string) : strip s = "" ↔ all_space s = true.
Proof.
  unfold strip. rewrite rstrip_empty, <- (lstrip_empty s).
  destruct (lstrip_head s) as [->|(c & r & -> & Hc)]; [done|].
  cbn. rewrite Hc. split; discriminate.
Qed.

Lemma trimmed_handle_strip (v : string) :
  v ≠ "" → trimmed_handle (User (strip v)).
Proof. intros H. exists v. repeat split; try done; apply strip_empty. Qed.

Lemma handles_inv_add (v : string) (s : users) :
  v ≠ "" → handles_inv s → handles_inv (set_add (User (strip v)) s).
Proof.
  intros Hv Hs k u. unfold set_add.
  destruct (s !! key (User (strip v))) eqn:E; [apply Hs|].
  rewrite lookup_insert. case_decide as Hk; [|apply Hs].
  intros [= <-]. split; [done | by apply trimmed_handle_strip].
Qed.

Lemma add_shape_handles_inv (s s' : users) :
  add_shape s s' → handles_inv s → handles_inv s'.
Proof.
  intros [->|(v & Hv & ->)] H; [done | by apply handles_inv_add].
Qed.

Lemma step_shape_handles_inv (st st' : users * timestamps) :
  step_shape st st' → handles_inv st.1 → handles_inv st'.1.
Proof.
  intros [->|(v & Hv & -> & _)] H; [done | by apply handles_inv_add].
Qed.

Lemma step_shape_timestamps_inv (st st' : users * timestamps) :
  step_shape st st' → timestamps_inv st → timestamps_inv st'.
Proof.
  intros [->|(v & Hv & Hu & Ht)] H; [done|].
  assert (Hmono : ∀ k, k ∈ dom st.1 → k ∈ dom st'.1).
  { intros k Hk. rewrite Hu, dom_set_add. set_solver. }
  destruct Ht as [Ht|(t & Htrue & Ht)]; intros k w; rewrite Ht.
  - intros Hk. destruct (H k w Hk). auto.
  - rewrite lookup_insert. case_decide as Hk.
    + intros [= <-]. split; [done|]. subst k.
      rewrite Hu, dom_set_add. set_solver.
    + intros Hw. destruct (H k w Hw). auto.
Qed.

Lemma followers_item_shape (item : json) (s : users) :
  add_shape s (followers_item item s).2.
Proof.
  destruct item as [| | | | | |d]; try by left.
  unfold followers_item, bind, lift, py_get.
  destruct (truthy (default JNull (dict_get "value" d))) eqn:E; [|by left].
  destruct (default JNull (dict_get "value" d)) as [| | | |v| |];
    try by left.
  right. exists v. split; [by apply truthy_str | done].
Qed.

Lemma following_entry_shape (entry : json) (s : users) :
  add_shape s (following_entry entry s).2.
Proof.
  destruct entry as [| | | | | |d]; try by left.
  unfold following_entry, bind, lift, py_get.
  destruct (truthy (default JNull (dict_get "title" d))) eqn:E; [|by left].
  destruct (default JNull (dict_get "title" d)) as [| | | |v| |];
    try by left.
  right. exists v. split; [by apply truthy_str | done].
Qed.

Lemma followers_ts_item_shape (item : json) (st : users * timestamps) :
  step_shape st (followers_ts_item item st).2.
Proof.
  destruct item as [| | | | | |d]; try by left.
  unfold followers_ts_item, bind, lift, py_get.
  destruct (truthy (default JNull (dict_get "value" d))) eqn:E; [|by left].
  destruct (default JNull (dict_get "value" d)) as [| | | |v| |];
    try by left.
  right. exists v. split; [by apply truthy_str|]. cbn.
  destruct (truthy (default JNull (dict_get "timestamp" d))) eqn:Et; cbn.
  - split; [done|]. right. eauto.
  - split; [done|]. by left.
Qed.

Lemma following_ts_entry_shape (entry : json) (st : users * timestamps) :
  step_shape st (following_ts_entry entry st).2.
Proof.
  destruct entry as [| | | | | |d]; try by left.
  unfold following_ts_entry, bind, lift, py_get.
  destruct (truthy (default JNull (dict_get "title" d))) eqn:E; [|by left].
  destruct (default JNull (dict_get "title" d)) as [| | | |v| |];
    try by left.
  right. exists v. split; [by apply truthy_str|]. cbn.
  generalize (default (JArr []) (dict_get "string_list_data" d)).
  intros string_list.
  destruct (truthy string_list); [|by split; [|left]].
  destruct (py_index0 string_list) as [first|e]; [|by split; [|left]].
  destruct first as [| | | | | |f]; try by split; [|left].
  cbn. destruct (truthy (default JNull (dict_get "timestamp" f))) eqn:Et; cbn.
  - split; [done|]. right. eauto.
  - split; [done|]. by left.
Qed.

Ltac preserves_tac :=
  repeat first
    [ match goal with
      | H : ∀ x, preserves _ _ |- _ => apply H
      end
    | apply preserves_ret | apply preserves_lift
    | apply preserves_try_except
    | apply preserves_for_each; intros ?
    | apply preserves_bind; [|intros ?]
    | match goal with
      | |- preserves _ (if ?b then _ else _) => destruct b
      end ].

Lemma parse_followers_preserves loads (I : users → Prop) (files : list bytes) :
  (∀ item, preserves I (followers_item item)) →
  preserves I (for_each files (followers_file loads)).
Proof.
  intros H. unfold followers_file, followers_entry. preserves_tac.
Qed.

Lemma parse_followers_ts_preserves loads (I : users * timestamps → Prop)
    (files : list bytes) :
  (∀ item, preserves I (followers_ts_item item)) →
  preserves I (for_each files (followers_ts_file loads)).
Proof.
  intros H. unfold followers_ts_file, followers_ts_entry. preserves_tac.
Qed.

Lemma handles_inv_empty : handles_inv ∅.
Proof. intros k u. by rewrite lookup_empty. Qed.

Lemma timestamps_inv_empty : timestamps_inv (∅, ∅).
Proof. intros k v. cbn. by rewrite lookup_empty. Qed.

Lemma parse_followers_handles loads (files : list bytes) (s : users) :
  parse_followers loads files = Ok s → handles_inv s.
Proof.
  intros H. unfold parse_followers in H.
  eapply (preserves_run handles_inv) in H as (s' & -> & Hs); [exact Hs| |].
  - apply parse_followers_preserves. intros item t Ht.
    eapply add_shape_handles_inv; [apply followers_item_shape | done].
  - apply handles_inv_empty.
Qed.

Lemma parse_followers_ts_invs loads (files : list bytes)
    (s : users) (ts : timestamps) :
  parse_followers_with_timestamps loads files = Ok (s, ts) →
  handles_inv s ∧ timestamps_inv (s, ts).
Proof.
  intros H. unfold parse_followers_with_timestamps in H.
  eapply (preserves_run (λ st, handles_inv st.1 ∧ timestamps_inv st))
    in H as (s' & Heq & Hs); [unfold id in Heq; by subst s'| |].
  - apply parse_followers_ts_preserves. intros item t [Ht1 Ht2]. split.
    + eapply step_shape_handles_inv; [apply followers_ts_item_shape | done].
    + eapply step_shape_timestamps_inv;
        [apply followers_ts_item_shape | done].
  - split; [apply handles_inv_empty | apply timestamps_inv_empty].
Qed.

Lemma parse_following_handles loads (content : bytes) (s : users) :
  parse_following loads content = Ok s → handles_inv s.
Proof.
  intros H. unfold parse_following in H.
  eapply (preserves_run handles_inv) in H as (s' & -> & Hs); [exact Hs| |].
  - assert (Hb : ∀ entry, preserves handles_inv (following_entry entry)).
    { intros entry t Ht.
      eapply add_shape_handles_inv; [apply following_entry_shape | done]. }
    preserves_tac.
  - apply handles_inv_empty.
Qed.

Lemma parse_following_ts_invs loads (content : bytes)
    (s : users) (ts : timestamps) :
  parse_following_with_timestamps loads content = Ok (s, ts) →
  handles_inv s ∧ timestamps_inv (s, ts).
Proof.
  intros H. unfold parse_following_with_timestamps in H.
  eapply (preserves_run (λ st, handles_inv st.1 ∧ timestamps_inv st))
    in H as (s' & Heq & Hs); [unfold id in Heq; by subst s'| |].
  - assert (Hb : ∀ entry,
              preserves (λ st, handles_inv st.1 ∧ timestamps_inv st)
                (following_ts_entry entry)).
    { intros entry t [Ht1 Ht2]. split.
      - eapply step_shape_handles_inv;
          [apply following_ts_entry_shape | done].
      - eapply step_shape_timestamps_inv;
          [apply following_ts_entry_shape | done]. }
    preserves_tac.
  - split; [apply handles_inv_empty | apply timestamps_inv_empty].
Qed.

(** C9, as stated, fails: a value or title of one space is a true string,
    is trimmed to the empty string and is added. *)
Lemma blank_value_gives_empty_handle :
  parse_followers (holding blank_followers) [[]] = Ok {["" := User ""]}
  ∧ parse_followers_with_timestamps (holding blank_followers) [[]]
    = Ok ({["" := User ""]}, ∅)
  ∧ parse_following (holding blank_following) [] = Ok {["" := User ""]}
  ∧ parse_following_with_timestamps (holding blank_following) []
    = Ok ({["" := User ""]}, ∅)
  ∧ username (User "") = "".
Proof. repeat split. Qed.

(** ** Tolerance *)

Lemma forallb_Forall_true {A} (f : A → bool) (l : list A) :
  forallb f l = true → Forall (λ x, f x = true) l.
Proof.
  induction l as [|x l IH]; cbn; [by constructor|].
  intros [Hx Hl]%andb_true_iff. constructor; auto.
Qed.













(** ** The following parser, entry by entry *)

Lemma following_ts_entry_no_title (d : list (string * json))
    (st : users * timestamps) :
  dict_get "title" d = None → following_ts_entry (JObj d) st = (Ok tt, st).
Proof.
  intros Hv. unfold following_ts_entry, bind, lift, py_get. by rewrite Hv.
Qed.

Lemma following_ts_entry_no_sub (d : list (string * json)) (title : string)
    (st : users * timestamps) :
  dict_get "title" d = Some (JStr title) → title ≠ "" →
  dict_get "string_list_data" d = None
  ∨ dict_get "string_list_data" d = Some (JArr []) →
  following_ts_entry (JObj d) st
  = (Ok tt, (set_add (User (strip title)) st.1, st.2)).
Proof.
  intros Ht Hne Hs. apply truthy_str in Hne. destruct st as [us ts].
  unfold following_ts_entry, bind, lift, py_get. rewrite Ht.
  cbn [from_option id]. rewrite Hne. cbn. by destruct Hs as [-> | ->].
Qed.

Lemma following_ts_entry_first (d f : list (string * json)) (title : string)
    (rest : list json) (st : users * timestamps) :
  dict_get "title" d = Some (JStr title) → title ≠ "" →
  dict_get "string_list_data" d = Some (JArr (JObj f :: rest)) →
  following_ts_entry (JObj d) st
  = (Ok tt,
     (set_add (User (strip title)) st.1,
      if truthy (default JNull (dict_get "timestamp" f))
      then <[lower (strip title) := default JNull (dict_get "timestamp" f)]>
             st.2
      else st.2)).
Proof.
  intros Ht Hne Hs. apply truthy_str in Hne. destruct st as [us ts].
  unfold following_ts_entry, bind, lift, py_get. rewrite Ht.
  cbn [from_option id]. rewrite Hne. cbn. rewrite Hs. cbn.
  by destruct (truthy (default JNull (dict_get "timestamp" f))).
Qed.

Lemma following_ts_entry_titled (entry : json) (title : string) (t : Z)
    (st : users * timestamps) :
  titled_entry entry title t → title ≠ "" → t ≠ 0 →
  following_ts_entry entry st
  = (Ok tt, (set_add (User (strip title)) st.1,
             <[lower (strip title) := JInt t]> st.2)).
Proof.
  intros (e & f & rest & -> & Ht & Hs & Hf) Hne Hnz.
  rewrite (following_ts_entry_first _ _ _ _ _ Ht Hne Hs), Hf.
  cbn [from_option id]. apply truthy_int in Hnz. by rewrite Hnz.
Qed.

Lemma parse_following_ts_entries loads (content : bytes)
    (top : list (string * json)) (entries : list json) :
  loads content = Ok (JObj top) →
  dict_get "relationships_following" top = Some (JArr entries) →
  parse_following_with_timestamps loads content
  = run (for_each entries following_ts_entry) (∅, ∅) id.
Proof.
  intros Hl Hr. unfold parse_following_with_timestamps, run.
  rewrite try_except_uncaught.
  - unfold bind, lift, py_get. by rewrite Hl, Hr.
  - rewrite Hl. apply uncaught_bind; [by apply uncaught_lift|]. intros data.
    unfold following_ts_entry. uncaught_tac.
Qed.

Lemma two_following loads (b : bytes) (top : list (string * json))
    (e1 e2 : json) :
  loads b = Ok (JObj top) →
  dict_get "relationships_following" top = Some (JArr [e1; e2]) →
  titled_entry e1 "user2" 123 →
  titled_entry e2 "user4" 124 →
  parse_following_with_timestamps loads b
  = Ok (list_to_map [("user2", User "user2"); ("user4", User "user4")],
        list_to_map [("user2", JInt 123); ("user4", JInt 124)]).
Proof.
  intros Hl Hr H1 H2.
  rewrite (parse_following_ts_entries _ _ _ _ Hl Hr).
  unfold run. cbn [for_each]. unfold bind.
  rewrite (following_ts_entry_titled _ _ _ _ H1) by done.
  rewrite (following_ts_entry_titled _ _ _ _ H2) by done.
  vm_compute. reflexivity.
Qed.

Lemma followers_entry_single (entry : json) (v : string) (t : Z) (s : users) :
  single_item_entry entry v t → v ≠ "" →
  followers_entry entry s = (Ok tt, set_add (User (strip v)) s).
Proof.
  intros (e & i & -> & He & Hv & _) Hne. apply truthy_str in Hne.
  unfold followers_entry, followers_item, bind, lift, py_get.
  rewrite He. cbn. unfold bind. rewrite Hv. cbn [from_option id].
  by rewrite Hne.
Qed.

Lemma followers_file_entries loads (content : bytes) (entries : list json)
    (s : users) :
  loads content = Ok (JArr entries) →
  followers_file loads content s = for_each entries followers_entry s.
Proof.
  intros Hl. unfold followers_file. rewrite try_except_uncaught.
  - unfold bind, lift. by rewrite Hl.
  - unfold followers_entry, followers_item. rewrite Hl.
    apply uncaught_bind; [by apply uncaught_lift|]. intros data.
    uncaught_tac.
Qed.

(** ** The parsers on exports of the expected shape *)

Lemma for_each_foldl {St A} (l : list A) (body : A → M St unit)
    (f : St → A → St) (s : St) :
  Forall (λ x, ∀ t, body x t = (Ok tt, f t x)) l →
  for_each l body s = (Ok tt, foldl f s l).
Proof.
  intros HF. revert s.
  induction HF as [|x l Hx _ IH]; intros s; cbn; [done|].
  unfold bind. rewrite Hx. apply IH.
Qed.

Lemma foldl_concat {St A B} (f : St → B → St) (g : A → list B)
    (l : list A) (s : St) :
  foldl (λ t x, foldl f t (g x)) s l = foldl f s (concat (map g l)).
Proof.
  revert s. induction l as [|x l IH]; intros s; cbn; [done|].
  by rewrite foldl_app, IH.
Qed.

Lemma followers_ts_item_record (item : json) (st : users * timestamps) :
  wf_follower_item item = true →
  followers_ts_item item st = (Ok tt, record_item st item).
Proof.
  destruct item as [| | | | | |d]; try done. cbn [wf_follower_item].
  intros [Hv Ht]%andb_true_iff. destruct st as [us ts].
  unfold followers_ts_item, record_item, record_handle, record_timestamp,
    bind, lift, py_get.
  destruct (dict_get "value" d) as [[| | | |v| |]|]; try done; cbn.
  destruct (String.eqb v ""); cbn; [done|].
  destruct (dict_get "timestamp" d) as [[| |t| | | |]|]; try done; cbn.
  by destruct (t =? 0).
Qed.

Lemma followers_ts_entry_record (entry : json) (st : users * timestamps) :
  wf_follower_entry entry = true →
  followers_ts_entry entry st
  = (Ok tt, foldl record_item st (entry_items entry)).
Proof.
  destruct entry as [| | | | | |d]; try done.
  cbn [wf_follower_entry entry_items].
  unfold followers_ts_entry, bind, lift, py_get.
  destruct (dict_get "string_list_data" d) as [[| | | | |items|]|];
    try done; cbn.
  intros H. apply for_each_foldl. apply forallb_Forall_true in H.
  eapply Forall_impl; [exact H|]. intros item Hi t.
  by apply followers_ts_item_record.
Qed.

Lemma followers_ts_file_record loads (content : bytes) (doc : json)
    (st : users * timestamps) :
  loads content = Ok doc → wf_followers doc = true →
  followers_ts_file loads content st
  = (Ok tt, foldl record_item st (document_items doc)).
Proof.
  intros Hl Hwf. destruct doc as [| | | | |entries|]; try done.
  rewrite (followers_ts_file_entries _ _ _ _ Hl). cbn [document_items].
  rewrite <- foldl_concat. apply for_each_foldl.
  cbn in Hwf. apply forallb_Forall_true in Hwf.
  eapply Forall_impl; [exact Hwf|]. intros entry He t.
  by apply followers_ts_entry_record.
Qed.

Lemma parse_followers_ts_record loads (files : list bytes)
    (docs : list json) :
  Forall2 (λ b doc, loads b = Ok doc ∧ wf_followers doc = true) files docs →
  parse_followers_with_timestamps loads files
  = Ok (foldl record_item (∅, ∅) (concat (map document_items docs))).
Proof.
  intros HF. unfold parse_followers_with_timestamps, run.
  rewrite <- foldl_concat.
  generalize ((∅, ∅) : users * timestamps).
  induction HF as [|b doc files docs [Hl Hwf] _ IH]; intros st; cbn;
    [done|].
  unfold bind. rewrite (followers_ts_file_record _ _ _ _ Hl Hwf). apply IH.
Qed.

Lemma following_ts_entry_record (entry : json) (st : users * timestamps) :
  wf_following_entry entry = true →
  following_ts_entry entry st = (Ok tt, record_entry st entry).
Proof.
  destruct entry as [| | | | | |d]; try done. cbn [wf_following_entry].
  intros [Hv Hl]%andb_true_iff. destruct st as [us ts].
  unfold following_ts_entry, record_entry, record_handle, record_timestamp,
    bind, lift, py_get.
  destruct (dict_get "title" d) as [[| | | |v| |]|]; try done; cbn.
  destruct (String.eqb v ""); cbn; [done|].
  destruct (dict_get "string_list_data" d) as [[| | | | |subs|]|];
    try done; cbn.
  destruct subs as [|[| | | | | |f] subs]; try done; cbn.
  cbn in Hl. apply andb_true_iff in Hl as [Hf _].
  destruct (dict_get "timestamp" f) as [[| |t| | | |]|]; try done; cbn.
  by destruct (t =? 0).
Qed.

Lemma parse_following_ts_record loads (content : bytes) (doc : json) :
  loads content = Ok doc → wf_following doc = true →
  parse_following_with_timestamps loads content
  = Ok (foldl record_entry (∅, ∅) (document_entries doc)).
Proof.
  intros Hl Hwf. destruct doc as [| | | | | |top]; try done.
  cbn [wf_following document_entries] in *.
  destruct (dict_get "relationships_following" top)
    as [[| | | | |entries|]|] eqn:Hr; try done.
  - rewrite (parse_following_ts_entries _ _ _ _ Hl Hr). unfold run.
    rewrite (for_each_foldl _ _ record_entry); [done|].
    cbn in Hwf. apply forallb_Forall_true in Hwf.
    eapply Forall_impl; [exact Hwf|]. intros entry He t.
    by apply following_ts_entry_record.
  - unfold parse_following_with_timestamps, run, try_except, bind, lift,
      py_get.
    by rewrite Hl, Hr.
Qed.

(** ** The parsers on the exports of the specification *)

(** C5. On a buffer holding three entries whose items carry the values
    user1, user2, user3 and the timestamps 123, 124, 125,
    [parse_followers_with_timestamps] returns a set of three users and the
    map from each to its timestamp. On buffers of the expected shape it
    returns what the items contribute one after the other. In the loop, an
    item without ["value"] changes neither the set nor the map, and an item
    without ["timestamp"] adds its user and leaves the map as it is. On
    every list of buffers, no timestamp of the returned map is zero and
    each is under the key of a returned user. *)
Theorem followers_with_timestamps_spec loads :
  (∀ b e1 e2 e3,
     loads b = Ok (JArr [e1; e2; e3]) →
     single_item_entry e1 "user1" 123 →
     single_item_entry e2 "user2" 124 →
     single_item_entry e3 "user3" 125 →
     ∃ s, parse_followers_with_timestamps loads [b]
          = Ok (s, list_to_map [("user1", JInt 123); ("user2", JInt 124);
                                ("user3", JInt 125)])
          ∧ set_len s = 3
          ∧ s = list_to_map [("user1", User "user1");
                             ("user2", User "user2");
                             ("user3", User "user3")])
  ∧ (∀ files docs,
       Forall2 (λ b doc, loads b = Ok doc ∧ wf_followers doc = true)
         files docs →
       parse_followers_with_timestamps loads files
       = Ok (foldl record_item (∅, ∅) (concat (map document_items docs))))
  ∧ (∀ d st, dict_get "value" d = None →
       followers_ts_item (JObj d) st = (Ok tt, st))
  ∧ (∀ d v st,
       dict_get "value" d = Some (JStr v) → v ≠ "" →
       dict_get "timestamp" d = None →
       followers_ts_item (JObj d) st
       = (Ok tt, (set_add (User (strip v)) st.1, st.2)))
  ∧ (∀ files s ts,
       parse_followers_with_timestamps loads files = Ok (s, ts) →
       ∀ k v, ts !! k = Some v → v ≠ JInt 0 ∧ k ∈ dom s).
Proof.
  repeat apply conj.
  - intros b e1 e2 e3 Hl H1 H2 H3. eexists. split; [|split].
    + by apply (three_followers loads b e1 e2 e3).
    + reflexivity.
    + reflexivity.
  - apply parse_followers_ts_record.
  - apply followers_ts_item_no_value.
  - intros d v st Hv Hne Ht.
    rewrite (followers_ts_item_value _ _ _ Hv Hne), Ht. reflexivity.
  - intros files s ts H k v Hk.
    destruct (parse_followers_ts_invs _ _ _ _ H) as [_ Hts].
    destruct (Hts k v Hk) as [Htrue Hdom]. split; [|done].
    intros ->. discriminate Htrue.
Qed.

Lemma followers_with_timestamps_spec_witness :
  (∃ s, parse_followers_with_timestamps (holding valid_followers_json) [[]]
        = Ok (s, list_to_map [("user1", JInt 123); ("user2", JInt 124);
                              ("user3", JInt 125)])
        ∧ set_len s = 3
        ∧ s = list_to_map [("user1", User "user1"); ("user2", User "user2");
                           ("user3", User "user3")])
  ∧ parse_followers_with_timestamps (holding valid_followers_json) [[]; []]
    = Ok (foldl record_item (∅, ∅)
            (concat (map document_items
                       [valid_followers_json; valid_followers_json])))
  ∧ followers_ts_item (JObj [("href", JStr "h")]) (∅, ∅) = (Ok tt, (∅, ∅))
  ∧ followers_ts_item (JObj [("value", JStr "user1")]) (∅, ∅)
    = (Ok tt, (set_add (User (strip "user1")) ∅, ∅))
  ∧ (JInt 123 ≠ JInt 0
     ∧ "user1" ∈ dom (list_to_map [("user1", User "user1");
                                    ("user2", User "user2");
                                    ("user3", User "user3")] : users)).
Proof.
  destruct (followers_with_timestamps_spec (holding valid_followers_json))
    as (H1 & H5 & H2 & H3 & H4).
  repeat apply conj.
  - eapply H1; [reflexivity|..]; do 2 eexists; repeat split.
  - apply H5. repeat constructor.
  - apply H2. reflexivity.
  - apply (H3 [("value", JStr "user1")] "user1" (∅, ∅)); done.
  - eapply (H4 [[]] _ _ eq_refl "user1"). reflexivity.
  - eapply (H4 [[]] _ _ eq_refl "user1" (JInt 123)). reflexivity.
Defined.

(** C6. [parse_following_with_timestamps] takes the user of an entry from
    its ["title"] and the timestamp from the first element of its
    ["string_list_data"], whatever follows that element: the key is left
    out when the list is missing or empty or when its first element has no
    ["timestamp"]. On a buffer of the expected shape it returns what the
    entries contribute one after the other; on the two-entry export of the
    specification, the users user2, user4 and the timestamps 123, 124. *)
Theorem following_with_timestamps_spec loads :
  (∀ b top e1 e2,
     loads b = Ok (JObj top) →
     dict_get "relationships_following" top = Some (JArr [e1; e2]) →
     titled_entry e1 "user2" 123 →
     titled_entry e2 "user4" 124 →
     parse_following_with_timestamps loads b
     = Ok (list_to_map [("user2", User "user2"); ("user4", User "user4")],
           list_to_map [("user2", JInt 123); ("user4", JInt 124)]))
  ∧ (∀ b doc,
       loads b = Ok doc → wf_following doc = true →
       parse_following_with_timestamps loads b
       = Ok (foldl record_entry (∅, ∅) (document_entries doc)))
  ∧ (∀ d title st,
       dict_get "title" d = Some (JStr title) → title ≠ "" →
       dict_get "string_list_data" d = None
       ∨ dict_get "string_list_data" d = Some (JArr []) →
       following_ts_entry (JObj d) st
       = (Ok tt, (set_add (User (strip title)) st.1, st.2)))
  ∧ (∀ d title f rest st,
       dict_get "title" d = Some (JStr title) → title ≠ "" →
       dict_get "string_list_data" d = Some (JArr (JObj f :: rest)) →
       dict_get "timestamp" f = None →
       following_ts_entry (JObj d) st
       = (Ok tt, (set_add (User (strip title)) st.1, st.2)))
  ∧ (∀ d title f rest n st,
       dict_get "title" d = Some (JStr title) → title ≠ "" →
       dict_get "string_list_data" d = Some (JArr (JObj f :: rest)) →
       dict_get "timestamp" f = Some (JInt n) → n ≠ 0 →
       following_ts_entry (JObj d) st
       = (Ok tt, (set_add (User (strip title)) st.1,
                  <[lower (strip title) := JInt n]> st.2))).
Proof.
  repeat apply conj.
  - apply two_following.
  - apply parse_following_ts_record.
  - apply following_ts_entry_no_sub.
  - intros d title f rest st Ht Hne Hs Hf.
    rewrite (following_ts_entry_first _ _ _ _ _ Ht Hne Hs), Hf. reflexivity.
  - intros d title f rest n st Ht Hne Hs Hf Hn.
    rewrite (following_ts_entry_first _ _ _ _ _ Ht Hne Hs), Hf.
    cbn [from_option id]. apply truthy_int in Hn. by rewrite Hn.
Qed.

Lemma following_with_timestamps_spec_witness :
  parse_following_with_timestamps (holding valid_following_json) []
  = Ok (list_to_map [("user2", User "user2"); ("user4", User "user4")],
        list_to_map [("user2", JInt 123); ("user4", JInt 124)])
  ∧ parse_following_with_timestamps (holding valid_following_json) []
    = Ok (foldl record_entry (∅, ∅) (document_entries valid_following_json))
  ∧ following_ts_entry (JObj [("title", JStr "user2")]) (∅, ∅)
    = (Ok tt, (set_add (User (strip "user2")) ∅, ∅))
  ∧ following_ts_entry
      (JObj [("title", JStr "user2");
             ("string_list_data",
              JArr [JObj [("href", JStr "h")];
                    JObj [("timestamp", JInt 7)]])]) (∅, ∅)
    = (Ok tt, (set_add (User (strip "user2")) ∅, ∅))
  ∧ following_ts_entry
      (JObj [("title", JStr "user2");
             ("string_list_data",
              JArr [JObj [("timestamp", JInt 123)];
                    JObj [("timestamp", JInt 7)]])]) (∅, ∅)
    = (Ok tt, (set_add (User (strip "user2")) ∅,
               <[lower (strip "user2") := JInt 123]> ∅)).
Proof.
  destruct (following_with_timestamps_spec (holding valid_following_json))
    as (H1 & H5 & H2 & H3 & H4).
  repeat apply conj.
  - eapply H1; [reflexivity | reflexivity |..]; do 3 eexists; repeat split.
  - by apply H5.
  - apply (H2 [("title", JStr "user2")] "user2" (∅, ∅)); [done|done|by left].
  - eapply (H3 _ "user2" _ _ (∅, ∅)); [reflexivity|done|reflexivity|reflexivity].
  - eapply (H4 _ "user2" _ _ 123 (∅, ∅));
      [reflexivity|done|reflexivity|reflexivity|done].
Defined.

(** C7. [parse_followers] on a buffer given twice returns what it returns
    on the buffer given once, and so for a whole list of buffers given
    twice; a second buffer whose only handle differs from that of the first
    in case or surrounding whitespace adds nothing; two copies of the
    three-user export give a set of three users. *)
Theorem parse_followers_deduplicates loads :
  (∀ b, parse_followers loads [b; b] = parse_followers loads [b])
  ∧ (∀ files,
       parse_followers loads (files ++ files) = parse_followers loads files)
  ∧ (∀ b1 b2 e1 e2 v1 v2 t1 t2,
       loads b1 = Ok (JArr [e1]) → loads b2 = Ok (JArr [e2]) →
       single_item_entry e1 v1 t1 → single_item_entry e2 v2 t2 →
       v1 ≠ "" → v2 ≠ "" →
       lower (strip v1) = lower (strip v2) →
       parse_followers loads [b1; b2] = parse_followers loads [b1]
       ∧ parse_followers loads [b1]
         = Ok {[lower (strip v1) := User (strip v1)]})
  ∧ (∀ b e1 e2 e3,
       loads b = Ok (JArr [e1; e2; e3]) →
       single_item_entry e1 "user1" 123 →
       single_item_entry e2 "user2" 124 →
       single_item_entry e3 "user3" 125 →
       ∃ s, parse_followers loads [b; b] = Ok s
            ∧ parse_followers loads [b] = Ok s
            ∧ set_len s = 3).
Proof.
  repeat apply conj.
  - intros b. apply (parse_followers_twice loads [b]).
  - apply parse_followers_twice.
  - intros b1 b2 e1 e2 v1 v2 t1 t2 Hl1 Hl2 H1 H2 Hn1 Hn2 E.
    unfold parse_followers, run. cbn [for_each]. unfold bind.
    rewrite (followers_file_entries _ _ _ _ Hl1). cbn [for_each]. unfold bind.
    rewrite (followers_entry_single _ _ _ _ H1 Hn1). cbn [ret].
    rewrite (followers_file_entries _ _ _ _ Hl2). cbn [for_each]. unfold bind.
    rewrite (followers_entry_single _ _ _ _ H2 Hn2). cbn [ret id].
    rewrite set_add_same_key by done. split; [done|].
    unfold set_add. by rewrite lookup_empty, insert_empty.
  - intros b e1 e2 e3 Hl H1 H2 H3. eexists.
    change [b; b] with ([b] ++ [b])%list.
    rewrite (parse_followers_twice loads [b]), parse_followers_sim.
    rewrite (three_followers loads b e1 e2 e3) by done.
    repeat split.
Qed.

Lemma parse_followers_deduplicates_witness :
  (∃ s, parse_followers (holding valid_followers_json) [[]; []] = Ok s
        ∧ parse_followers (holding valid_followers_json) [[]] = Ok s
        ∧ set_len s = 3)
  ∧ parse_followers (holding_two zero_followers shouted_followers)
      [[]; [x00]]
    = parse_followers (holding_two zero_followers shouted_followers) [[]]
  ∧ parse_followers (holding_two zero_followers shouted_followers) [[]]
    = Ok {[lower (strip "user1") := User (strip "user1")]}.
Proof.
  destruct (parse_followers_deduplicates (holding valid_followers_json))
    as (_ & _ & _ & H).
  destruct (parse_followers_deduplicates
              (holding_two zero_followers shouted_followers))
    as (_ & _ & H' & _).
  split.
  - eapply H; [reflexivity|..]; do 2 eexists; repeat split.
  - eapply (H' [] [x00] _ _ "user1" " USER1 " 0 7);
      [reflexivity | reflexivity | | | done | done | reflexivity].
    + do 2 eexists. repeat split.
    + do 2 eexists. repeat split.
Defined.

(** ** A zero timestamp *)

Lemma followers_ts_item_zero (item item' : json) (st : users * timestamps) :
  item_zero_dropped item item' →
  followers_ts_item item st = followers_ts_item item' st.
Proof.
  intros [->|(d & d' & -> & -> & H0 & Hn & Hsame)]; [done|].
  unfold followers_ts_item, bind, lift, py_get.
  rewrite (Hsame "value") by done.
  destruct (truthy (default JNull (dict_get "value" d))); [|done].
  destruct (py_strip (default JNull (dict_get "value" d))); [|done].
  cbn. by rewrite H0, Hn.
Qed.

Lemma followers_ts_entry_zero (entry entry' : json)
    (st : users * timestamps) :
  follower_entry_zero_dropped entry entry' →
  followers_ts_entry entry st = followers_ts_entry entry' st.
Proof.
  intros [->|(d & d' & items & items' & -> & -> & Hd & Hd' & HF)]; [done|].
  rewrite (followers_ts_entry_items _ _ _ Hd),
    (followers_ts_entry_items _ _ _ Hd').
  apply (for_each_ext item_zero_dropped); [done|].
  intros x y t Hxy. by apply followers_ts_item_zero.
Qed.

Lemma followers_ts_file_zero loads (b b' : bytes) (st : users * timestamps) :
  followers_zero_dropped (loads b) (loads b') →
  followers_ts_file loads b st = followers_ts_file loads b' st.
Proof.
  intros [E|(es & es' & Hl & Hl' & HF)].
  - unfold followers_ts_file, try_except, bind, lift. by rewrite E.
  - rewrite (followers_ts_file_entries _ _ _ _ Hl),
      (followers_ts_file_entries _ _ _ _ Hl').
    apply (for_each_ext follower_entry_zero_dropped); [done|].
    intros x y t Hxy. by apply followers_ts_entry_zero.
Qed.

Lemma following_ts_entry_zero (entry entry' : json)
    (st : users * timestamps) :
  following_entry_zero_dropped entry entry' →
  following_ts_entry entry st = following_ts_entry entry' st.
Proof.
  intros [->|(d & d' & f & f' & rest & -> & -> & Ht & Hd & Hd'
              & H0 & Hn & _)]; [done|].
  unfold following_ts_entry, bind, lift, py_get. rewrite Ht, Hd, Hd'.
  destruct (truthy (default JNull (dict_get "title" d))); [|done].
  destruct (py_strip (default JNull (dict_get "title" d))); [|done].
  cbn. by rewrite H0, Hn.
Qed.

Lemma parse_following_ts_zero loads (b b' : bytes) :
  following_zero_dropped (loads b) (loads b') →
  parse_following_with_timestamps loads b
  = parse_following_with_timestamps loads b'.
Proof.
  intros [E|(top & top' & es & es' & Hl & Hl' & Hr & Hr' & HF)].
  - unfold parse_following_with_timestamps, run, try_except, bind, lift.
    by rewrite E.
  - rewrite (parse_following_ts_entries _ _ _ _ Hl Hr),
      (parse_following_ts_entries _ _ _ _ Hl' Hr').
    unfold run.
    rewrite (for_each_ext following_entry_zero_dropped es es'); [done|done|].
    intros x y t Hxy. by apply following_ts_entry_zero.
Qed.

(** C10. A timestamp that is present and is the integer 0 is to both
    timestamp parsers what no timestamp is: a list of followers buffers,
    or a following buffer, returns the same set and the same map once such
    fields are dropped from its items, or from the first sub-entries of its
    entries; in the loops, an item or entry with such a field leaves the
    map as it is. *)
Theorem zero_timestamp_as_absent loads :
  (∀ files files',
     Forall2 (λ b b', followers_zero_dropped (loads b) (loads b'))
       files files' →
     parse_followers_with_timestamps loads files
     = parse_followers_with_timestamps loads files')
  ∧ (∀ b b',
       following_zero_dropped (loads b) (loads b') →
       parse_following_with_timestamps loads b
       = parse_following_with_timestamps loads b')
  ∧ (∀ d v st,
       dict_get "value" d = Some (JStr v) → v ≠ "" →
       dict_get "timestamp" d = Some (JInt 0) →
       followers_ts_item (JObj d) st
       = (Ok tt, (set_add (User (strip v)) st.1, st.2)))
  ∧ (∀ d title f rest st,
       dict_get "title" d = Some (JStr title) → title ≠ "" →
       dict_get "string_list_data" d = Some (JArr (JObj f :: rest)) →
       dict_get "timestamp" f = Some (JInt 0) →
       following_ts_entry (JObj d) st
       = (Ok tt, (set_add (User (strip title)) st.1, st.2))).
Proof.
  repeat apply conj.
  - intros files files' HF. unfold parse_followers_with_timestamps, run.
    rewrite (for_each_ext _ files files' _ _ HF); [done|].
    intros x y t Hxy. by apply followers_ts_file_zero.
  - apply parse_following_ts_zero.
  - intros d v st Hv Hne Ht.
    rewrite (followers_ts_item_value _ _ _ Hv Hne), Ht. reflexivity.
  - intros d title f rest st Ht Hne Hs Hf.
    rewrite (following_ts_entry_first _ _ _ _ _ Ht Hne Hs), Hf. reflexivity.
Qed.

Lemma zero_timestamp_as_absent_witness :
  parse_followers_with_timestamps
    (holding_two zero_followers untimed_followers) [[]]
  = parse_followers_with_timestamps
      (holding_two zero_followers untimed_followers) [[x00]]
  ∧ parse_following_with_timestamps
      (holding_two zero_following untimed_following) []
    = parse_following_with_timestamps
        (holding_two zero_following untimed_following) [x00]
  ∧ followers_ts_item
      (JObj [("value", JStr "user1"); ("timestamp", JInt 0)]) (∅, ∅)
    = (Ok tt, (set_add (User (strip "user1")) ∅, ∅))
  ∧ following_ts_entry
      (JObj [("title", JStr "user2");
             ("string_list_data", JArr [JObj [("timestamp", JInt 0)]])])
      (∅, ∅)
    = (Ok tt, (set_add (User (strip "user2")) ∅, ∅)).
Proof.
  assert (Hdrop : ∀ d : list (string * json),
            dict_get "timestamp" d = None →
            zero_timestamp_dropped (d ++ [("timestamp", JInt 0)])%list d).
  { intros d Hd. repeat split; [|done|].
    - induction d as [|[k v] d IH]; [done|]. cbn [dict_get app] in *.
      destruct (String.eqb "timestamp" k); [done | by apply IH].
    - intros k Hk. induction d as [|[k' v] d IH]; cbn [dict_get app] in *.
      + apply String.eqb_neq in Hk. by rewrite Hk.
      + destruct (String.eqb "timestamp" k'); [done|].
        destruct (String.eqb k k'); [done | by apply IH]. }
  destruct (zero_timestamp_as_absent
              (holding_two zero_followers untimed_followers))
    as (H1 & _ & H3 & H4).
  destruct (zero_timestamp_as_absent
              (holding_two zero_following untimed_following))
    as (_ & H2 & _ & _).
  repeat apply conj.
  - apply H1. constructor; [|constructor]. right.
    do 2 eexists. split; [reflexivity|]. split; [reflexivity|].
    constructor; [|constructor]. right.
    do 4 eexists. repeat split.
    constructor; [|constructor]. right.
    do 2 eexists. split; [reflexivity|]. split; [reflexivity|].
    by apply (Hdrop [("value", JStr "user1")]).
  - apply H2. right. do 4 eexists. repeat split.
    constructor; [|constructor]. right.
    exists [("title", JStr "user2");
            ("string_list_data", JArr [JObj [("timestamp", JInt 0)]])],
           [("title", JStr "user2"); ("string_list_data", JArr [JObj []])],
           [("timestamp", JInt 0)], [], [].
    repeat split. by apply (Hdrop []).
  - by apply (H3 [("value", JStr "user1"); ("timestamp", JInt 0)] "user1").
  - by eapply (H4 _ "user2" [("timestamp", JInt 0)] []).
Defined.


(** * Further properties of the parsers and of the analysis *)

(** ** The order and number of the followers buffers *)

Lemma subseteq_set_add (u : InstagramUser) (s : users) : s ⊆ set_add u s.
Proof.
  unfold set_add. destruct (s !! key u) eqn:E; [done|].
  by apply insert_subseteq.
Qed.

Lemma subseteq_add_all (us : list InstagramUser) (s : users) :
  s ⊆ add_all us s.
Proof.
  revert s. induction us as [|u us IH]; intros s; cbn; [done|].
  etrans; [apply (subseteq_set_add u)|]. apply IH.
Qed.

Lemma adds_followers_files loads (files : list bytes) :
  adds (for_each files (followers_file loads)).
Proof. apply adds_for_each. intros b. apply adds_followers_file. Qed.

(** X2. Buffers given after others change nothing of what these gave:
    when [parse_followers] returns on a list of buffers, it returns on
    every initial part of the list, and each user stored then is stored
    as it was. *)
Theorem parse_followers_grows loads (files more : list bytes) (s' : users) :
  parse_followers loads (files ++ more) = Ok s' →
  ∃ s, parse_followers loads files = Ok s ∧ s ⊆ s'.
Proof.
  unfold parse_followers, run. rewrite for_each_app. unfold bind.
  destruct (adds_followers_files loads files) as (o & us & H).
  destruct (adds_followers_files loads more) as (o' & us' & H').
  rewrite (H ∅). destruct o as [[]|e]; [|done].
  rewrite H'. destruct o' as [[]|e]; [|done].
  intros [= <-]. eexists. split; [done|]. apply subseteq_add_all.
Qed.

Lemma parse_followers_grows_witness :
  ∃ s, parse_followers (holding valid_followers_json) [[]] = Ok s
       ∧ s ⊆ list_to_map [("user1", User "user1"); ("user2", User "user2");
                          ("user3", User "user3")].
Proof.
  apply (parse_followers_grows (holding valid_followers_json) [[]] [[x00]]).
  reflexivity.
Defined.

Lemma for_each_dom loads (files : list bytes) (s s' : users) :
  dom s = dom s' →
  (for_each files (followers_file loads) s).1
  = (for_each files (followers_file loads) s').1
  ∧ dom (for_each files (followers_file loads) s).2
    = dom (for_each files (followers_file loads) s').2.
Proof.
  intros E. destruct (adds_followers_files loads files) as (o & us & H).
  rewrite !H. cbn. by rewrite !dom_add_all, E.
Qed.

Lemma for_each_followers_perm loads (files files' : list bytes) :
  files ≡ₚ files' →
  ∀ s s', dom s = dom s' →
    match (for_each files (followers_file loads) s).1,
          (for_each files' (followers_file loads) s').1 with
    | Ok _, Ok _ =>
        dom (for_each files (followers_file loads) s).2
        = dom (for_each files' (followers_file loads) s').2
    | Raise _, Raise _ => True
    | _, _ => False
    end.
Proof.
  induction 1 as [|b l l' _ IH|b c l|l1 l2 l3 _ IH1 _ IH2]; intros s s' E.
  - done.
  - cbn. unfold bind.
    destruct (adds_followers_file loads b) as (o & us & H).
    rewrite !H. destruct o as [[]|e]; [|done].
    apply IH. by rewrite !dom_add_all, E.
  - cbn. unfold bind.
    destruct (adds_followers_file loads b) as (ob & ub & Hb).
    destruct (adds_followers_file loads c) as (oc & uc & Hc).
    rewrite !Hb, !Hc.
    destruct ob as [[]|eb], oc as [[]|ec]; rewrite ?Hb, ?Hc; try done.
    destruct (for_each_dom loads l (add_all ub (add_all uc s))
                (add_all uc (add_all ub s'))) as [Ho Hd].
    { rewrite !dom_add_all, E. set_solver. }
    rewrite Ho, Hd.
    by destruct ((for_each l (followers_file loads)
                    (add_all uc (add_all ub s'))).1).
  - specialize (IH1 s s' E). specialize (IH2 s' s' eq_refl).
    destruct ((for_each l1 (followers_file loads) s).1),
             ((for_each l2 (followers_file loads) s').1),
             ((for_each l3 (followers_file loads) s').1); try done.
    by rewrite IH1.
Qed.

(** X1. The order of the buffers does not matter to who is in the set
    [parse_followers] returns (it may matter to the spelling stored): on a
    reordered list the parser raises if it raised, and otherwise returns
    an equal set. *)
Theorem parse_followers_order loads (files files' : list bytes) :
  files ≡ₚ files' →
  match parse_followers loads files, parse_followers loads files' with
  | Ok s, Ok s' => set_equal s s'
  | Raise _, Raise _ => True
  | _, _ => False
  end.
Proof.
  intros HP. pose proof (for_each_followers_perm loads _ _ HP ∅ ∅ eq_refl) as H.
  unfold parse_followers, run, set_equal.
  destruct (for_each files (followers_file loads) ∅) as [[[]|e] s],
           (for_each files' (followers_file loads) ∅) as [[[]|e'] s'];
    cbn in *; done.
Qed.

Lemma parse_followers_order_witness :
  match parse_followers (holding_two zero_followers shouted_followers)
          [[]; [x00]],
        parse_followers (holding_two zero_followers shouted_followers)
          [[x00]; []] with
  | Ok s, Ok s' => set_equal s s'
  | Raise _, Raise _ => True
  | _, _ => False
  end.
Proof.
  apply (parse_followers_order
           (holding_two zero_followers shouted_followers)).
  apply Permutation_swap.
Defined.


(** ** The same user in two followers buffers *)




(** ** The two following parsers *)

Lemma following_ts_entry_ok_simple (entry : json) (s s' : users)
    (t t' : timestamps) :
  following_ts_entry entry (s, t) = (Ok tt, (s', t')) →
  following_entry entry s = (Ok tt, s').
Proof.
  destruct entry as [| | | | | |d]; try done.
  unfold following_ts_entry, following_entry, bind, lift, py_get.
  destruct (truthy (default JNull (dict_get "title" d))); [|by intros [= <-]].
  destruct (py_strip (default JNull (dict_get "title" d))) as [name|e];
    [|done].
  cbn. generalize (default (JArr []) (dict_get "string_list_data" d)).
  intros string_list.
  destruct (truthy string_list); [|by intros [= <- _]].
  destruct (py_index0 string_list) as [first|e]; [|done].
  destruct first as [| | | | | |f]; try done. cbn.
  by destruct (truthy (default JNull (dict_get "timestamp" f)));
    intros [= <- _].
Qed.

Lemma following_ts_entries_ok_simple (entries : list json) (s s' : users)
    (t t' : timestamps) :
  for_each entries following_ts_entry (s, t) = (Ok tt, (s', t')) →
  for_each entries following_entry s = (Ok tt, s').
Proof.
  revert s t. induction entries as [|entry entries IH]; intros s t; cbn.
  - by intros [= <- _].
  - unfold bind.
    destruct (following_ts_entry entry (s, t)) as [[[]|e] [s1 t1]] eqn:E;
      [|done].
    rewrite (following_ts_entry_ok_simple _ _ _ _ _ E). apply IH.
Qed.

(** X4. Whenever [parse_following_with_timestamps] returns, [parse_following]
    returns the same set. The converse fails: a ["string_list_data"] that
    is a number makes only the timestamp parser raise. *)
Theorem parse_following_of_timestamps loads (content : bytes)
    (s : users) (ts : timestamps) :
  (parse_following_with_timestamps loads content = Ok (s, ts) →
   parse_following loads content = Ok s)
  ∧ parse_following
      (holding (JObj [("relationships_following",
                       JArr [JObj [("title", JStr "user2");
                                   ("string_list_data", JInt 5)]])])) []
    = Ok {["user2" := User "user2"]}
  ∧ parse_following_with_timestamps
      (holding (JObj [("relationships_following",
                       JArr [JObj [("title", JStr "user2");
                                   ("string_list_data", JInt 5)]])])) []
    = Raise TypeError.
Proof.
  split; [|by split].
  unfold parse_following_with_timestamps, parse_following, run, try_except,
    bind, lift.
  destruct (loads content) as [data|e]; cbn.
  - destruct data as [| | | | | |top]; try done. cbn.
    destruct (default (JArr []) (dict_get "relationships_following" top))
      as [| | | | |entries|]; cbn; try by intros [= <- _].
    destruct (for_each entries following_ts_entry (∅, ∅))
      as [[[]|e] [s1 t1]] eqn:E.
    + rewrite (following_ts_entries_ok_simple _ _ _ _ _ E).
      by intros [= <- _].
    + pose proof (uncaught_for_each entries following_ts_entry
                    following_ts_entry_uncaught (∅, ∅) e) as Hu.
      rewrite E in Hu. rewrite (Hu eq_refl). done.
  - destruct (decode_error e); cbn; [by intros [= <- _] | done].
Qed.

Lemma parse_following_of_timestamps_witness :
  parse_following (holding valid_following_json) []
  = Ok (list_to_map [("user2", User "user2"); ("user4", User "user4")]).
Proof.
  destruct (parse_following_of_timestamps (holding valid_following_json) []
              (list_to_map [("user2", User "user2"); ("user4", User "user4")])
              (list_to_map [("user2", JInt 123); ("user4", JInt 124)]))
    as [H _].
  apply H. reflexivity.
Defined.

(** X5. Every key of the map [parse_following_with_timestamps] returns is
    the key of a user of the set it returns, and no timestamp in it is
    zero. *)
Theorem parse_following_timestamps_keys loads (content : bytes)
    (s : users) (ts : timestamps) :
  parse_following_with_timestamps loads content = Ok (s, ts) →
  ∀ k v, ts !! k = Some v → v ≠ JInt 0 ∧ k ∈ dom s.
Proof.
  intros H k v Hk.
  destruct (parse_following_ts_invs _ _ _ _ H) as [_ Hts].
  destruct (Hts k v Hk) as [Htrue Hdom]. split; [|done].
  intros ->. discriminate Htrue.
Qed.

Lemma parse_following_timestamps_keys_witness :
  JInt 123 ≠ JInt 0
  ∧ "user2" ∈ dom (list_to_map [("user2", User "user2");
                                 ("user4", User "user4")] : users).
Proof.
  apply (parse_following_timestamps_keys (holding valid_following_json) []
           _ (list_to_map [("user2", JInt 123); ("user4", JInt 124)])
           eq_refl "user2").
  reflexivity.
Defined.


(** ** Counts and edge cases of the analysis *)

(** X6. The totals of [analyze] split over its sets: the followers are
    the mutuals and those not followed back by me, the followed are the
    mutuals and those not following back. *)
Theorem analyze_counts (F G : users) :
  total_followers (analyze F G)
  = set_len (mutual (analyze F G)) + set_len (not_followed_by_me (analyze F G))
  ∧ total_following (analyze F G)
    = set_len (mutual (analyze F G))
      + set_len (not_following_back (analyze F G)).
Proof.
  assert (Hsplit : ∀ X Y : gset string,
            size X = (size (X ∩ Y) + size (X ∖ Y))%nat).
  { intros X Y. rewrite <- size_union by set_solver. f_equal.
    apply set_eq. intros k. destruct (decide (k ∈ Y)); set_solver. }
  cbn [analyze mutual not_following_back not_followed_by_me
       total_followers total_following].
  unfold set_len, set_sub. rewrite <- !size_dom.
  rewrite !dom_difference_L, !dom_set_and. split.
  - rewrite (Hsplit (dom F) (dom G)). lia.
  - rewrite (Hsplit (dom G) (dom F)).
    replace (dom G ∩ dom F) with (dom F ∩ dom G) by set_solver. lia.
Qed.

(** X7. With nobody followed, every follower is not followed by me and
    the other sets are empty; with no follower, everybody followed is not
    following back; a set analysed against itself is all mutual. *)
Theorem analyze_edges (F : users) :
  analyze F ∅
  = {| not_following_back := ∅; not_followed_by_me := F; mutual := ∅;
       total_followers := set_len F; total_following := 0 |}
  ∧ analyze ∅ F
    = {| not_following_back := F; not_followed_by_me := ∅; mutual := ∅;
         total_followers := 0; total_following := set_len F |}
  ∧ analyze F F
    = {| not_following_back := ∅; not_followed_by_me := ∅; mutual := F;
         total_followers := set_len F; total_following := set_len F |}.
Proof.
  assert (He : ∀ a : users, set_and a ∅ = ∅ ∧ set_and ∅ a = ∅).
  { intros a. unfold set_and.
    split; destruct (bool_decide _); apply map_eq; intros k;
      rewrite lookup_intersection, lookup_empty; by destruct (a !! k). }
  assert (Hs : set_and F F = F).
  { unfold set_and. destruct (bool_decide _); apply map_eq; intros k;
      rewrite lookup_intersection; by destruct (F !! k). }
  assert (Hd : F ∖ F = ∅).
  { apply map_eq. intros k. rewrite lookup_difference, lookup_empty.
    by destruct (F !! k). }
  unfold analyze, set_sub. destruct (He F) as [-> ->]. rewrite Hs, Hd.
  rewrite map_difference_empty.
  assert ((∅ : users) ∖ F = ∅) as ->.
  { apply map_eq. intros k. rewrite lookup_difference, !lookup_empty.
    by destruct (F !! k). }
  done.
Qed.

(** X8. [analyze] keeps what the parsers establish: when every user of
    the two sets is stored under its own key with a trimmed handle, so is
    every user of the three sets it returns. *)
Theorem analyze_keeps_handles (F G : users) :
  handles_inv F → handles_inv G →
  handles_inv (mutual (analyze F G))
  ∧ handles_inv (not_following_back (analyze F G))
  ∧ handles_inv (not_followed_by_me (analyze F G)).
Proof.
  intros HF HG. cbn [analyze mutual not_following_back not_followed_by_me].
  unfold set_sub. split; [|split]; intros k u Hk.
  - apply set_and_lookup in Hk as [Hk|Hk]; [by apply HF | by apply HG].
  - apply lookup_difference_Some in Hk as [Hk _]. by apply HG.
  - apply lookup_difference_Some in Hk as [Hk _]. by apply HF.
Qed.

Lemma analyze_keeps_handles_witness :
  handles_inv (mutual (analyze {["user1" := User "user1"]}
                               {["user1" := User "user1"]})).
Proof.
  assert (H : handles_inv ({["user1" := User "user1"]} : users)).
  { intros k u [<- <-]%lookup_singleton_Some. split; [done|].
    by apply (trimmed_handle_strip "user1"). }
  apply (analyze_keeps_handles _ _ H H).
Defined.

(** ** The entity in a set *)

(** X9. [__eq__] is an equivalence on users and users it makes equal
    have the same [__hash__], whatever [hash] is on strings; so a set
    does not tell equal users apart, and a user is in a set after [add]
    exactly when it equals the added one or was in the set. *)
Theorem user_eq_membership (hash : string → Z) (u v w : InstagramUser)
    (s : users) :
  user_eqb u u = true
  ∧ user_eqb u v = user_eqb v u
  ∧ (user_eqb u v = true → user_eqb v w = true → user_eqb u w = true)
  ∧ (user_eqb u v = true → user_hash hash u = user_hash hash v)
  ∧ (user_eqb u v = true → set_in u s = set_in v s)
  ∧ set_in u (set_add v s) = user_eqb u v || set_in u s.
Proof.
  repeat split.
  - by apply user_eqb_key.
  - unfold user_eqb. apply String.eqb_sym.
  - rewrite !user_eqb_key. congruence.
  - rewrite user_eqb_key. unfold user_hash, key. by intros ->.
  - rewrite user_eqb_key. unfold set_in. by intros ->.
  - unfold set_in. destruct (user_eqb u v) eqn:E.
    + apply user_eqb_key in E. rewrite E. cbn.
      apply bool_decide_eq_true. apply set_add_lookup.
    + assert (key v ≠ key u) as Hne.
      { intros Hk. symmetry in Hk. apply user_eqb_key in Hk. congruence. }
      cbn. apply bool_decide_ext. unfold set_add.
      destruct (s !! key v); [done|]. by rewrite lookup_insert_ne.
Qed.

Lemma user_eq_membership_witness :
  user_eqb (User "A") (User "a") = true
  ∧ user_hash (λ s, Z.of_nat (String.length s)) (User "Ab")
    = user_hash (λ s, Z.of_nat (String.length s)) (User "aB")
  ∧ set_in (User "A") {["a" := User "a"]}
    = set_in (User "a") {["a" := User "a"]}.
Proof.
  destruct (user_eq_membership (λ s, Z.of_nat (String.length s))
              (User "A") (User "a") (User "a") {["a" := User "a"]})
    as (_ & _ & H3 & _ & H5 & _).
  destruct (user_eq_membership (λ s, Z.of_nat (String.length s))
              (User "Ab") (User "aB") (User "aB") ∅)
    as (_ & _ & _ & H4 & _).
  split; [apply H3; reflexivity|]. split; [apply H4|apply H5]; reflexivity.
Defined.

(** ** The links of a user *)

Lemma lower_app (s t : string) : lower (s ++ t) = lower s ++ lower t.
Proof.
  induction s as [|c s IH]; [done|].
  change (String (lower_char c) (lower (s ++ t))
          = String (lower_char c) (lower s ++ lower t)).
  by rewrite IH.
Qed.

Lemma string_app_inj_r (s t r : string) : s ++ r = t ++ r → s = t.
Proof.
  assert (Hl : ∀ a b : string,
            list_ascii_of_string (a ++ b)
            = (list_ascii_of_string a ++ list_ascii_of_string b)%list).
  { intros a b. induction a as [|c a IH]; [done|].
    change (c :: list_ascii_of_string (a ++ b)
            = c :: (list_ascii_of_string a ++ list_ascii_of_string b)%list).
    by rewrite IH. }
  intros H. apply (f_equal list_ascii_of_string) in H.
  rewrite !Hl in H. apply app_inv_tail in H.
  apply (f_equal string_of_list_ascii) in H.
  by rewrite !string_of_list_ascii_of_string in H.
Qed.

(** X10. Different handles have different profile links and different
    avatar links; the profile links of two users agree up to case exactly
    when the users are equal. *)
Theorem user_links (u v : InstagramUser) :
  (profile_url u = profile_url v → u = v)
  ∧ (avatar_url u = avatar_url v → u = v)
  ∧ (lower (profile_url u) = lower (profile_url v) ↔ user_eqb u v = true).
Proof.
  destruct u as [a], v as [b]. unfold profile_url, avatar_url. cbn [username].
  repeat split.
  - intros H. apply String.app_inj in H. by subst.
  - intros H. apply String.app_inj in H.
    apply string_app_inj_r in H. by subst.
  - rewrite !lower_app. intros H. apply String.app_inj in H.
    by apply user_eqb_key.
  - intros H. apply user_eqb_key in H. unfold key in H. cbn in H.
    by rewrite !lower_app, H.
Qed.

Lemma user_links_witness :
  User "user1" = User "user1"
  ∧ lower (profile_url (User "User1")) = lower (profile_url (User "user1")).
Proof.
  destruct (user_links (User "user1") (User "user1")) as (H1 & _ & _).
  destruct (user_links (User "User1") (User "user1")) as (_ & _ & H3).
  split; [by apply H1 | by apply H3].
Defined.


(** * Properties of the export, the pages and the session *)

(** ** Sorting *)

Lemma insert_sorted_perm {A} (before : A → A → bool) (x : A) (l : list A) :
  insert_sorted before x l ≡ₚ x :: l.
Proof.
  induction l as [|y l IH]; cbn; [done|].
  destruct (before y x); [|done]. rewrite IH. apply Permutation_swap.
Qed.

Lemma insertion_perm {A} (before : A → A → bool) (l : list A) :
  foldr (insert_sorted before) [] l ≡ₚ l.
Proof.
  induction l as [|x l IH]; cbn; [done|].
  by rewrite insert_sorted_perm, IH.
Qed.

Lemma py_sorted_perm {A K} (lt : K → K → bool) (key : A → K) (reverse : bool)
    (l : list A) :
  py_sorted lt key reverse l ≡ₚ l.
Proof. apply insertion_perm. Qed.

Section Insertion.
Context {A : Type} (before : A → A → bool).
Hypothesis before_asym : ∀ a b, before a b = true → before b a = false.
Hypothesis not_after_trans :
  ∀ a b c, before b a = false → before c b = false → before c a = false.

Lemma insert_sorted_sorted (x : A) (l : list A) :
  StronglySorted (λ a b, before b a = false) l →
  StronglySorted (λ a b, before b a = false) (insert_sorted before x l).
Proof.
  induction 1 as [|y l Hl IH Hy]; cbn.
  - repeat constructor.
  - destruct (before y x) eqn:E.
    + constructor; [done|].
      rewrite insert_sorted_perm. constructor; [|done].
      by apply before_asym.
    + constructor; [by constructor|]. constructor; [done|].
      eapply Forall_impl; [exact Hy|]. intros z Hz. cbn in Hz.
      by apply (not_after_trans x y z).
Qed.

Lemma insertion_sorted (l : list A) :
  StronglySorted (λ a b, before b a = false)
    (foldr (insert_sorted before) [] l).
Proof.
  induction l as [|x l IH]; cbn; [constructor|].
  by apply insert_sorted_sorted.
Qed.
End Insertion.

Lemma strongly_sorted_weaken {A} (R R' : A → A → Prop) (l : list A) :
  (∀ a b, R a b → R' a b) → StronglySorted R l → StronglySorted R' l.
Proof.
  intros HR. induction 1 as [|x l _ IH Hx]; constructor; [done|].
  eapply Forall_impl; [exact Hx|]. intros y. apply HR.
Qed.

Lemma string_ltb_leb (a b : string) :
  String.ltb a b = negb (String.leb b a).
Proof.
  unfold String.ltb, String.leb. rewrite (String.compare_antisym b a).
  by destruct (String.compare a b).
Qed.

Lemma string_ltb_false (a b : string) :
  String.ltb a b = false ↔ String.le b a.
Proof.
  rewrite string_ltb_leb, negb_false_iff. unfold String.le.
  by rewrite Is_true_true.
Qed.

(** [sorted(l, key=..., reverse=False)] on string keys is ascending. *)
Lemma py_sorted_str_ascending {A} (key : A → string) (l : list A) :
  StronglySorted (λ a b, String.le (key a) (key b))
    (py_sorted String.ltb key false l).
Proof.
  eapply strongly_sorted_weaken; [|apply insertion_sorted].
  - intros a b H. cbn beta in H. by apply string_ltb_false.
  - intros a b. rewrite !string_ltb_leb, negb_true_iff, negb_false_iff.
    intros Hab.
    destruct (String.leb_total (key a) (key b)) as [H|H]; [done|congruence].
  - intros a b c. rewrite !string_ltb_false. intros H1 H2. by etrans.
Qed.

(** ** The sheets of the export *)

Lemma length_set_iter (s : users) : length (set_iter s) = size s.
Proof.
  unfold set_iter. by rewrite length_fmap, length_map_to_list.
Qed.

Lemma set_bool_false (s : users) : set_bool s = false → set_iter s = [].
Proof.
  unfold set_bool. rewrite negb_false_iff, Nat.eqb_eq.
  intros H. apply nil_length_inv. by rewrite length_set_iter.
Qed.

Lemma set_iter_keys (s : users) :
  keyed s → key <$> set_iter s = (map_to_list s).*1.
Proof.
  intros Hk. unfold set_iter. rewrite <- list_fmap_compose.
  apply list_fmap_ext. intros i [k u] Hi. cbn. symmetry. apply Hk.
  apply elem_of_map_to_list. apply list_elem_of_lookup. eauto.
Qed.

Lemma set_iter_NoDup_keys (s : users) :
  keyed s → NoDup (key <$> set_iter s).
Proof.
  intros Hk. rewrite set_iter_keys by done. apply NoDup_fst_map_to_list.
Qed.

Lemma handles_inv_keyed (s : users) : handles_inv s → keyed s.
Proof. intros H k u Hk. by destruct (H k u Hk). Qed.

Lemma users_records_frame (l : list InstagramUser) :
  l ≠ [] →
  frame_of_records
    (map (λ u, [("Usuario", JStr (username u));
                ("Perfil", JStr (profile_url u))]) l)
  = [("Usuario", (λ u, JStr (username u)) <$> l);
     ("Perfil", (λ u, JStr (profile_url u)) <$> l)].
Proof.
  intros Hl. unfold frame_of_records.
  assert (Hk : ∀ l' : list InstagramUser,
            foldl add_keys ["Usuario"; "Perfil"]
              (map (λ u, [("Usuario", JStr (username u));
                          ("Perfil", JStr (profile_url u))]) l')
            = ["Usuario"; "Perfil"]).
  { induction l' as [|u l' IH]; [done|]. exact IH. }
  destruct l as [|u l]; [done|].
  change (foldl add_keys [] (map _ (u :: l)))
    with (foldl add_keys ["Usuario"; "Perfil"]
            (map (λ u, [("Usuario", JStr (username u));
                        ("Perfil", JStr (profile_url u))]) l)).
  rewrite Hk. cbn [map]. by rewrite !map_map.
Qed.

(** The rows of a sheet of users: its members by lower-cased handle. *)
Lemma users_frame_rows (s : users) :
  users_frame s
  = [("Usuario",
      (λ u, JStr (username u))
        <$> py_sorted String.ltb (λ x, lower (username x)) false (set_iter s));
     ("Perfil",
      (λ u, JStr (profile_url u))
        <$> py_sorted String.ltb (λ x, lower (username x)) false
              (set_iter s))].
Proof.
  unfold users_frame. destruct (set_bool s) eqn:E.
  - apply users_records_frame. intros H.
    pose proof (py_sorted_perm String.ltb (λ x, lower (username x)) false
                  (set_iter s)) as HP.
    rewrite H in HP. apply Permutation_nil in HP.
    unfold set_bool in E. rewrite <- length_set_iter, HP in E. done.
  - by rewrite (set_bool_false s E).
Qed.

(** X11. The frame [generate_excel] builds for a sheet of users, before
    the writer has it, has the two columns "Usuario" and "Perfil", also
    when there is no user, and each column has as many cells as the set
    has members; the counts the summary frame gives for the three sets
    of the results are the numbers of rows of their frames. *)
Theorem users_frame_shape (results : AnalysisResult) (s : users) :
  (users_frame s).*1 = ["Usuario"; "Perfil"]
  ∧ Forall (λ column, Z.of_nat (length column.2) = set_len s) (users_frame s)
  ∧ frame_len (users_frame s) = set_len s
  ∧ frame_column "Valor" (summary_data results)
    = Some [JInt (total_followers results); JInt (total_following results);
            JInt (frame_len (users_frame (not_following_back results)));
            JInt (frame_len (users_frame (not_followed_by_me results)));
            JInt (frame_len (users_frame (mutual results)))].
Proof.
  assert (Hlen : ∀ s, length (py_sorted String.ltb (λ x, lower (username x))
                                false (set_iter s)) = size s).
  { intros s'. by rewrite py_sorted_perm, length_set_iter. }
  assert (Hrows : ∀ s, frame_len (users_frame s) = set_len s).
  { intros s'. rewrite users_frame_rows. unfold frame_len, set_len.
    cbn [snd]. by rewrite length_fmap, Hlen. }
  split; [by rewrite users_frame_rows|]. split; [|split].
  - rewrite users_frame_rows. unfold set_len.
    repeat constructor; cbn; by rewrite length_fmap, Hlen.
  - apply Hrows.
  - by rewrite !Hrows.
Qed.

Lemma name_sorted_unique (l l' : list InstagramUser) :
  NoDup (key <$> l) → l ≡ₚ l' →
  py_sorted String.ltb (λ x, lower (username x)) false l
  = py_sorted String.ltb (λ x, lower (username x)) false l'.
Proof.
  intros Hnd HP.
  apply (StronglySorted_unique_strong
           (λ a b, String.le (key a) (key b))).
  - intros a b Ha Hb Hab Hba.
    assert (key a = key b) as Hk by (by apply (anti_symm String.le)).
    rewrite py_sorted_perm in Ha. rewrite py_sorted_perm, <- HP in Hb.
    apply list_elem_of_lookup in Ha as [i Hi], Hb as [j Hj].
    assert (i = j) as ->.
    { apply (NoDup_lookup (key <$> l) i j (key a)); [done|..];
        rewrite list_lookup_fmap; [by rewrite Hi | by rewrite Hj, Hk]. }
    congruence.
  - apply py_sorted_str_ascending.
  - apply py_sorted_str_ascending.
  - by rewrite !py_sorted_perm.
Qed.

(** X12. For a set that stores each user under its own key, the rows of
    its sheet are its members, each once, in strictly ascending order of
    lower-cased handle, with the handle in "Usuario" and the profile link
    in "Perfil" of the same row; the rows do not depend on the order in
    which the set is iterated. *)
Theorem users_frame_sorted (s : users) :
  keyed s →
  ∃ l, l ≡ₚ set_iter s
       ∧ StronglySorted name_before l
       ∧ users_frame s = [("Usuario", (λ u, JStr (username u)) <$> l);
                          ("Perfil", (λ u, JStr (profile_url u)) <$> l)]
       ∧ ∀ l', l' ≡ₚ set_iter s →
               py_sorted String.ltb (λ x, lower (username x)) false l' = l.
Proof.
  intros Hk.
  exists (py_sorted String.ltb (λ x, lower (username x)) false (set_iter s)).
  split; [apply py_sorted_perm|]. split; [|split].
  - pose proof (set_iter_NoDup_keys s Hk) as Hnd.
    rewrite <- (py_sorted_perm String.ltb (λ x, lower (username x)) false)
      in Hnd.
    pose proof (py_sorted_str_ascending (λ x, lower (username x))
                  (set_iter s)) as Hs.
    induction Hs as [|x l Hl IH Hx]; constructor.
    + apply IH. by apply NoDup_cons in Hnd as [_ ?].
    + apply NoDup_cons in Hnd as [Hnotin _].
      apply Forall_forall. intros y Hy.
      rewrite Forall_forall in Hx. specialize (Hx y Hy).
      unfold name_before. rewrite string_ltb_leb, negb_true_iff.
      destruct (String.leb (lower (username y)) (lower (username x))) eqn:E;
        [|done].
      exfalso. apply Hnotin. apply list_elem_of_fmap. exists y.
      split; [|done]. unfold key.
      by apply (anti_symm String.le); [|apply Is_true_true].
  - apply users_frame_rows.
  - intros l' HP. symmetry. apply name_sorted_unique; [|done].
    by apply set_iter_NoDup_keys.
Qed.

Lemma users_frame_sorted_witness :
  ∃ l, l ≡ₚ set_iter {["al" := User "Al"; "bob" := User "bob"]}
       ∧ StronglySorted name_before l
       ∧ users_frame {["al" := User "Al"; "bob" := User "bob"]}
         = [("Usuario", (λ u, JStr (username u)) <$> l);
            ("Perfil", (λ u, JStr (profile_url u)) <$> l)]
       ∧ ∀ l', l' ≡ₚ set_iter {["al" := User "Al"; "bob" := User "bob"]} →
               py_sorted String.ltb (λ x, lower (username x)) false l' = l.
Proof.
  apply (users_frame_sorted {["al" := User "Al"; "bob" := User "bob"]}).
  intros k u Hk. apply lookup_insert_Some in Hk as [[<- <-]|[_ Hk]]; [done|].
  by apply lookup_singleton_Some in Hk as [<- <-].
Defined.

(** ** The stepper *)

(** X13. Of the four steps, those before the current one are completed
    and show the check mark, the current one is active, those after it
    are pending, and both of these show their number; a step below 1
    leaves all four pending and a step above 4 all four completed, so
    that one step is active exactly for the steps 1 to 4. *)
Theorem stepper_statuses (current_step : Z) :
  (λ part, part.1.1) <$> steps_html_parts current_step
  = (replicate (Z.to_nat (Z.min (Z.max (current_step - 1) 0) 4)) "completed"
     ++ (if bool_decide (1 ≤ current_step ≤ 4) then ["active"] else [])
     ++ replicate (Z.to_nat (Z.min (Z.max (4 - current_step) 0) 4)) "pending")
    %list
  ∧ (λ part, part.2) <$> steps_html_parts current_step
    = ["Seguidores"; "Seguidos"; "Analizar"; "Resultados"]
  ∧ Forall2
      (λ part step, part.1.2 = if String.eqb part.1.1 "completed"
                               then check_mark else step.1)
      (steps_html_parts current_step) steps.
Proof.
  assert (Hcases : current_step ≤ 0 ∨ current_step = 1 ∨ current_step = 2
                   ∨ current_step = 3 ∨ current_step = 4 ∨ 5 ≤ current_step)
    by lia.
  destruct Hcases as [H|[->|[->|[->|[->|H]]]]];
    try (split; [done|split; [done|repeat constructor]]).
  - rewrite bool_decide_eq_false_2 by lia.
    rewrite Z.max_r, Z.min_l by lia. rewrite Z.max_l, Z.min_r by lia.
    unfold steps_html_parts, steps, stepper_part.
    cbn -[Z.ltb Z.eqb].
    repeat match goal with
           | |- context [?a <? current_step] =>
               rewrite (proj2 (Z.ltb_ge a current_step)) by lia
           | |- context [?a =? current_step] =>
               rewrite (proj2 (Z.eqb_neq a current_step)) by lia
           end.
    split; [done|]. split; [done|repeat constructor].
  - rewrite bool_decide_eq_false_2 by lia.
    rewrite Z.max_l, Z.min_r by lia. rewrite Z.max_r, Z.min_l by lia.
    unfold steps_html_parts, steps, stepper_part.
    cbn -[Z.ltb Z.eqb].
    repeat match goal with
           | |- context [?a <? current_step] =>
               rewrite (proj2 (Z.ltb_lt a current_step)) by lia
           end.
    split; [done|]. split; [done|repeat constructor].
Qed.

(** ** The session *)

Lemma init_state_union (ss : session) :
  init_state ss = ss ∪ list_to_map defaults.
Proof.
  unfold init_state. generalize defaults. intros l. revert ss.
  induction l as [|[k v] l IH]; intros ss.
  - cbn. by rewrite (right_id_L ∅ (∪)).
  - change (foldl _ ss ((k, v) :: l))
      with (foldl
              (λ acc kv, match acc !! kv.1 with
                         | Some _ => acc
                         | None => <[kv.1 := kv.2]> acc
                         end)
              (match ss !! k with Some _ => ss | None => <[k := v]> ss end)
              l).
    change (list_to_map ((k, v) :: l))
      with (<[k := v]> (list_to_map l : session)).
    rewrite IH. apply map_eq. intros i.
    rewrite !lookup_union. destruct (ss !! k) eqn:E.
    + rewrite lookup_insert. case_decide as Hi; [|done].
      subst i. rewrite E. by destruct (list_to_map l !! k).
    + rewrite !lookup_insert. case_decide as Hi; [|done].
      subst i. rewrite E. by destruct (list_to_map l !! k).
Qed.

Lemma init_state_keeps (ss : session) (k : string) (v : session_value) :
  ss !! k = Some v → init_state ss !! k = Some v.
Proof.
  intros H. by rewrite init_state_union, lookup_union, H, union_Some_l.
Qed.

(** X15. [init_state] keeps every entry the session has, whatever it
    holds, sets each of its five keys that is missing to its default, and
    touches no other key; run again, it changes nothing. *)
Theorem init_state_defaults (ss : session) (k : string) :
  (∀ v, ss !! k = Some v → init_state ss !! k = Some v)
  ∧ (ss !! k = None →
     init_state ss !! k = (list_to_map defaults : session) !! k)
  ∧ (k ∉ defaults.*1 → init_state ss !! k = ss !! k)
  ∧ (k ∈ defaults.*1 → is_Some (init_state ss !! k))
  ∧ init_state (init_state ss) = init_state ss.
Proof.
  rewrite !init_state_union. repeat split.
  - intros v H. by rewrite lookup_union, H, union_Some_l.
  - intros H. by rewrite lookup_union, H, (left_id_L None (∪)).
  - intros H. rewrite lookup_union.
    rewrite (not_elem_of_list_to_map_1 defaults k H).
    by rewrite (right_id_L None (∪)).
  - intros H. rewrite lookup_union.
    assert (is_Some ((list_to_map defaults : session) !! k)) as [v ->].
    { apply elem_of_dom. by rewrite dom_list_to_map_L, elem_of_list_to_set. }
    destruct (ss !! k); by eexists.
  - by rewrite <- (assoc_L (∪)), (idemp_L (∪)).
Qed.

Lemma init_state_defaults_witness :
  init_state {["followers" := SUsers {["a" := User "a"]}]} !! "followers"
  = Some (SUsers {["a" := User "a"]})
  ∧ init_state ∅ !! "results" = (list_to_map defaults : session) !! "results"
  ∧ init_state {["sort_fans" := SOther JNull]} !! "sort_fans"
    = ({["sort_fans" := SOther JNull]} : session) !! "sort_fans"
  ∧ is_Some (init_state ∅ !! "following").
Proof.
  destruct (init_state_defaults
              {["followers" := SUsers {["a" := User "a"]}]} "followers")
    as (H1 & _).
  destruct (init_state_defaults ∅ "results") as (_ & H2 & _).
  destruct (init_state_defaults {["sort_fans" := SOther JNull]} "sort_fans")
    as (_ & _ & H3 & _).
  destruct (init_state_defaults ∅ "following") as (_ & _ & _ & H4 & _).
  repeat apply conj.
  - by apply H1.
  - by apply H2.
  - apply H3. apply (bool_decide_unpack _). by vm_compute.
  - apply H4. apply (bool_decide_unpack _). by vm_compute.
Defined.

Lemma init_state_lookup_default (ss : session) (k : string) (d : session_value) :
  (list_to_map defaults : session) !! k = Some d →
  init_state ss !! k = Some (default d (ss !! k)).
Proof.
  intros Hd. rewrite init_state_union, lookup_union, Hd.
  by destruct (ss !! k).
Qed.

Lemma main_step_run (p : page) :
  ∃ step followers following results,
    main_step {| session_state := init_state (session_state p);
                 notices := notices p |}
    = (Ok step, {| session_state := init_state (session_state p);
                   notices := notices p |})
    ∧ init_state (session_state p) !! "followers" = Some followers
    ∧ init_state (session_state p) !! "following" = Some following
    ∧ init_state (session_state p) !! "results" = Some results.
Proof.
  unfold main_step, session_read, bind, ret. cbn [session_state].
  rewrite !(init_state_lookup_default _ _ SNone) by reflexivity.
  by eexists _, _, _, _.
Qed.

(** X14. Once [init_state] has run, [main] finds a step from 1 to 4, so
    that the stepper shows exactly one active step: 4 when there are
    results, else 3 when a following set is stored, whether or not a
    followers set is, else 2 when a followers set is stored, else 1. *)
Theorem main_step_range (p : page) :
  ∃ step followers following results,
    main_step {| session_state := init_state (session_state p);
                 notices := notices p |}
    = (Ok step, {| session_state := init_state (session_state p);
                   notices := notices p |})
    ∧ init_state (session_state p) !! "followers" = Some followers
    ∧ init_state (session_state p) !! "following" = Some following
    ∧ init_state (session_state p) !! "results" = Some results
    ∧ 1 ≤ step ≤ 4
    ∧ length (filter (λ part, part.1.1 = "active") (steps_html_parts step))
      = 1%nat
    ∧ (step = 4 ↔ results ≠ SNone)
    ∧ (step = 3 ↔ results = SNone ∧ following ≠ SNone)
    ∧ (step = 2 ↔ results = SNone ∧ following = SNone ∧ followers ≠ SNone).
Proof.
  exists (if is_not_none (default SNone (session_state p !! "results")) then 4
          else if is_not_none (default SNone (session_state p !! "following"))
               then 3
          else if is_not_none (default SNone (session_state p !! "followers"))
               then 2
          else 1),
    (default SNone (session_state p !! "followers")),
    (default SNone (session_state p !! "following")),
    (default SNone (session_state p !! "results")).
  unfold main_step, session_read, bind, ret. cbn [session_state].
  rewrite !(init_state_lookup_default _ _ SNone) by reflexivity.
  split; [done|]. do 3 (split; [done|]).
  destruct (default SNone (session_state p !! "results")),
           (default SNone (session_state p !! "following")),
           (default SNone (session_state p !! "followers"));
    cbn; (split; [lia|]); (split; [reflexivity|]); naive_solver.
Qed.

(** ** The uploads *)

(** What an upload block makes of the page, from what the parser
    returned. *)
Lemma upload_followers_run loads (contents : list bytes) (p : page) :
  upload_followers loads contents p
  = (Ok tt,
     match contents with
     | [] => p
     | _ =>
         match parse_followers_with_timestamps loads contents with
         | Raise _ =>
             {| session_state := session_state p;
                notices := notices p ++ [Error] |}
         | Ok parsed =>
             if set_bool parsed.1 then
               {| session_state :=
                    <["followers_timestamps" := STimestamps parsed.2]>
                      (<["followers" := SUsers parsed.1]> (session_state p));
                  notices := notices p ++ [Success (set_len parsed.1)] |}
             else {| session_state := session_state p;
                     notices := notices p ++ [Warning] |}
         end
     end).
Proof.
  destruct contents as [|b contents]; [done|].
  unfold upload_followers, try_except, bind, lift.
  destruct (parse_followers_with_timestamps loads (b :: contents))
    as [parsed|e]; [|done].
  by destruct (set_bool parsed.1).
Qed.

Lemma upload_following_run loads (file : option bytes) (p : page) :
  upload_following loads file p
  = (Ok tt,
     match file with
     | None => p
     | Some content =>
         match parse_following_with_timestamps loads content with
         | Raise _ =>
             {| session_state := session_state p;
                notices := notices p ++ [Error] |}
         | Ok parsed =>
             if set_bool parsed.1 then
               {| session_state :=
                    <["following_timestamps" := STimestamps parsed.2]>
                      (<["following" := SUsers parsed.1]> (session_state p));
                  notices := notices p ++ [Success (set_len parsed.1)] |}
             else {| session_state := session_state p;
                     notices := notices p ++ [Warning] |}
         end
     end).
Proof.
  destruct file as [content|]; [|done].
  unfold upload_following, try_except, bind, lift.
  destruct (parse_following_with_timestamps loads content)
    as [parsed|e]; [|done].
  by destruct (set_bool parsed.1).
Qed.

(** X16. The upload blocks of [main] never raise, whatever the parsers
    do. When the parser raises, the session is left as it was and an
    error is shown; otherwise the session either stays as it was or gets
    the set and the map of one and the same parse, the set not empty; no
    other key of the session is touched. *)
Theorem uploads_tolerant loads (contents : list bytes) (file : option bytes)
    (p : page) :
  ((upload_followers loads contents p).1 = Ok tt
   ∧ (∀ k, k ≠ "followers" → k ≠ "followers_timestamps" →
        session_state (upload_followers loads contents p).2 !! k
        = session_state p !! k)
   ∧ (session_state (upload_followers loads contents p).2 = session_state p
      ∨ ∃ s ts,
          parse_followers_with_timestamps loads contents = Ok (s, ts)
          ∧ set_bool s = true
          ∧ session_state (upload_followers loads contents p).2 !! "followers"
            = Some (SUsers s)
          ∧ session_state (upload_followers loads contents p).2
              !! "followers_timestamps" = Some (STimestamps ts))
   ∧ (∀ e, contents ≠ [] →
        parse_followers_with_timestamps loads contents = Raise e →
        (upload_followers loads contents p).2
        = {| session_state := session_state p;
             notices := notices p ++ [Error] |}))
  ∧ ((upload_following loads file p).1 = Ok tt
     ∧ (∀ k, k ≠ "following" → k ≠ "following_timestamps" →
          session_state (upload_following loads file p).2 !! k
          = session_state p !! k)
     ∧ (session_state (upload_following loads file p).2 = session_state p
        ∨ ∃ content s ts,
            file = Some content
            ∧ parse_following_with_timestamps loads content = Ok (s, ts)
            ∧ set_bool s = true
            ∧ session_state (upload_following loads file p).2 !! "following"
              = Some (SUsers s)
            ∧ session_state (upload_following loads file p).2
                !! "following_timestamps" = Some (STimestamps ts))
     ∧ (∀ content e, file = Some content →
          parse_following_with_timestamps loads content = Raise e →
          (upload_following loads file p).2
          = {| session_state := session_state p;
               notices := notices p ++ [Error] |})).
Proof.
  rewrite upload_followers_run, upload_following_run. cbn [fst snd]. split.
  - split; [done|]. destruct contents as [|b contents].
    { split; [done|]. split; [by left|]. done. }
    destruct (parse_followers_with_timestamps loads (b :: contents))
      as [[s ts]|e] eqn:E; cbn [fst snd].
    + destruct (set_bool s) eqn:Hs; cbn [session_state].
      * split; [|split; [|done]].
        -- intros k H1 H2. by rewrite !lookup_insert_ne.
        -- right. exists s, ts. repeat split; [done|..].
           ++ by rewrite lookup_insert_ne, lookup_insert_eq.
           ++ by rewrite lookup_insert_eq.
      * split; [done|]. split; [by left|done].
    + split; [done|]. split; [by left|]. by intros e' _ [= <-].
  - split; [done|]. destruct file as [content|].
    2:{ split; [done|]. split; [by left|]. done. }
    destruct (parse_following_with_timestamps loads content)
      as [[s ts]|e] eqn:E; cbn [fst snd].
    + destruct (set_bool s) eqn:Hs; cbn [session_state].
      * split; [|split].
        -- intros k H1 H2. by rewrite !lookup_insert_ne.
        -- right. exists content, s, ts. repeat split; [done|done|..].
           ++ by rewrite lookup_insert_ne, lookup_insert_eq.
           ++ by rewrite lookup_insert_eq.
        -- intros c e [= <-]. congruence.
      * split; [done|]. split; [by left|]. intros c e [= <-]. congruence.
    + split; [done|]. split; [by left|]. by intros c e' [= <-] _.
Qed.

Lemma uploads_tolerant_witness :
  (upload_followers (holding (JArr [JInt 1])) [[]]
     {| session_state := init_state ∅; notices := [] |}).2
  = {| session_state := init_state ∅; notices := [] ++ [Error] |}
  ∧ (upload_following (holding (JArr [])) (Some [])
       {| session_state := init_state ∅; notices := [] |}).2
    = {| session_state := init_state ∅; notices := [] ++ [Error] |}.
Proof.
  destruct (uploads_tolerant (holding (JArr [JInt 1])) [[]] None
              {| session_state := init_state ∅; notices := [] |})
    as [(_ & _ & _ & H) _].
  destruct (uploads_tolerant (holding (JArr [])) [] (Some [])
              {| session_state := init_state ∅; notices := [] |})
    as [_ (_ & _ & _ & H')].
  split.
  - by apply (H AttributeError).
  - by apply (H' [] AttributeError).
Defined.

(** ** The session across runs *)

Lemma session_ok_lookups (ss ss' : session) :
  ss' !! "followers" = ss !! "followers" →
  ss' !! "followers_timestamps" = ss !! "followers_timestamps" →
  ss' !! "following" = ss !! "following" →
  ss' !! "following_timestamps" = ss !! "following_timestamps" →
  ss' !! "results" = ss !! "results" →
  session_ok ss → session_ok ss'.
Proof.
  unfold session_ok, stored, results_stored.
  intros -> -> -> -> ->. done.
Qed.

Lemma session_ok_init (ss : session) : session_ok ss → session_ok (init_state ss).
Proof.
  intros H.
  assert (Hk : ∀ k, is_Some (ss !! k) → init_state ss !! k = ss !! k).
  { intros k [v Hv]. rewrite Hv.
    by apply init_state_keeps. }
  pose proof H as (Hf & Hg & Hr).
  apply (session_ok_lookups ss); [..|done]; apply Hk.
  - destruct Hf as [[-> _]|(? & ? & -> & _)]; eauto.
  - destruct Hf as [[_ ->]|(? & ? & _ & -> & _)]; eauto.
  - destruct Hg as [[-> _]|(? & ? & -> & _)]; eauto.
  - destruct Hg as [[_ ->]|(? & ? & _ & -> & _)]; eauto.
  - destruct Hr as [->|(? & ? & _ & _ & ->)]; eauto.
Qed.

Lemma session_inv_empty : session_inv ∅.
Proof.
  unfold session_inv, session_ok, stored, results_stored.
  rewrite !(init_state_lookup_default _ _ SNone) by reflexivity.
  rewrite !(init_state_lookup_default _ _ (STimestamps ∅)) by reflexivity.
  rewrite !lookup_empty. cbn. auto.
Qed.

Lemma stored_value (ss : session) (k kts : string) :
  stored ss k kts →
  ∃ v, ss !! k = Some v ∧ (value_bool v = true → ∃ s, v = SUsers s).
Proof.
  intros [[-> _]|(s & ts & -> & _)]; eexists; (split; [done|]); [done|eauto].
Qed.

Lemma upload_followers_ok loads (contents : list bytes) (p : page) :
  session_ok (session_state p) →
  session_state p !! "results" = Some SNone →
  session_ok (session_state (upload_followers loads contents p).2)
  ∧ session_state (upload_followers loads contents p).2 !! "results"
    = Some SNone.
Proof.
  intros (Hf & Hg & Hr) Hnone. rewrite upload_followers_run. cbn [snd].
  destruct contents as [|b contents]; [done|].
  destruct (parse_followers_with_timestamps loads (b :: contents))
    as [[s ts]|e] eqn:E; [|done].
  cbn [fst snd]. destruct (set_bool s) eqn:Hs; [|done].
  cbn [session_state]. destruct (parse_followers_ts_invs _ _ _ _ E) as [H1 H2].
  split; [|by rewrite !lookup_insert_ne].
  split; [|split].
  - right. exists s, ts.
    by rewrite lookup_insert_ne, !lookup_insert_eq.
  - unfold stored. by rewrite !lookup_insert_ne.
  - left. by rewrite !lookup_insert_ne.
Qed.

Lemma upload_following_ok loads (file : option bytes) (p : page) :
  session_ok (session_state p) →
  session_state p !! "results" = Some SNone →
  session_ok (session_state (upload_following loads file p).2)
  ∧ session_state (upload_following loads file p).2 !! "results"
    = Some SNone.
Proof.
  intros (Hf & Hg & Hr) Hnone. rewrite upload_following_run. cbn [snd].
  destruct file as [content|]; [|done].
  destruct (parse_following_with_timestamps loads content)
    as [[s ts]|e] eqn:E; [|done].
  cbn [fst snd]. destruct (set_bool s) eqn:Hs; [|done].
  cbn [session_state]. destruct (parse_following_ts_invs _ _ _ _ E) as [H1 H2].
  split; [|by rewrite !lookup_insert_ne].
  split; [|split].
  - unfold stored. by rewrite !lookup_insert_ne.
  - right. exists s, ts.
    by rewrite lookup_insert_ne, !lookup_insert_eq.
  - left. by rewrite !lookup_insert_ne.
Qed.

Lemma analizar_section_ok (clicked : bool) (p : page) :
  session_ok (session_state p) →
  session_state p !! "results" = Some SNone →
  ∃ rerun p',
    analizar_section clicked p = (Ok rerun, p')
    ∧ session_ok (session_state p')
    ∧ (rerun = false → session_state p' !! "results" = Some SNone).
Proof.
  intros (Hf & Hg & Hr) Hnone.
  destruct (stored_value _ _ _ Hf) as (f & Ef & Hfs).
  destruct (stored_value _ _ _ Hg) as (g & Eg & Hgs).
  unfold analizar_section, session_read, bind, ret. rewrite Ef.
  destruct (value_bool f) eqn:Bf; cbn.
  - rewrite Eg. destruct (value_bool g) eqn:Bg, clicked; cbn;
      try (by exists false, p).
    destruct (Hfs eq_refl) as [F ->], (Hgs eq_refl) as [G ->].
    rewrite Ef, Eg. cbn. eexists true, _. split; [done|].
    split; [|done]. cbn [session_state]. split; [|split].
    + unfold stored. by rewrite !lookup_insert_ne.
    + unfold stored. by rewrite !lookup_insert_ne.
    + right. exists F, G. split; [|split].
      * by rewrite lookup_insert_ne.
      * by rewrite lookup_insert_ne.
      * by rewrite lookup_insert_eq.
  - by exists false, p.
Qed.


(** ** Where the handles come from *)

(** A loop that returns has added what its turns added. *)
Lemma for_each_ok_adds {A} (f : A → list InstagramUser)
    (body : A → M users unit) (l : list A) :
  (∀ x s s', body x s = (Ok tt, s') → s' = add_all (f x) s) →
  ∀ s s', for_each l body s = (Ok tt, s') →
          s' = add_all (concat (f <$> l)) s.
Proof.
  intros Hbody. induction l as [|x l IH]; intros s s'; cbn [for_each].
  - by intros [= <-].
  - unfold bind. destruct (body x s) as [[[]|e] s1] eqn:E; [|done].
    intros H. change (concat (f <$> x :: l)) with (f x ++ concat (f <$> l))%list.
    rewrite add_all_app, <- (Hbody _ _ _ E). by apply IH.
Qed.

Lemma concat_fmap_fmap {A B C} (f : A → list B) (g : B → C) (l : list A) :
  concat ((λ x, g <$> f x) <$> l) = g <$> concat (f <$> l).
Proof.
  induction l as [|x l IH]; [done|].
  rewrite !fmap_cons. cbn [concat]. by rewrite fmap_app, IH.
Qed.

Lemma handle_field_adds (k : string) (v : json) (s s' : users) :
  (let! field := lift (py_get v k JNull) in
   if truthy field then
     let! stripped := lift (py_strip field) in
     modify (set_add (User stripped))
   else ret tt) s = (Ok tt, s') →
  s' = add_all ((λ raw, User (strip raw)) <$> handle_field k v) s.
Proof.
  destruct v as [| | | | | |d]; try done.
  unfold bind, lift, py_get, handle_field.
  destruct (dict_get k d) as [[|b|n|f|raw|l|d']|]; cbn.
  - by intros [= <-].
  - destruct b; [done|by intros [= <-]].
  - destruct (negb (n =? 0)); [done|by intros [= <-]].
  - destruct f; try done. by intros [= <-].
  - destruct (String.eqb raw ""); cbn; by intros [= <-].
  - destruct l; [by intros [= <-]|done].
  - destruct d'; [by intros [= <-]|done].
  - by intros [= <-].
Qed.

Lemma followers_entry_adds (entry : json) (s s' : users) :
  followers_entry entry s = (Ok tt, s') →
  s' = add_all ((λ raw, User (strip raw)) <$> entry_fields entry) s.
Proof.
  destruct entry as [| | | | | |e]; try done.
  unfold followers_entry, bind at 1, lift at 1, py_get, entry_fields.
  assert (Hitems : ∀ items : list json,
            for_each items followers_item s = (Ok tt, s') →
            s' = add_all ((λ raw, User (strip raw))
                            <$> concat (handle_field "value" <$> items)) s).
  { intros items H.
    rewrite (for_each_ok_adds
               (λ item, (λ raw, User (strip raw))
                          <$> handle_field "value" item) _ _
               (handle_field_adds "value") _ _ H).
    by rewrite concat_fmap_fmap. }
  assert (Hstr : ∀ items : list json,
            Forall (λ item, is_obj item = false) items →
            for_each items followers_item s = (Ok tt, s') → s' = s).
  { intros [|item items]; cbn; [by intros _ [= <-]|].
    intros Hi. apply Forall_cons in Hi as [Hi _].
    unfold bind. by destruct item. }
  destruct (dict_get "string_list_data" e) as [[| | | |str|items|d]|];
    cbn; try done.
  - unfold bind, lift. cbn. apply Hstr.
    induction str as [|c str IH]; by constructor.
  - unfold bind, lift. cbn. apply Hitems.
  - unfold bind, lift. cbn. apply Hstr.
    induction d as [|kv d IH]; by constructor.
  - by intros [= <-].
Qed.

Lemma followers_file_adds loads (content : bytes) (s s' : users) :
  followers_file loads content s = (Ok tt, s') →
  s' = add_all ((λ raw, User (strip raw))
                  <$> decoded_fields followers_document_fields
                        (loads content)) s.
Proof.
  unfold followers_file, try_except, bind at 1, lift at 1, decoded_fields.
  destruct (loads content) as [data|e].
  - destruct data as [| | | | |entries|]; cbn; try by intros [= <-].
    unfold bind, lift. cbn.
    destruct (for_each entries followers_entry s) as [[[]|e] s1] eqn:E.
    + intros [= <-].
      rewrite (for_each_ok_adds
                 (λ entry, (λ raw, User (strip raw)) <$> entry_fields entry)
                 _ _ followers_entry_adds _ _ E).
      by rewrite concat_fmap_fmap.
    + pose proof (uncaught_for_each entries followers_entry
                    followers_entry_uncaught s e) as Hu.
      rewrite E in Hu. by rewrite (Hu eq_refl).
  - destruct (decode_error e); cbn; [by intros [= <-]|done].
Qed.

Lemma parse_followers_adds loads (files : list bytes) (s : users) :
  parse_followers loads files = Ok s →
  s = add_all
        ((λ raw, User (strip raw))
           <$> concat ((λ content,
                          decoded_fields followers_document_fields
                            (loads content)) <$> files)) ∅.
Proof.
  unfold parse_followers, run.
  destruct (for_each files (followers_file loads) ∅) as [[[]|e] s1] eqn:E;
    [|done].
  intros [= <-].
  rewrite (for_each_ok_adds
             (λ content, (λ raw, User (strip raw))
                           <$> decoded_fields followers_document_fields
                                 (loads content))
             _ _ (followers_file_adds loads) _ _ E).
  by rewrite concat_fmap_fmap.
Qed.

Lemma parse_following_adds loads (content : bytes) (s : users) :
  parse_following loads content = Ok s →
  s = add_all ((λ raw, User (strip raw))
                 <$> decoded_fields following_document_fields
                       (loads content)) ∅.
Proof.
  unfold parse_following, run, try_except, bind at 1, lift at 1,
    decoded_fields.
  destruct (loads content) as [data|e].
  - destruct data as [| | | | | |top]; try done.
    unfold bind, lift, py_get, following_document_fields.
    destruct (dict_get "relationships_following" top)
      as [[| | | | |entries|]|]; cbn; try by intros [= <-].
    destruct (for_each entries following_entry ∅) as [[[]|e] s1] eqn:E.
    + intros [= <-].
      rewrite (for_each_ok_adds
                 (λ entry, (λ raw, User (strip raw))
                             <$> handle_field "title" entry)
                 _ _ (handle_field_adds "title") _ _ E).
      by rewrite concat_fmap_fmap.
    + pose proof (uncaught_for_each entries following_entry
                    following_entry_uncaught ∅ e) as Hu.
      rewrite E in Hu. by rewrite (Hu eq_refl).
  - destruct (decode_error e); cbn; [by intros [= <-]|done].
Qed.

Lemma elem_of_concat {A} (x : A) (ls : list (list A)) :
  x ∈ concat ls ↔ ∃ l, x ∈ l ∧ l ∈ ls.
Proof.
  induction ls as [|l ls IH]; cbn [concat].
  - split; [by intros ?%elem_of_nil|]. by intros (l & _ & ?%elem_of_nil).
  - rewrite elem_of_app, IH. split.
    + intros [H|(l' & H1 & H2)]; [exists l; split; [done|left]|].
      exists l'. split; [done|by right].
    + intros (l' & H1 & [->|H2]%elem_of_cons); [by left|right; eauto].
Qed.

(** The fields of the loops are the fields of the documents. *)
Lemma elem_of_handle_field (k : string) (v : json) (raw : string) :
  raw ∈ handle_field k v
  ↔ raw ≠ "" ∧ ∃ d, v = JObj d ∧ dict_get k d = Some (JStr raw).
Proof.
  unfold handle_field. split.
  - destruct v as [| | | | | |d]; try by intros ?%elem_of_nil.
    destruct (dict_get k d) as [[| | | |r| |]|] eqn:E;
      try by intros ?%elem_of_nil.
    destruct (String.eqb_spec r ""); [by intros ?%elem_of_nil|].
    intros ->%list_elem_of_singleton. eauto.
  - intros (Hne & d & -> & ->). apply String.eqb_neq in Hne.
    rewrite Hne. by apply list_elem_of_singleton.
Qed.

Lemma elem_of_followers_document_fields (data : json) (raw : string) :
  raw ∈ followers_document_fields data
  ↔ raw ≠ "" ∧ followers_value data raw.
Proof.
  unfold followers_document_fields, followers_value. split.
  - destruct data as [| | | | |entries|]; try by intros ?%elem_of_nil.
    intros (fs & Hraw & (entry & -> & Hentry)%list_elem_of_fmap)%elem_of_concat.
    destruct entry as [| | | | | |e]; try by apply elem_of_nil in Hraw.
    cbn in Hraw.
    destruct (dict_get "string_list_data" e) as [[| | | | |items|]|] eqn:E;
      try by apply elem_of_nil in Hraw.
    apply elem_of_concat
      in Hraw as (fs & Hraw & (item & -> & Hitem)%list_elem_of_fmap).
    apply elem_of_handle_field in Hraw as (Hne & i & -> & Hi).
    split; [done|]. by exists entries, e, items, i.
  - intros (Hne & entries & e & items & i & -> & He & Hitems & Hi & Hv).
    apply elem_of_concat. exists (entry_fields (JObj e)).
    split; [|apply list_elem_of_fmap; eauto].
    cbn. rewrite Hitems. apply elem_of_concat.
    exists (handle_field "value" (JObj i)).
    split; [|apply list_elem_of_fmap; eauto].
    apply elem_of_handle_field. eauto.
Qed.

Lemma elem_of_following_document_fields (data : json) (raw : string) :
  raw ∈ following_document_fields data
  ↔ raw ≠ "" ∧ following_title data raw.
Proof.
  unfold following_document_fields, following_title. split.
  - destruct data as [| | | | | |top]; try by intros ?%elem_of_nil.
    destruct (dict_get "relationships_following" top)
      as [[| | | | |entries|]|] eqn:E; try by intros ?%elem_of_nil.
    intros (fs & Hraw & (entry & -> & Hentry)%list_elem_of_fmap)%elem_of_concat.
    apply elem_of_handle_field in Hraw as (Hne & e & -> & He).
    split; [done|]. by exists top, entries, e.
  - intros (Hne & top & entries & e & -> & -> & He & Ht).
    apply elem_of_concat. exists (handle_field "title" (JObj e)).
    split; [|apply list_elem_of_fmap; eauto].
    apply elem_of_handle_field. eauto.
Qed.

Lemma elem_of_followers_fields loads (files : list bytes) (raw : string) :
  raw ∈ concat ((λ content,
                   decoded_fields followers_document_fields (loads content))
                  <$> files)
  ↔ followers_fields loads files raw.
Proof.
  unfold followers_fields, decoded_fields. split.
  - intros (fs & Hraw & (content & -> & Hc)%list_elem_of_fmap)%elem_of_concat.
    destruct (loads content) as [data|e] eqn:E;
      [|by apply elem_of_nil in Hraw].
    apply elem_of_followers_document_fields in Hraw as [Hne Hv].
    split; [done|]. by exists content, data.
  - intros (Hne & content & data & Hc & Hl & Hv).
    apply elem_of_concat. eexists. split; [|apply list_elem_of_fmap; eauto].
    cbn. rewrite Hl. by apply elem_of_followers_document_fields.
Qed.

Lemma elem_of_following_fields loads (content : bytes) (raw : string) :
  raw ∈ decoded_fields following_document_fields (loads content)
  ↔ following_fields loads content raw.
Proof.
  unfold following_fields, decoded_fields. split.
  - destruct (loads content) as [data|e]; [|by intros ?%elem_of_nil].
    intros [Hne Hv]%elem_of_following_document_fields. eauto.
  - intros (Hne & data & -> & Hv).
    by apply elem_of_following_document_fields.
Qed.

(** The members of a set made by [add] alone. *)
Lemma add_all_lookup (us : list InstagramUser) (s : users) (k : string)
    (u : InstagramUser) :
  add_all us s !! k = Some u → s !! k = Some u ∨ (u ∈ us ∧ k = key u).
Proof.
  revert s. induction us as [|v us IH]; intros s; cbn; [auto|].
  intros [H|[H ->]]%IH.
  - unfold set_add in H. destruct (s !! key v) eqn:E; [auto|].
    destruct (decide (k = key v)) as [->|Hne].
    + rewrite lookup_insert_eq in H. injection H as ->.
      right. split; [left|done].
    + rewrite lookup_insert_ne in H by done. auto.
  - right. split; [by right|done].
Qed.

Lemma lower_empty (s : string) : lower s = "" → s = "".
Proof. by destruct s. Qed.

Lemma add_all_handles_from (fields : string → Prop) (raws : list string) :
  (∀ raw, raw ∈ raws ↔ fields raw) →
  handles_from fields (add_all ((λ raw, User (strip raw)) <$> raws) ∅).
Proof.
  intros Hf.
  assert (H1 : ∀ k u,
            add_all ((λ raw, User (strip raw)) <$> raws) ∅ !! k = Some u →
            ∃ raw, fields raw ∧ username u = strip raw
                   ∧ k = lower (strip raw)).
  { intros k u [H|[(raw & -> & Hraw)%list_elem_of_fmap ->]]%add_all_lookup.
    - by rewrite lookup_empty in H.
    - exists raw. by rewrite <- Hf. }
  assert (H2 : ∀ raw, fields raw →
            is_Some (add_all ((λ raw, User (strip raw)) <$> raws) ∅
                     !! lower (strip raw))).
  { intros raw Hraw%Hf. apply elem_of_dom. rewrite dom_add_all.
    apply elem_of_union_l, elem_of_list_to_set, list_elem_of_fmap.
    exists (User (strip raw)). split; [done|].
    apply list_elem_of_fmap. eauto. }
  split; [exact H1|]. split; [exact H2|]. split.
  - intros (k & u & Hk & Hu). destruct (H1 k u Hk) as (raw & Hraw & E & _).
    exists raw. split; [done|]. apply strip_empty. congruence.
  - intros (raw & Hraw & Hs). apply strip_empty in Hs.
    destruct (H2 raw Hraw) as [u Hu]. rewrite Hs in Hu. cbn in Hu.
    exists "", u. split; [done|].
    destruct (H1 "" u Hu) as (raw' & _ & E & Hk).
    rewrite E. apply lower_empty. by rewrite <- Hk.
Qed.

Lemma parse_following_ts_ok_simple loads (content : bytes) (s : users)
    (ts : timestamps) :
  parse_following_with_timestamps loads content = Ok (s, ts) →
  parse_following loads content = Ok s.
Proof.
  unfold parse_following_with_timestamps, parse_following, run, try_except,
    bind, lift.
  destruct (loads content) as [data|e]; cbn.
  - destruct data as [| | | | | |top]; try done. cbn.
    destruct (default (JArr []) (dict_get "relationships_following" top))
      as [| | | | |entries|]; cbn; try by intros [= <- _].
    destruct (for_each entries following_ts_entry (∅, ∅))
      as [[[]|e] [s1 t1]] eqn:E.
    + rewrite (following_ts_entries_ok_simple _ _ _ _ _ E).
      by intros [= <- _].
    + pose proof (uncaught_for_each entries following_ts_entry
                    following_ts_entry_uncaught (∅, ∅) e) as Hu.
      rewrite E in Hu. rewrite (Hu eq_refl). done.
  - destruct (decode_error e); cbn; [by intros [= <- _] | done].
Qed.

Lemma parse_followers_handles_from loads (files : list bytes) (s : users) :
  parse_followers loads files = Ok s →
  handles_from (followers_fields loads files) s.
Proof.
  intros ->%parse_followers_adds. apply add_all_handles_from.
  intros raw. apply elem_of_followers_fields.
Qed.

Lemma parse_following_handles_from loads (content : bytes) (s : users) :
  parse_following loads content = Ok s →
  handles_from (following_fields loads content) s.
Proof.
  intros ->%parse_following_adds. apply add_all_handles_from.
  intros raw. apply elem_of_following_fields.
Qed.

(** C9, as the code has it. Whenever one of the four parsers returns a
    set, every member is stored under its lower-cased handle and its
    handle is the trimmed form of a non-empty string that is the
    ["value"] of an item, or the ["title"] of an entry, of a decoded
    buffer of the input; every such field has its member; and the set has
    a member with the empty handle exactly when one of these non-empty
    fields holds nothing but whitespace. *)
Theorem parsers_handles loads :
  (∀ files s, parse_followers loads files = Ok s →
     handles_from (followers_fields loads files) s)
  ∧ (∀ files s ts, parse_followers_with_timestamps loads files = Ok (s, ts) →
     handles_from (followers_fields loads files) s)
  ∧ (∀ content s, parse_following loads content = Ok s →
     handles_from (following_fields loads content) s)
  ∧ (∀ content s ts,
       parse_following_with_timestamps loads content = Ok (s, ts) →
     handles_from (following_fields loads content) s).
Proof.
  split; [|split; [|split]].
  - apply parse_followers_handles_from.
  - intros files s ts H. apply parse_followers_handles_from.
    by rewrite parse_followers_sim, H.
  - apply parse_following_handles_from.
  - intros content s ts H. apply parse_following_handles_from.
    by apply (parse_following_ts_ok_simple _ _ _ ts).
Qed.

Lemma parsers_handles_witness :
  handles_from (followers_fields (holding valid_followers_json) [[]])
    (list_to_map [("user1", User "user1"); ("user2", User "user2");
                  ("user3", User "user3")])
  ∧ handles_from (followers_fields (holding blank_followers) [[]])
      {["" := User ""]}
  ∧ handles_from (following_fields (holding valid_following_json) [])
      (list_to_map [("user2", User "user2"); ("user4", User "user4")])
  ∧ handles_from (following_fields (holding blank_following) [])
      {["" := User ""]}.
Proof.
  destruct (parsers_handles (holding valid_followers_json)) as (H1 & _).
  destruct (parsers_handles (holding blank_followers)) as (_ & H2 & _).
  destruct (parsers_handles (holding valid_following_json))
    as (_ & _ & H3 & _).
  destruct (parsers_handles (holding blank_following)) as (_ & _ & _ & H4).
  split; [|split; [|split]].
  - apply (H1 [[]]). reflexivity.
  - apply (H2 [[]] _ ∅). reflexivity.
  - apply (H3 []). reflexivity.
  - apply (H4 [] _ ∅). reflexivity.
Defined.

(** ** What the parsers tolerate, and what they do not *)













(** X17. A run of [main] raises nothing before the results page. Started
    on a session that, once initialised, holds for the followers and for
    the following nothing or a set that is not empty, of users with
    trimmed handles, with timestamps of its own users only, and for the
    results nothing or the analysis of exactly the two sets stored, as the
    empty session does, it either ends without raising on such a session,
    or reaches [render_results] on such a session, with the results it
    stores; what it returns or raises there, and the session it leaves,
    are those of [render_results]. *)
Theorem main_keeps_session loads
    (render_results : session_value → M page unit) (w : widgets)
    (p : page) :
  session_inv ∅
  ∧ (∀ ss, session_ok ss → session_inv ss)
  ∧ (session_inv (session_state p) →
     ∃ p', session_ok (session_state p')
           ∧ (main loads render_results w p = (Ok tt, p')
              ∨ ∃ r, session_state p' !! "results" = Some (SResults r)
                     ∧ main loads render_results w p
                       = render_results (SResults r) p')).
Proof.
  split; [apply session_inv_empty|]. split; [apply session_ok_init|].
  intros Hinv. unfold session_inv in Hinv.
  remember (main loads render_results w p) as out eqn:Hout.
  set (p0 := {| session_state := init_state (session_state p);
                notices := notices p |}).
  destruct (main_step_run p) as (step & f & g & r & Hstep & Ef & Eg & Er).
  fold p0 in Hstep.
  unfold main, bind at 1, modify in Hout. fold p0 in Hout.
  unfold bind at 1 in Hout. rewrite Hstep in Hout.
  unfold bind at 1, show, modify in Hout.
  set (p1 := {| session_state := session_state p0;
                notices := notices p0 ++ [Stepper step] |}) in *.
  assert (Hok1 : session_ok (session_state p1)) by done.
  assert (Er1 : session_state p1 !! "results" = Some r) by done.
  unfold bind at 1, session_read at 1 in Hout. rewrite Er1 in Hout.
  destruct (is_not_none r) eqn:Hr.
  - unfold bind at 1, ret at 1 in Hout.
    unfold bind at 1, session_read in Hout. rewrite Er1 in Hout.
    assert (∃ R, r = SResults R) as [R ->].
    { destruct Hok1 as (_ & _ & [Hn|(F & G & _ & _ & HR)]).
      - rewrite Er1 in Hn. injection Hn as ->. done.
      - rewrite Er1 in HR. injection HR as ->. eauto. }
    exists p1. split; [done|]. right. exists R. by split.
  - assert (r = SNone) as -> by (by destruct r).
    destruct (upload_followers_ok loads (followers_files w) p1 Hok1 Er1)
      as [Hok2 Er2].
    pose proof (upload_followers_run loads (followers_files w) p1) as Hrun2.
    set (p2 := (upload_followers loads (followers_files w) p1).2) in *.
    destruct (upload_following_ok loads (following_file w) p2 Hok2 Er2)
      as [Hok3 Er3].
    pose proof (upload_following_run loads (following_file w) p2) as Hrun3.
    set (p3 := (upload_following loads (following_file w) p2).2) in *.
    destruct (analizar_section_ok (analizar w) p3 Hok3 Er3)
      as (rerun & p4 & Hrun4 & Hok4 & Er4).
    assert (E2 : upload_followers loads (followers_files w) p1 = (Ok tt, p2)).
    { unfold p2. by rewrite Hrun2. }
    assert (E3 : upload_following loads (following_file w) p2 = (Ok tt, p3)).
    { unfold p3. by rewrite Hrun3. }
    unfold bind at 1 in Hout. unfold bind at 1 in Hout. rewrite E2 in Hout.
    unfold bind at 1 in Hout. rewrite E3, Hrun4 in Hout.
    exists p4. split; [done|]. left. destruct rerun; [done|].
    unfold bind, session_read in Hout. by rewrite (Er4 eq_refl) in Hout.
Qed.

Lemma main_keeps_session_witness :
  ∃ p', session_ok (session_state p')
        ∧ (main (holding valid_followers_json) (λ _ p, (Raise TypeError, p))
             {| followers_files := [[]]; following_file := None;
                analizar := false |}
             {| session_state := ∅; notices := [] |}
           = (Ok tt, p')
           ∨ ∃ r, session_state p' !! "results" = Some (SResults r)
                  ∧ main (holding valid_followers_json)
                      (λ _ p, (Raise TypeError, p))
                      {| followers_files := [[]]; following_file := None;
                         analizar := false |}
                      {| session_state := ∅; notices := [] |}
                    = (Raise TypeError, p')).
Proof.
  destruct (main_keeps_session (holding valid_followers_json)
              (λ _ p, (Raise TypeError, p))
              {| followers_files := [[]]; following_file := None;
                 analizar := false |}
              {| session_state := ∅; notices := [] |}) as (H0 & _ & H).
  apply H. exact H0.
Defined.

(** ** The cards *)








Lemma py_prefix_take {A} (n : Z) (l : list A) :
  0 ≤ n → py_prefix n l = take (Z.to_nat n) l.
Proof.
  intros H. unfold py_prefix. by rewrite (proj2 (Z.leb_le 0 n)).
Qed.

(** X19. With a count [items_to_show] that is not negative, the cards
    shown are the first [items_to_show] of the list, or all of it when it
    is shorter; the button "Ver más" is there exactly when some user is not
    shown, and the number it gives is the number of users not shown. *)
Theorem visible_users_spec (items_to_show : Z) (l : list InstagramUser) :
  0 ≤ items_to_show →
  visible_users items_to_show l `prefix_of` l
  ∧ Z.of_nat (length (visible_users items_to_show l))
    = Z.min items_to_show (total_users l)
  ∧ (ver_mas items_to_show l = None ↔ visible_users items_to_show l = l)
  ∧ (∀ remaining, ver_mas items_to_show l = Some remaining →
       0 < remaining
       ∧ Z.of_nat (length (visible_users items_to_show l)) + remaining
         = total_users l).
Proof.
  intros H. unfold visible_users, ver_mas, total_users.
  rewrite py_prefix_take by done.
  assert (Hlen : Z.of_nat (length (take (Z.to_nat items_to_show) l))
                 = Z.min items_to_show (Z.of_nat (length l))).
  { rewrite length_take. lia. }
  split; [apply prefix_take|]. split; [done|].
  destruct (Z.ltb_spec items_to_show (Z.of_nat (length l))) as [Hlt|Hge].
  - split.
    + split; [done|]. intros E. rewrite E in Hlen. lia.
    + intros r [= <-]. lia.
  - split; [|done]. split; [|done]. intros _. apply take_ge. lia.
Qed.

Lemma visible_users_spec_witness :
  visible_users 1 [User "a"; User "b"] `prefix_of` [User "a"; User "b"]
  ∧ Z.of_nat (length (visible_users 1 [User "a"; User "b"]))
    = Z.min 1 (total_users [User "a"; User "b"]).
Proof.
  destruct (visible_users_spec 1 [User "a"; User "b"]) as (H1 & H2 & _);
    [lia|]. by split.
Defined.

(** Whatever [>] raises is a [TypeError]. *)
Lemma py_gt_raises (a b : json) (e : exn) :
  py_gt a b = Raise e → e = TypeError.
Proof.
  revert a b e. fix py_gt_raises 1. intros a b e.
  destruct a as [|x|n|f|s|l|d]; cbn [py_gt].
  - by intros [= <-].
  - destruct (as_number b); cbn; [done|by intros [= <-]].
  - destruct (as_number b); cbn; [done|by intros [= <-]].
  - destruct (as_number b); cbn; [done|by intros [= <-]].
  - destruct b; by intros [= <-].
  - destruct b as [| | | | |l'|]; try (by intros [= <-]).
    revert l'. induction l as [|x l IH]; intros l'; [done|].
    destruct l' as [|y l']; [done|].
    destruct (py_same x y); [apply IH|apply py_gt_raises].
  - by intros [= <-].
Qed.

Lemma py_max_raises (a b : json) (e : exn) :
  py_max a b = Raise e → e = TypeError.
Proof.
  unfold py_max. destruct (py_gt b a) as [[]|e'] eqn:E; try done.
  intros [= <-]. by apply (py_gt_raises b a).
Qed.

Lemma py_max_int (a b : Z) : py_max (JInt a) (JInt b) = Ok (JInt (Z.max a b)).
Proof.
  unfold py_max. cbn. rewrite !Z.sub_diag, !Z.shiftl_0_r.
  destruct (Z.ltb_spec a b).
  - by rewrite Z.max_r by lia.
  - by rewrite Z.max_l by lia.
Qed.

Section DisplayTs.
Variables followers_ts following_ts : timestamps.


Lemma display_ts_loop_raised (l : list InstagramUser) (e : exn) :
  foldl (display_ts_turn followers_ts following_ts) (Raise e) l = Raise e.
Proof. by induction l. Qed.

Lemma display_ts_loop_ok (l : list InstagramUser) (acc : timestamps) :
  (∀ k, k ∈ key <$> l →
        ∃ m, py_max (ts_get followers_ts k) (ts_get following_ts k) = Ok m) →
  ∃ d, foldl (display_ts_turn followers_ts following_ts) (Ok acc) l = Ok d
       ∧ ∀ k, d !! k
              = if bool_decide (k ∈ key <$> l)
                then match py_max (ts_get followers_ts k)
                             (ts_get following_ts k) with
                     | Ok m => Some m
                     | Raise _ => None
                     end
                else acc !! k.
Proof.
  revert acc. induction l as [|u l IH]; intros acc Hl.
  - exists acc. split; [done|]. intros k. by rewrite bool_decide_eq_false_2
      by (by intros ?%elem_of_nil).
  - destruct (Hl (key u)) as [m Hm]; [rewrite fmap_cons; left|].
    cbn [foldl]. unfold display_ts_turn at 2. fold (key u). rewrite Hm.
    destruct (IH (<[key u := m]> acc)) as (d & -> & Hd).
    { intros k Hk. apply Hl. rewrite fmap_cons. by right. }
    exists d. split; [done|]. intros k. rewrite Hd, fmap_cons.
    destruct (decide (k ∈ key <$> l)) as [Hin|Hin].
    + rewrite !bool_decide_eq_true_2; [done|by right|done].
    + rewrite (bool_decide_eq_false_2 _ Hin).
      destruct (decide (k = key u)) as [->|Hne].
      * rewrite bool_decide_eq_true_2 by left.
        by rewrite lookup_insert_eq, Hm.
      * rewrite bool_decide_eq_false_2
          by (by intros [?|?]%elem_of_cons).
        by rewrite lookup_insert_ne.
Qed.

Lemma display_ts_loop_raises (l : list InstagramUser) (acc : timestamps)
    (e : exn) :
  foldl (display_ts_turn followers_ts following_ts) (Ok acc) l = Raise e →
  e = TypeError.
Proof.
  revert acc. induction l as [|u l IH]; intros acc; [done|].
  cbn [foldl]. unfold display_ts_turn at 2.
  destruct (py_max _ _) as [m|e'] eqn:E; [apply IH|].
  rewrite display_ts_loop_raised. intros [= <-]. by apply py_max_raises in E.
Qed.

Lemma display_ts_loop_raise (l : list InstagramUser) (acc : timestamps)
    (k : string) (e : exn) :
  k ∈ key <$> l →
  py_max (ts_get followers_ts k) (ts_get following_ts k) = Raise e →
  foldl (display_ts_turn followers_ts following_ts) (Ok acc) l
  = Raise TypeError.
Proof.
  intros Hk Hm.
  destruct (foldl (display_ts_turn followers_ts following_ts) (Ok acc) l)
    as [d|e'] eqn:E.
  - exfalso. revert acc E. induction l as [|u l IH]; intros acc;
      [by apply elem_of_nil in Hk|].
    cbn [foldl]. unfold display_ts_turn at 2. fold (key u).
    destruct (py_max (ts_get followers_ts (key u))
                (ts_get following_ts (key u))) as [m|e'] eqn:E';
      [|by rewrite display_ts_loop_raised].
    rewrite fmap_cons in Hk. apply elem_of_cons in Hk as [->|Hk];
      [congruence|]. by apply IH.
  - by rewrite (display_ts_loop_raises _ _ _ E).
Qed.
End DisplayTs.

(** X20. For a category other than "ghosts" and "fans" the cards show,
    for each user of the category, the larger of the user's two
    timestamps, a missing one counting as 0, and nothing for anybody
    else; between two integers this is the larger integer. When the two
    timestamps of some user cannot be compared, as a string and a number
    cannot, there are no cards: a [TypeError] is raised. *)
Theorem display_ts_spec (category : string) (users : users)
    (followers_ts following_ts : timestamps) :
  category ≠ "ghosts" → category ≠ "fans" →
  ((∀ k, k ∈ key <$> set_iter users →
         ∃ m, py_max (ts_get followers_ts k) (ts_get following_ts k) = Ok m) →
   ∃ d, display_ts category users followers_ts following_ts = Ok d
        ∧ ∀ k, d !! k
               = if bool_decide (k ∈ key <$> set_iter users)
                 then match py_max (ts_get followers_ts k)
                              (ts_get following_ts k) with
                      | Ok m => Some m
                      | Raise _ => None
                      end
                 else None)
  ∧ (∀ k e, k ∈ key <$> set_iter users →
            py_max (ts_get followers_ts k) (ts_get following_ts k) = Raise e →
            display_ts category users followers_ts following_ts
            = Raise TypeError)
  ∧ (∀ a b, py_max (JInt a) (JInt b) = Ok (JInt (Z.max a b)))
  ∧ (∀ s n, py_max (JStr s) (JInt n) = Raise TypeError
            ∧ py_max (JInt n) (JStr s) = Raise TypeError).
Proof.
  intros H1 H2.
  assert (E : display_ts category users followers_ts following_ts
              = foldl (display_ts_turn followers_ts following_ts) (Ok ∅)
                  (set_iter users)).
  { unfold display_ts.
    destruct (String.eqb_spec category "ghosts"); [done|].
    by destruct (String.eqb_spec category "fans"). }
  rewrite E. split; [|split; [|split]].
  - intros Hok.
    destruct (display_ts_loop_ok followers_ts following_ts (set_iter users)
                ∅ Hok) as (d & Hd & Hl).
    exists d. split; [exact Hd|]. intros k. rewrite Hl.
    by rewrite lookup_empty.
  - intros k e Hk He.
    exact (display_ts_loop_raise followers_ts following_ts (set_iter users)
             ∅ k e Hk He).
  - apply py_max_int.
  - by intros s n.
Qed.

Lemma display_ts_spec_witness :
  (∃ d, display_ts "mutuals" {["a" := User "A"]} {["a" := JInt 3]}
          {["a" := JInt 5]} = Ok d
        ∧ d !! "a" = Some (JInt 5))
  ∧ display_ts "mutuals" {["a" := User "A"]} {["a" := JStr "abc"]}
      {["a" := JInt 7]}
    = Raise TypeError.
Proof.
  destruct (display_ts_spec "mutuals" {["a" := User "A"]} {["a" := JInt 3]}
              {["a" := JInt 5]}) as (H1 & _);
    [apply (bool_decide_unpack _); by vm_compute..|].
  destruct (display_ts_spec "mutuals" {["a" := User "A"]}
              {["a" := JStr "abc"]} {["a" := JInt 7]}) as (_ & H2 & _);
    [apply (bool_decide_unpack _); by vm_compute..|].
  split.
  - destruct H1 as (d & Hd & Hk).
    + intros k Hk. assert (k = "a") as ->.
      { revert Hk. vm_compute. by intros ?%list_elem_of_singleton. }
      by eexists.
    + exists d. split; [done|]. by rewrite Hk.
  - apply (H2 "a" TypeError); [|done].
    apply (bool_decide_unpack _). by vm_compute.
Defined.
